(** * Review normalization, indexing and filtered retrieval

    A shallow embedding of the review pipeline of the [liquide] package:
    - [services/embedding_service.py]  (payload extraction, normalization,
      ingestion),
    - [services/qdrant_service.py]     (point ids, upsert, filter building,
      similarity query),
    - [services/search_review_service.py] (the query engine and its
      second-pass date filter).

    Python values are an inductive type [pyval]; a Python function that may
    raise returns [res A], with the exception class as the error.  Library
    capabilities whose behaviour is fixed outside the repository (ISO and
    [strptime] date parsing, [repr] of floats and containers, the host's
    local-time lookup, the embedding model and the nearest-neighbour engine)
    are fields of the classes [PyRuntime] and [VectorEngine]; [float()],
    [int()], [str.strip], [str.lower] and [hashlib.md5] are modelled in
    full on ASCII text.

    Text is restricted to 7-bit ASCII, where characters, code points and
    UTF-8 bytes coincide. *)

From Stdlib Require Import ZArith String Ascii List Bool Lia DecimalString.
From stdpp Require Import base gmap strings list.

Local Open Scope string_scope.
Local Open Scope list_scope.
Local Open Scope Z_scope.

(* ===================================================================== *)
(** ** Exceptions and results *)
(* ===================================================================== *)

Inductive exn :=
| ValueError | TypeError | AttributeError | IndexError | OverflowError.

Inductive res (A : Type) :=
| Ok (a : A)
| Raise (e : exn).
Arguments Ok {A} a.
Arguments Raise {A} e.

#[global] Instance res_ret : MRet res := fun A a => Ok a.
#[global] Instance res_bind : MBind res := fun A B f m =>
  match m with Ok a => f a | Raise e => Raise e end.
#[global] Instance res_fmap : FMap res := fun A B f m =>
  match m with Ok a => Ok (f a) | Raise e => Raise e end.

(* ===================================================================== *)
(** ** Floats (binary64)

    A finite double is the dyadic number [m * 2^e]; the sign of zero is not
    tracked.  [round_b64] is round-to-nearest, ties-to-even, of an exact
    non-negative rational. *)
(* ===================================================================== *)

Inductive pyfloat :=
| FNan
| FInf (neg : bool)
| FFin (m e : Z).

(** numerator and denominator of [n / (d * 2^q)] *)
Definition scale2 (n d q : Z) : Z * Z :=
  if 0 <=? q then (n, d * 2 ^ q) else (n * 2 ^ (- q), d).

(** [floor (log2 (n/d))] for [n, d > 0] *)
Definition ilog2_ratio (n d : Z) : Z :=
  let e0 := Z.log2 n - Z.log2 d in
  let '(num, den) := scale2 n d e0 in
  if num <? den then e0 - 1 else e0.

Definition round_b64 (neg : bool) (n d : Z) : pyfloat :=
  if n =? 0 then FFin 0 0 else
  let q := Z.max (ilog2_ratio n d - 52) (-1074) in
  let '(num, den) := scale2 n d q in
  let m := num / den in
  let r := num mod den in
  let m' := if (den <? 2 * r) || ((den =? 2 * r) && Z.odd m) then m + 1 else m in
  if m' =? 0 then FFin 0 0
  else if 1024 <=? Z.log2 m' + q then FInf neg
  else FFin (if neg then - m' else m') q.

(** [float(n)] for an int: raises when the rounded value is not finite *)
Definition float_of_int (n : Z) : res pyfloat :=
  match round_b64 (n <? 0) (Z.abs n) 1 with
  | FFin m e => Ok (FFin m e)
  | _ => Raise OverflowError
  end.

(** true division [a / b] of two ints, [b > 0], correctly rounded *)
Definition float_div_int (a b : Z) : pyfloat :=
  round_b64 (a <? 0) (Z.abs a) b.

Definition float_add (x y : pyfloat) : pyfloat :=
  match x, y with
  | FNan, _ | _, FNan => FNan
  | FInf a, FInf b => if Bool.eqb a b then FInf a else FNan
  | FInf a, FFin _ _ => FInf a
  | FFin _ _, FInf b => FInf b
  | FFin m1 e1, FFin m2 e2 =>
      let e := Z.min e1 e2 in
      let s := m1 * 2 ^ (e1 - e) + m2 * 2 ^ (e2 - e) in
      let '(num, den) := scale2 (Z.abs s) 1 (- e) in
      round_b64 (s <? 0) num den
  end.

(** [int(x)]: truncation toward zero *)
Definition int_of_float (x : pyfloat) : res Z :=
  match x with
  | FNan => Raise ValueError
  | FInf _ => Raise OverflowError
  | FFin m e => Ok (if 0 <=? e then m * 2 ^ e else Z.quot m (2 ^ (- e)))
  end.

Definition float_truthy (x : pyfloat) : bool :=
  match x with
  | FFin m _ => negb (m =? 0)
  | _ => true
  end.

(* ===================================================================== *)
(** ** Strings *)
(* ===================================================================== *)

Definition code (c : ascii) : Z := Z.of_N (N_of_ascii c).

(** [str.isspace] on the ASCII range *)
Definition is_space (c : ascii) : bool :=
  let n := code c in
  ((9 <=? n) && (n <=? 13)) || ((28 <=? n) && (n <=? 32)).

(** C [isspace], the whitespace [float(str)] skips *)
Definition is_cspace (c : ascii) : bool :=
  let n := code c in
  ((9 <=? n) && (n <=? 13)) || (n =? 32).

Definition lower_char (c : ascii) : ascii :=
  let n := code c in
  if (65 <=? n) && (n <=? 90) then ascii_of_N (Z.to_N (n + 32)) else c.

Fixpoint lower (s : string) : string :=
  match s with
  | EmptyString => EmptyString
  | String c s' => String (lower_char c) (lower s')
  end.

Fixpoint lstrip_by (sp : ascii -> bool) (s : string) : string :=
  match s with
  | EmptyString => EmptyString
  | String c s' => if sp c then lstrip_by sp s' else s
  end.

Fixpoint rstrip_by (sp : ascii -> bool) (s : string) : string :=
  match s with
  | EmptyString => EmptyString
  | String c s' =>
      match rstrip_by sp s' with
      | EmptyString => if sp c then EmptyString else String c EmptyString
      | r => String c r
      end
  end.

(** [s.strip()] *)
Definition strip (s : string) : string := rstrip_by is_space (lstrip_by is_space s).

(** the slice [s[:n]] *)
Fixpoint take_str (n : nat) (s : string) : string :=
  match n, s with
  | S n', String c s' => String c (take_str n' s')
  | _, _ => EmptyString
  end.

Arguments take_str : simpl never.

(** [s.replace("Z", "+00:00")] *)
Fixpoint replace_Z (s : string) : string :=
  match s with
  | EmptyString => EmptyString
  | String c s' =>
      if Ascii.eqb c "Z"%char then "+00:00" +:+ replace_Z s'
      else String c (replace_Z s')
  end.

Definition str_of_int (n : Z) : string := NilZero.string_of_int (Z.to_int n).

(* ===================================================================== *)
(** ** Float literals: the grammar of [float(str)]

    [floatvalue ::= [sign] (floatnumber | "inf" | "infinity" | "nan")],
    surrounded by optional whitespace, digits being ASCII digits with
    single underscores allowed between them. *)
(* ===================================================================== *)

Definition digit_val (c : ascii) : option Z :=
  let n := code c in
  if (48 <=? n) && (n <=? 57) then Some (n - 48) else None.

(** after a first digit: [(["_"] digit)*], accumulating value and count *)
Fixpoint digits_tail (acc cnt : Z) (s : string) : Z * Z * string :=
  match s with
  | EmptyString => (acc, cnt, s)
  | String c s' =>
      match digit_val c with
      | Some d => digits_tail (acc * 10 + d) (cnt + 1) s'
      | None =>
          if Ascii.eqb c "_"%char then
            match s' with
            | String c2 s'' =>
                match digit_val c2 with
                | Some d => digits_tail (acc * 10 + d) (cnt + 1) s''
                | None => (acc, cnt, s)
                end
            | EmptyString => (acc, cnt, s)
            end
          else (acc, cnt, s)
      end
  end.

Definition digitpart (acc : Z) (s : string) : option (Z * Z * string) :=
  match s with
  | String c s' =>
      match digit_val c with
      | Some d => Some (digits_tail (acc * 10 + d) 1 s')
      | None => None
      end
  | EmptyString => None
  end.

(** [number ::= [digitpart] "." digitpart | digitpart ["."]]:
    decimal mantissa, decimal exponent, rest *)
Definition number (s : string) : option (Z * Z * string) :=
  match digitpart 0 s with
  | Some (ip, _, String "." rest) =>
      match digitpart ip rest with
      | Some (v, fc, rest') => Some (v, - fc, rest')
      | None => Some (ip, 0, rest)
      end
  | Some (ip, _, rest) => Some (ip, 0, rest)
  | None =>
      match s with
      | String "." rest =>
          match digitpart 0 rest with
          | Some (v, fc, rest') => Some (v, - fc, rest')
          | None => None
          end
      | _ => None
      end
  end.

Definition sign_of (s : string) : bool * string :=
  match s with
  | String "-" s' => (true, s')
  | String "+" s' => (false, s')
  | _ => (false, s)
  end.

(** [exponent ::= ("e" | "E") [sign] digitpart], then end of input *)
Definition exponent (s : string) : option Z :=
  match s with
  | EmptyString => Some 0
  | String c s' =>
      if Ascii.eqb (lower_char c) "e"%char then
        let '(neg, s'') := sign_of s' in
        match digitpart 0 s'' with
        | Some (v, _, EmptyString) => Some (if neg then - v else v)
        | _ => None
        end
      else None
  end.

Definition float_of_str (s : string) : res pyfloat :=
  let '(neg, body) := sign_of (rstrip_by is_cspace (lstrip_by is_cspace s)) in
  let low := lower body in
  if String.eqb low "inf" || String.eqb low "infinity" then Ok (FInf neg)
  else if String.eqb low "nan" then Ok FNan
  else
    match number body with
    | Some (mant, e10, rest) =>
        match exponent rest with
        | Some x =>
            let e := e10 + x in
            Ok (if 0 <=? e then round_b64 neg (mant * 10 ^ e) 1
                else round_b64 neg mant (10 ^ (- e)))
        | None => Raise ValueError
        end
    | None => Raise ValueError
    end.

(* ===================================================================== *)
(** ** Python values *)
(* ===================================================================== *)

#[warnings="-register-all"]
Inductive pyval :=
| VNone
| VBool (b : bool)
| VInt (n : Z)
| VFloat (x : pyfloat)
| VStr (s : string)
| VList (l : list pyval)
| VDict (d : list (string * pyval)).

Abbreviation dict := (list (string * pyval)).

Definition truthy (v : pyval) : bool :=
  match v with
  | VNone => false
  | VBool b => b
  | VInt n => negb (n =? 0)
  | VFloat x => float_truthy x
  | VStr s => negb (String.eqb s "")
  | VList l => match l with [] => false | _ => true end
  | VDict d => match d with [] => false | _ => true end
  end.

(** [a or b] *)
Definition py_or (a b : pyval) : pyval := if truthy a then a else b.

(** [d.get(k)] and [d.get(k, dflt)] *)
Fixpoint dict_get (d : dict) (k : string) : option pyval :=
  match d with
  | [] => None
  | (k', v) :: d' => if String.eqb k' k then Some v else dict_get d' k
  end.

Definition get (d : dict) (k : string) : pyval := default VNone (dict_get d k).
Definition get_or (d : dict) (k : string) (dflt : pyval) : pyval :=
  default dflt (dict_get d k).

(** [d[k] = v]: an existing key keeps its position *)
Fixpoint dict_set (d : dict) (k : string) (v : pyval) : dict :=
  match d with
  | [] => [(k, v)]
  | (k', v') :: d' =>
      if String.eqb k' k then (k, v) :: d' else (k', v') :: dict_set d' k v
  end.

(** [float(v)] *)
Definition py_float (v : pyval) : res pyfloat :=
  match v with
  | VBool b => Ok (if b then FFin 1 0 else FFin 0 0)
  | VInt n => float_of_int n
  | VFloat x => Ok x
  | VStr s => float_of_str s
  | VNone | VList _ | VDict _ => Raise TypeError
  end.

Definition int_of_bool (b : bool) : Z := if b then 1 else 0.

(** [a + b] on the values a JSON payload can hold *)
Definition py_add (a b : pyval) : res pyval :=
  match a, b with
  | VList l1, VList l2 => Ok (VList (l1 ++ l2))
  | VStr s1, VStr s2 => Ok (VStr (s1 +:+ s2))
  | VInt n1, VInt n2 => Ok (VInt (n1 + n2))
  | VInt n1, VBool b2 => Ok (VInt (n1 + int_of_bool b2))
  | VBool b1, VInt n2 => Ok (VInt (int_of_bool b1 + n2))
  | VBool b1, VBool b2 => Ok (VInt (int_of_bool b1 + int_of_bool b2))
  | VFloat x, VFloat y => Ok (VFloat (float_add x y))
  | VFloat x, (VInt _ | VBool _) => y ← py_float b; Ok (VFloat (float_add x y))
  | (VInt _ | VBool _), VFloat y => x ← py_float a; Ok (VFloat (float_add x y))
  | _, _ => Raise TypeError
  end.

(** [str(v)], as used by f-strings and [str()]; [repr_other] renders floats
    and containers *)
Definition str_with (repr_other : pyval -> string) (v : pyval) : string :=
  match v with
  | VNone => "None"
  | VBool b => if b then "True" else "False"
  | VInt n => str_of_int n
  | VStr s => s
  | _ => repr_other v
  end.

(* ===================================================================== *)
(** ** datetime *)
(* ===================================================================== *)

(** [tzinfo] is the UTC offset in microseconds; [None] is a naive datetime *)
Record datetime := {
  year : Z; month : Z; day : Z;
  hour : Z; minute : Z; second : Z; microsecond : Z;
  tzinfo : option Z
}.

Definition UTC : option Z := Some 0.

Definition mk_date (y m d : Z) (tz : option Z) : datetime :=
  {| year := y; month := m; day := d; hour := 0; minute := 0; second := 0;
     microsecond := 0; tzinfo := tz |}.

(** [dt.replace(tzinfo=tz)] *)
Definition replace_tzinfo (dt : datetime) (tz : option Z) : datetime :=
  {| year := year dt; month := month dt; day := day dt; hour := hour dt;
     minute := minute dt; second := second dt; microsecond := microsecond dt;
     tzinfo := tz |}.

Definition _is_leap (y : Z) : bool :=
  (y mod 4 =? 0) && (negb (y mod 100 =? 0) || (y mod 400 =? 0)).

Definition _days_before_year (y : Z) : Z :=
  let y' := y - 1 in y' * 365 + y' / 4 - y' / 100 + y' / 400.

Definition _DAYS_IN_MONTH : list Z := [31; 28; 31; 30; 31; 30; 31; 31; 30; 31; 30; 31].

Definition _days_in_month (y m : Z) : Z :=
  if (m =? 2) && _is_leap y then 29 else nth (Z.to_nat (m - 1)) _DAYS_IN_MONTH 0.

Definition _days_before_month (y m : Z) : Z :=
  fold_right Z.add 0 (firstn (Z.to_nat (m - 1)) _DAYS_IN_MONTH)
  + (if (2 <? m) && _is_leap y then 1 else 0).

Definition _ymd2ord (y m d : Z) : Z :=
  _days_before_year y + _days_before_month y m + d.

(** wall-clock microseconds since 1970-01-01T00:00:00 *)
Definition wall_us (dt : datetime) : Z :=
  (((_ymd2ord (year dt) (month dt) (day dt) - 719163) * 86400
    + hour dt * 3600 + minute dt * 60 + second dt) * 1000000) + microsecond dt.

(** the constructor's range checks; an offset is strictly within a day *)
Definition valid_datetime (dt : datetime) : bool :=
  (1 <=? year dt) && (year dt <=? 9999) &&
  (1 <=? month dt) && (month dt <=? 12) &&
  (1 <=? day dt) && (day dt <=? _days_in_month (year dt) (month dt)) &&
  (0 <=? hour dt) && (hour dt <=? 23) &&
  (0 <=? minute dt) && (minute dt <=? 59) &&
  (0 <=? second dt) && (second dt <=? 59) &&
  (0 <=? microsecond dt) && (microsecond dt <=? 999999) &&
  match tzinfo dt with
  | Some off => (-86400000000 <? off) && (off <? 86400000000)
  | None => true
  end.

(** ordering of two datetimes: naive with naive by fields, aware with aware
    by instant, mixed raises TypeError *)
Definition dt_compare (a b : datetime) : res comparison :=
  match tzinfo a, tzinfo b with
  | None, None => Ok (wall_us a ?= wall_us b)
  | Some oa, Some ob => Ok (wall_us a - oa ?= wall_us b - ob)
  | _, _ => Raise TypeError
  end.

Definition dt_ge (a b : datetime) : res bool :=
  c ← dt_compare a b; Ok (match c with Lt => false | _ => true end).
Definition dt_lt (a b : datetime) : res bool :=
  c ← dt_compare a b; Ok (match c with Lt => true | _ => false end).
Definition dt_gt (a b : datetime) : res bool :=
  c ← dt_compare a b; Ok (match c with Gt => true | _ => false end).

Definition pad2 (n : Z) : string :=
  if n <? 10 then "0" +:+ str_of_int n else str_of_int n.

(** [dt.strftime("%Y-%m-%d")]; the C library prints the year unpadded *)
Definition strftime_ymd (dt : datetime) : string :=
  str_of_int (year dt) +:+ "-" +:+ pad2 (month dt) +:+ "-" +:+ pad2 (day dt).

(* ===================================================================== *)
(** ** Library capabilities *)
(* ===================================================================== *)

Class PyRuntime := {
  (** [datetime.fromisoformat]; [None] when it raises ValueError *)
  fromisoformat : string -> option datetime;
  (** [datetime.strptime value format], or [None] when it raises *)
  strptime : string -> string -> option datetime;
  (** a datetime object is always within the constructor's ranges *)
  fromisoformat_valid :
    forall s dt, fromisoformat s = Some dt -> valid_datetime dt = true;
  strptime_valid :
    forall s fmt dt, strptime s fmt = Some dt -> valid_datetime dt = true;
  (** [repr] of a float, list or dict *)
  py_repr : pyval -> string;
  (** the C library's local-time lookup: seconds since the epoch of a
      wall-clock second (counted from 1970-01-01T00:00:00) in the host's
      zone; it raises at the edges of the range it resolves *)
  local_to_seconds : Z -> res Z
}.

Section Runtime.
Context `{PyRuntime}.

Definition py_str (v : pyval) : string := str_with py_repr v.

(** [dt.timestamp()] *)
Definition timestamp (dt : datetime) : res pyfloat :=
  match tzinfo dt with
  | Some off => Ok (float_div_int (wall_us dt - off) 1000000)
  | None =>
      s ← local_to_seconds ((wall_us dt - microsecond dt) / 1000000);
      Ok (float_add (round_b64 (s <? 0) (Z.abs s) 1)
                    (float_div_int (microsecond dt) 1000000))
  end.

(** [int(dt.timestamp())] *)
Definition timestamp_int (dt : datetime) : res Z :=
  t ← timestamp dt; int_of_float t.

End Runtime.

(* ===================================================================== *)
(** ** hashlib.md5 (RFC 1321) *)
(* ===================================================================== *)

Module MD5.

Definition K : list Z :=
  [ 0xd76aa478; 0xe8c7b756; 0x242070db; 0xc1bdceee;
    0xf57c0faf; 0x4787c62a; 0xa8304613; 0xfd469501;
    0x698098d8; 0x8b44f7af; 0xffff5bb1; 0x895cd7be;
    0x6b901122; 0xfd987193; 0xa679438e; 0x49b40821;
    0xf61e2562; 0xc040b340; 0x265e5a51; 0xe9b6c7aa;
    0xd62f105d; 0x02441453; 0xd8a1e681; 0xe7d3fbc8;
    0x21e1cde6; 0xc33707d6; 0xf4d50d87; 0x455a14ed;
    0xa9e3e905; 0xfcefa3f8; 0x676f02d9; 0x8d2a4c8a;
    0xfffa3942; 0x8771f681; 0x6d9d6122; 0xfde5380c;
    0xa4beea44; 0x4bdecfa9; 0xf6bb4b60; 0xbebfbc70;
    0x289b7ec6; 0xeaa127fa; 0xd4ef3085; 0x04881d05;
    0xd9d4d039; 0xe6db99e5; 0x1fa27cf8; 0xc4ac5665;
    0xf4292244; 0x432aff97; 0xab9423a7; 0xfc93a039;
    0x655b59c3; 0x8f0ccc92; 0xffeff47d; 0x85845dd1;
    0x6fa87e4f; 0xfe2ce6e0; 0xa3014314; 0x4e0811a1;
    0xf7537e82; 0xbd3af235; 0x2ad7d2bb; 0xeb86d391 ].

Definition shifts : list Z :=
  [ 7; 12; 17; 22; 7; 12; 17; 22; 7; 12; 17; 22; 7; 12; 17; 22;
    5; 9; 14; 20; 5; 9; 14; 20; 5; 9; 14; 20; 5; 9; 14; 20;
    4; 11; 16; 23; 4; 11; 16; 23; 4; 11; 16; 23; 4; 11; 16; 23;
    6; 10; 15; 21; 6; 10; 15; 21; 6; 10; 15; 21; 6; 10; 15; 21 ].

Definition w32 (x : Z) : Z := x mod 2 ^ 32.
Definition not32 (x : Z) : Z := Z.lxor x 0xffffffff.
Definition rotl (x c : Z) : Z := w32 (Z.lor (Z.shiftl x c) (Z.shiftr x (32 - c))).

Definition state : Type := Z * Z * Z * Z.

Definition step (M : list Z) (st : state) (i : nat) : state :=
  let '(a, b, c, d) := st in
  let iz := Z.of_nat i in
  let '(f, g) :=
    if iz <? 16 then (Z.lor (Z.land b c) (Z.land (not32 b) d), iz)
    else if iz <? 32 then (Z.lor (Z.land d b) (Z.land (not32 d) c), (5 * iz + 1) mod 16)
    else if iz <? 48 then (Z.lxor (Z.lxor b c) d, (3 * iz + 5) mod 16)
    else (Z.lxor c (Z.lor b (not32 d)), (7 * iz) mod 16) in
  let f' := w32 (f + a + nth i K 0 + nth (Z.to_nat g) M 0) in
  (d, w32 (b + rotl f' (nth i shifts 0)), b, c).

Definition compress (M : list Z) (st : state) : state :=
  let '(a0, b0, c0, d0) := st in
  let '(a, b, c, d) := fold_left (step M) (seq 0 64) st in
  (w32 (a0 + a), w32 (b0 + b), w32 (c0 + c), w32 (d0 + d)).

Fixpoint le_words (bs : list Z) : list Z :=
  match bs with
  | b0 :: b1 :: b2 :: b3 :: rest =>
      (b0 + 2 ^ 8 * b1 + 2 ^ 16 * b2 + 2 ^ 24 * b3) :: le_words rest
  | _ => []
  end.

Fixpoint blocks (fuel : nat) (ws : list Z) (st : state) : state :=
  match fuel, ws with
  | S fuel', _ :: _ => blocks fuel' (skipn 16 ws) (compress (firstn 16 ws) st)
  | _, _ => st
  end.

Definition le_bytes (n : nat) (x : Z) : list Z :=
  map (fun i => Z.shiftr x (8 * Z.of_nat i) mod 256) (seq 0 n).

Definition pad (msg : list Z) : list Z :=
  let n := Z.of_nat (length msg) in
  msg ++ [0x80] ++ repeat 0 (Z.to_nat ((55 - n) mod 64)) ++ le_bytes 8 (8 * n).

Definition digest (msg : list Z) : list Z :=
  let ws := le_words (pad msg) in
  let '(a, b, c, d) :=
    blocks (length ws) ws (0x67452301, 0xefcdab89, 0x98badcfe, 0x10325476) in
  le_bytes 4 a ++ le_bytes 4 b ++ le_bytes 4 c ++ le_bytes 4 d.

Definition hex_digit (n : Z) : ascii :=
  if n <? 10 then ascii_of_N (Z.to_N (48 + n)) else ascii_of_N (Z.to_N (87 + n)).

Fixpoint hex_of_bytes (bs : list Z) : string :=
  match bs with
  | [] => EmptyString
  | b :: bs' => String (hex_digit (b / 16)) (String (hex_digit (b mod 16)) (hex_of_bytes bs'))
  end.

Fixpoint bytes_of_string (s : string) : list Z :=
  match s with
  | EmptyString => []
  | String c s' => code c :: bytes_of_string s'
  end.

(** [hashlib.md5(s.encode("utf-8")).hexdigest()] *)
Definition hexdigest (s : string) : string := hex_of_bytes (digest (bytes_of_string s)).

End MD5.

(** [int(s, 16)] on a string of lower-case hex digits *)
Definition hex_val (c : ascii) : Z :=
  let n := code c in if n <? 58 then n - 48 else n - 87.

Fixpoint int_of_hex_from (acc : Z) (s : string) : Z :=
  match s with
  | EmptyString => acc
  | String c s' => int_of_hex_from (acc * 16 + hex_val c) s'
  end.

Definition int_of_hex (s : string) : Z := int_of_hex_from 0 s.

(** [xs[i]] *)
Definition index {A} (xs : list A) (i : nat) : res A :=
  match xs !! i with
  | Some x => Ok x
  | None => Raise IndexError
  end.

(** a list comprehension [[f(x) for x in xs]] whose body may raise *)
Fixpoint traverse {A B} (f : A -> res B) (xs : list A) : res (list B) :=
  match xs with
  | [] => Ok []
  | x :: xs' => y ← f x; ys ← traverse f xs'; Ok (y :: ys)
  end.

(* ===================================================================== *)
(** ** qdrant_service.py *)
(* ===================================================================== *)

Definition vector : Type := list pyfloat.

(** a stored point: [PointStruct] without its id, which is the store key *)
Record point := { p_vector : vector; p_payload : dict }.

Record ScoredPoint := { sp_id : Z; sp_payload : option dict; sp_score : pyfloat }.

Inductive Match :=
| MatchAny (any : list Z)
| MatchValue (value : string).

Record Range := { gte : option Z; lte : option Z }.

Inductive FieldCondition :=
| FieldMatch (key : string) (m : Match)
| FieldRange (key : string) (r : Range).

Record Filter := { must : list FieldCondition }.

(** The engine's reading of a filter on scalar payload fields: a [must]
    list is a conjunction, [MatchAny] is membership, [MatchValue] is
    equality and [Range] is a closed interval whose absent bound is open. *)
Definition in_range (r : Range) (n : Z) : bool :=
  match gte r with Some lo => lo <=? n | None => true end &&
  match lte r with Some hi => n <=? hi | None => true end.

Definition condition_holds (payload : dict) (c : FieldCondition) : bool :=
  match c with
  | FieldMatch k (MatchAny vs) =>
      match dict_get payload k with
      | Some (VInt n) => existsb (Z.eqb n) vs
      | _ => false
      end
  | FieldMatch k (MatchValue v) =>
      match dict_get payload k with
      | Some (VStr s) => String.eqb s v
      | _ => false
      end
  | FieldRange k r =>
      match dict_get payload k with
      | Some (VInt n) => in_range r n
      | _ => false
      end
  end.

Definition filter_holds (f : option Filter) (payload : dict) : bool :=
  match f with
  | None => true
  | Some f => forallb (condition_holds payload) (must f)
  end.

(** The embedding model and the nearest-neighbour engine. *)
Class VectorEngine := {
  embed_query : string -> vector;
  embed_documents : list string -> list vector;
  (** one vector per document *)
  embed_documents_length :
    forall docs, length (embed_documents docs) = length docs;
  (** [client.query_points(...).points] *)
  query_points : gmap Z point -> vector -> nat -> option Filter -> list ScoredPoint;
  (** at most [limit] points come back *)
  query_points_limit :
    forall st v limit f, (length (query_points st v limit f) <= limit)%nat;
  (** [client.scroll(limit=...)]: some stored points, with their payloads *)
  scroll : gmap Z point -> nat -> list (Z * point)
}.

(** the dict [get_points] returns *)
Record Listing := { l_total_docs : Z; l_items : list dict }.

Record QueryResult := {
  ids : list pyval;
  documents : list pyval;
  metadatas : list dict;
  distances : list pyfloat
}.

Module QdrantService.
Section Service.
Context `{VectorEngine}.

Definition _point_id (value : pyval) : res Z :=
  match value with
  | VStr s => Ok (int_of_hex (take_str 15 (MD5.hexdigest s)))
  | _ => Raise AttributeError
  end.

(** [client.upsert]: a point with a stored id replaces it *)
Definition upsert (st : gmap Z point) (points : list (Z * point)) : gmap Z point :=
  fold_left (fun m kp => <[kp.1 := kp.2]> m) points st.

(** the loop of [add_embeddings] building [points] *)
Definition build_points (ids : list pyval) (documents : list string)
    (metadatas : list dict) (embeddings : list vector) : res (list (Z * point)) :=
  traverse (fun i =>
      md ← index metadatas i;
      doc ← index documents i;
      let payload := dict_set md "document" (VStr doc) in
      rid ← index ids i;
      pid ← _point_id rid;
      vec ← index embeddings i;
      Ok (pid, {| p_vector := vec; p_payload := payload |}))
    (seq 0 (length ids)).

Definition add_embeddings (st : gmap Z point)
    (ids : list pyval) (documents : list string) (metadatas : list dict)
  : res (gmap Z point) :=
  match ids with
  | [] => Ok st
  | _ =>
      let embeddings := embed_documents documents in
      points ← build_points ids documents metadatas embeddings;
      Ok (upsert st points)
  end.

(** [result.payload or {}] *)
Definition payload_of (result : ScoredPoint) : dict :=
  match sp_payload result with
  | Some (p :: ps) => p :: ps
  | _ => []
  end.

(** [{k: v for k, v in payload.items() if k != "document"}] *)
Definition without_document (payload : dict) : dict :=
  List.filter (fun kv => negb (String.eqb kv.1 "document")) payload.

Definition query (st : gmap Z point) (query_text : string) (n_results : nat)
    (filters : option Filter) : QueryResult :=
  let query_vector := embed_query query_text in
  let results := query_points st query_vector n_results filters in
  {| ids := map (fun r => py_or (get (payload_of r) "id")
                                (VStr (str_of_int (sp_id r)))) results;
     documents := map (fun r => get_or (payload_of r) "document" (VStr "")) results;
     metadatas := map (fun r => without_document (payload_of r)) results;
     distances := map sp_score results |}.

(** [[int(r) for r in rating_values if int(r) in [1, 2, 3, 4, 5]]] *)
Definition clean_ratings (rating_values : list Z) : list Z :=
  List.filter (fun r => existsb (Z.eqb r) [1; 2; 3; 4; 5]) rating_values.

Definition rating_clause (rating_values : option (list Z)) : list FieldCondition :=
  match rating_values with
  | Some (r :: rs) =>
      match clean_ratings (r :: rs) with
      | [] => []
      | clean => [FieldMatch "rating" (MatchAny clean)]
      end
  | _ => []
  end.

Definition value_clause (key normalized : string) : list FieldCondition :=
  if String.eqb normalized "" then [] else [FieldMatch key (MatchValue normalized)].

(** truthiness of an [int | None] timestamp *)
Definition ts_truthy (t : option Z) : bool :=
  match t with Some n => negb (n =? 0) | None => false end.

Definition range_clause (start_ts end_ts : option Z) : list FieldCondition :=
  if ts_truthy start_ts || ts_truthy end_ts
  then [FieldRange "date_ts" {| gte := start_ts; lte := end_ts |}]
  else [].

Definition must_conditions (device : string) (rating_values : option (list Z))
    (country version : string) (start_ts end_ts : option Z) : list FieldCondition :=
  let normalized_device := lower (strip device) in
  let normalized_country := lower (strip country) in
  let normalized_version := lower (strip version) in
  rating_clause rating_values
  ++ value_clause "device" normalized_device
  ++ value_clause "country" normalized_country
  ++ value_clause "version" normalized_version
  ++ range_clause start_ts end_ts.

Definition build_filter (device : string) (rating_values : option (list Z))
    (country version : string) (start_ts end_ts : option Z) : option Filter :=
  match must_conditions device rating_values country version start_ts end_ts with
  | [] => None
  | conditions => Some {| must := conditions |}
  end.

(** [client.get_collection(...).points_count] *)
Definition points_count (st : gmap Z point) : Z := Z.of_nat (size st).

(** [(payload.get("document") or "")[:220]] *)
Definition snippet_of (payload : dict) : res pyval :=
  match py_or (get payload "document") (VStr "") with
  | VStr s => Ok (VStr (take_str 220 s))
  | VList l => Ok (VList (take 220 l))
  | _ => Raise TypeError
  end.

Definition get_points (st : gmap Z point) (limit : nat) : res Listing :=
  items ← traverse (fun kp : Z * point =>
      let payload := p_payload kp.2 in
      snippet ← snippet_of payload;
      Ok [ ("id", get payload "id");
           ("title", get payload "title");
           ("rating", get payload "rating");
           ("snippet", snippet);
           ("date", get payload "date");
           ("version", get payload "version");
           ("device", get payload "device");
           ("country", get payload "country") ])
    (scroll st limit);
  Ok {| l_total_docs := points_count st; l_items := items |}.

End Service.
End QdrantService.

(* ===================================================================== *)
(** ** embedding_service.py *)
(* ===================================================================== *)

(** the normalized review dict *)
Record NormalizedReview := {
  r_id : pyval;
  r_title : pyval;
  r_rating : Z;
  r_date : string;
  r_date_ts : option Z;
  r_version : string;
  r_device : pyval;
  r_country : pyval;
  r_review_text : string
}.

(** the ingestion summary dict *)
Record IngestSummary := {
  status : string;
  inserted : Z;
  updated : Z;
  total_docs : Z
}.

Definition max_document_chars : nat := 600.
Definition v3_start : datetime := mk_date 2025 10 4 UTC.
Definition v2_start : datetime := mk_date 2025 5 25 UTC.

(** [k in d] *)
Definition has_key (d : dict) (k : string) : bool :=
  match dict_get d k with Some _ => true | None => false end.

(** The review-store search API, [GoogleSearch(params).get_dict()]: the
    response to a request, given the requests made before it. *)
Class SerpApi := {
  get_dict : list dict -> dict -> res dict
}.

(** the dict [preview_payload] returns *)
Record Preview := {
  count : Z;
  p_documents : list string;
  p_metadatas : list dict
}.

Module ReviewEmbeddingService.
Import QdrantService.
Section Service.
Context `{PyRuntime}.

(** the four parsers, tried in order; a raising parser is skipped *)
Definition parse_date_string (v : string) : option datetime :=
  match fromisoformat (replace_Z v) with
  | Some dt => Some dt
  | None =>
  match strptime v "%B %d, %Y" with
  | Some dt => Some (replace_tzinfo dt UTC)
  | None =>
  match strptime v "%d %B %Y" with
  | Some dt => Some (replace_tzinfo dt UTC)
  | None =>
  match strptime v "%Y-%m-%d" with
  | Some dt => Some (replace_tzinfo dt UTC)
  | None => None
  end end end end.

Definition _parse_any_date (value : pyval) : option datetime :=
  if negb (truthy value) then None
  else match value with
       | VStr v => parse_date_string v
       | _ => None          (* every parser raises on a non-string *)
       end.

Definition _extract_raw_reviews (payload : pyval) : res pyval :=
  match payload with
  | VList _ => Ok payload
  | VDict d =>
      match get d "reviews" with
      | VList l => Ok (VList l)
      | _ => py_add (get_or d "google_play" (VList [])) (get_or d "apple" (VList []))
      end
  | _ => Raise ValueError
  end.

Definition _stable_review_id (item : dict) : string :=
  let raw :=
    py_str (get_or item "title" (VStr "")) +:+ "|"
    +:+ py_str (py_or (py_or (get item "snippet") (get item "text")) (VStr "")) +:+ "|"
    +:+ py_str (py_or (py_or (get item "date") (get item "review_date")) (VStr "")) in
  let digest := take_str 12 (MD5.hexdigest raw) in
  "review-" +:+ digest.

(** the version bucket of a datetime: [dt >= v3_start], then [dt >= v2_start] *)
Definition version_of_date (dt : datetime) : res string :=
  match dt_ge dt v3_start with
  | Raise e => Raise e
  | Ok true => Ok "v3"
  | Ok false =>
      match dt_ge dt v2_start with
      | Raise e => Raise e
      | Ok true => Ok "v2"
      | Ok false => Ok "v1"
      end
  end.

Definition _normalize_review_record (item : pyval) : res NormalizedReview :=
  match item with
  | VDict item =>
      let dt := _parse_any_date
        (py_or (py_or (get item "iso_date") (get item "date")) (get item "review_date")) in
      x ← py_float (py_or (get item "rating") (VInt 0));
      rating_val ← int_of_float x;
      let rating_val := Z.max 1 (Z.min 5 rating_val) in
      review_text ←
        match py_or (py_or (get item "snippet") (get item "text")) (VStr "") with
        | VStr s => Ok (strip s)
        | _ => Raise AttributeError
        end;
      let review_text :=
        if (max_document_chars <? String.length review_text)%nat
        then strip (take_str max_document_chars review_text)
        else review_text in
      let raw_version := lower (strip (py_str (py_or (get item "version") (VStr "")))) in
      version ←
        (if String.eqb raw_version "v1" || String.eqb raw_version "v2"
            || String.eqb raw_version "v3"
         then Ok raw_version
         else match dt with
              | Some dt => version_of_date dt
              | None => Ok "v1"
              end);
      let id := py_or (get item "id") (VStr (_stable_review_id item)) in
      title ←
        (if truthy (get item "title") then Ok (get item "title")
         else match py_or (get item "author") (VDict []) with
              | VDict author => Ok (py_or (get author "name") (VStr "Unknown"))
              | _ => Raise AttributeError
              end);
      date_ts ←
        match dt with
        | Some dt => Some <$> timestamp_int dt
        | None => Ok None
        end;
      Ok {| r_id := id;
            r_title := title;
            r_rating := rating_val;
            r_date := match dt with Some dt => strftime_ymd dt | None => "" end;
            r_date_ts := date_ts;
            r_version := version;
            r_device := py_or (get item "device") (VStr "Android");
            r_country := py_or (get item "country") (VStr "India");
            r_review_text := review_text |}
  | _ => Raise AttributeError
  end.

(** [for item in raw_reviews] *)
Definition py_iter (v : pyval) : res (list pyval) :=
  match v with
  | VList l => Ok l
  | VStr s => Ok (map (fun c => VStr (String c EmptyString)) (list_ascii_of_string s))
  | VDict d => Ok (map (fun kv => VStr kv.1) d)
  | _ => Raise TypeError
  end.

Definition process_raw_reviews (raw_reviews : pyval) : res (list NormalizedReview) :=
  items ← py_iter raw_reviews;
  traverse _normalize_review_record items.

Definition metadata_of (review : NormalizedReview) : dict :=
  [ ("id", r_id review);
    ("title", r_title review);
    ("rating", VInt (r_rating review));
    ("date", VStr (r_date review));
    ("date_ts", match r_date_ts review with Some t => VInt t | None => VNone end);
    ("version", VStr (r_version review));
    ("device", VStr (lower (py_str (r_device review))));
    ("country", VStr (lower (py_str (r_country review)))) ].

Definition create_documents_and_metadata (processed_reviews : list NormalizedReview)
  : list pyval * list string * list dict :=
  (map r_id processed_reviews,
   map r_review_text processed_reviews,
   map metadata_of processed_reviews).

Context `{VectorEngine}.

Definition index_reviews (st : gmap Z point)
    (ids : list pyval) (documents : list string) (metadatas : list dict)
  : res (gmap Z point * IngestSummary) :=
  st' ← add_embeddings st ids documents metadatas;
  listing ← get_points st' 1;
  Ok (st', {| status := "ok";
              inserted := Z.of_nat (length ids);
              updated := 0;
              total_docs := l_total_docs listing |}).

Definition ingest_reviews_from_payload (st : gmap Z point) (payload : pyval)
  : res (gmap Z point * IngestSummary) :=
  raw_reviews ← _extract_raw_reviews payload;
  processed_reviews ← process_raw_reviews raw_reviews;
  let '(ids, documents, metadatas) := create_documents_and_metadata processed_reviews in
  index_reviews st ids documents metadatas.

Context `{SerpApi}.

(** the loop [for review in reviews] that tags one page of reviews *)
Definition tag_reviews (device : string) (reviews : pyval) : res (list pyval) :=
  items ← py_iter reviews;
  traverse (fun review =>
      match review with
      | VDict d =>
          Ok (VDict (dict_set (dict_set d "device" (VStr device)) "country" (VStr "India")))
      | _ => Raise TypeError
      end) items.

Definition play_params_of (google_play_app_id api_key : string) : dict :=
  [ ("engine", VStr "google_play_product");
    ("product_id", VStr google_play_app_id);
    ("store", VStr "apps");
    ("all_reviews", VStr "true");
    ("num", VInt 199);
    ("sort_by", VInt 1);
    ("api_key", VStr api_key) ].

Definition apple_params_of (apple_product_id apple_country api_key : string) (page : Z)
  : dict :=
  [ ("engine", VStr "apple_reviews");
    ("product_id", VStr apple_product_id);
    ("country", VStr apple_country);
    ("sort", VStr "mosthelpful");
    ("page", VInt page);
    ("api_key", VStr api_key) ].

(** the loop [while page_count < max_pages], by the pages still allowed;
    [log] is the list of requests sent so far *)
Fixpoint google_play_pages (pages_left : nat) (play_params : dict)
    (log : list dict) (combined_reviews : list pyval)
  : res (list dict * list pyval) :=
  match pages_left with
  | O => Ok (log, combined_reviews)
  | S pages_left =>
      results ← get_dict log play_params;
      let log := log ++ [play_params] in
      if has_key results "error" then Ok (log, combined_reviews)
      else
        tagged ← tag_reviews "Android" (get_or results "reviews" (VList []));
        let combined_reviews := combined_reviews ++ tagged in
        match py_or (get results "serpapi_pagination") (VDict []) with
        | VDict pagination =>
            let next_token := get pagination "next_page_token" in
            if truthy next_token
            then google_play_pages pages_left
                   (dict_set play_params "next_page_token" next_token)
                   log combined_reviews
            else Ok (log, combined_reviews)
        | _ => Raise AttributeError
        end
  end.

(** the loop [for page in range(1, max_pages + 1)], from [page] on *)
Fixpoint apple_pages (pages_left : nat) (page : Z)
    (apple_product_id apple_country api_key : string)
    (log : list dict) (combined_reviews : list pyval)
  : res (list dict * list pyval) :=
  match pages_left with
  | O => Ok (log, combined_reviews)
  | S pages_left =>
      let apple_params := apple_params_of apple_product_id apple_country api_key page in
      results ← get_dict log apple_params;
      let log := log ++ [apple_params] in
      if has_key results "error" then Ok (log, combined_reviews)
      else
        let reviews := get_or results "reviews" (VList []) in
        if negb (truthy reviews) then Ok (log, combined_reviews)
        else
          tagged ← tag_reviews "iOS" reviews;
          apple_pages pages_left (page + 1) apple_product_id apple_country api_key
                      log (combined_reviews ++ tagged)
  end.

(** [SERPAPI_API_KEY] is the value of the environment variable; the result
    is the combined list, with the requests sent *)
Definition collect_reviews_from_store_apis (SERPAPI_API_KEY : option string)
    (log : list dict) (google_play_app_id apple_product_id apple_country : string)
    (max_pages : Z) : res (list dict * list pyval) :=
  match SERPAPI_API_KEY with
  | None => Raise ValueError
  | Some api_key =>
      if String.eqb api_key "" then Raise ValueError
      else
        '(log, combined_reviews) ←
          google_play_pages (Z.to_nat max_pages)
                            (play_params_of google_play_app_id api_key) log [];
        apple_pages (Z.to_nat max_pages) 1 apple_product_id apple_country api_key
                    log combined_reviews
  end.

Definition ingest_live_reviews (SERPAPI_API_KEY : option string) (log : list dict)
    (st : gmap Z point) (google_play_app_id apple_product_id apple_country : string)
    (max_pages : Z) : res (list dict * (gmap Z point * IngestSummary)) :=
  '(log, raw_reviews) ←
    collect_reviews_from_store_apis SERPAPI_API_KEY log google_play_app_id
      apple_product_id apple_country max_pages;
  match raw_reviews with
  | [] => Raise ValueError
  | _ =>
      processed_reviews ← process_raw_reviews (VList raw_reviews);
      let '(ids, documents, metadatas) :=
        create_documents_and_metadata processed_reviews in
      indexed ← index_reviews st ids documents metadatas;
      Ok (log, indexed)
  end.

Definition preview_payload (payload : pyval) (limit : Z) : res Preview :=
  raw_reviews ← _extract_raw_reviews payload;
  processed_reviews ← process_raw_reviews raw_reviews;
  let '(ids, documents, metadatas) := create_documents_and_metadata processed_reviews in
  Ok {| count := Z.of_nat (length ids);
        p_documents := documents;
        p_metadatas := metadatas |}.

End Service.
End ReviewEmbeddingService.

(* ===================================================================== *)
(** ** search_review_service.py *)
(* ===================================================================== *)

(** one entry of [retrieved_documents]: the text and the trimmed metadata *)
Record Evidence := {
  text : pyval;
  e_id : pyval;
  e_rating : pyval;
  e_date : pyval;
  e_version : pyval;
  e_device : string;
  e_country : string
}.

Record RetrievalResult := {
  question : string;
  retrieved_documents : list Evidence;
  applied_filters : dict;
  notes : list string;
  next_action : string
}.

Definition next_action_text : string :=
"
Use only question and retrieved_documents for the final response.
Do not invent facts outside retrieved context.

If answerable, return sections in this order:
1. Summary (3-5 bullets)
2. Stats
3. Evidence
4. Applied filters

Notes section is optional:
- Add Notes only when notes is non-empty.
- If Notes is included, use only the tool notes content and do not add extra commentary.

Applied filters rule:
- Mention only keys present in applied_filters.qdrant_filter.
- Do not mention unapplied or unsupported filters.
- If none were applied, say: No explicit filters applied.

Evidence rule:
- Provide 3-5 short quotes.
- For each quote include: id, device, date.
- Use format like: id=<id>, device=<device>, date=<date>.

If not answerable from retrieved context:
- Do not guess.
- Respond in 1-2 lines that retrieved reviews do not contain enough information.
".

(** truthiness of an [Optional[str]] argument *)
Definition supplied (s : option string) : bool :=
  match s with
  | Some s => negb (String.eqb s "")
  | None => false
  end.

Definition mobile_model_note (effective_device : string) : string :=
  "The mobile_model filter is not supported in our current system and was ignored. "
  +:+ "We used the device filter instead: " +:+ effective_device +:+ ".".

Module SearchReviewService.
Import ReviewEmbeddingService.
Section Service.
Context `{PyRuntime} `{VectorEngine}.

Definition _parse_date (value : option string) : option datetime :=
  match value with
  | Some v => if String.eqb v "" then None else parse_date_string v
  | None => None
  end.

Definition _is_date_in_range (value : string) (start_dt end_dt : option datetime)
  : res bool :=
  match start_dt, end_dt with
  | None, None => Ok true
  | _, _ =>
      match _parse_date (Some value) with
      | None => Ok false
      | Some dt =>
          match (match start_dt with Some s => dt_lt dt s | None => Ok false end) with
          | Raise e => Raise e
          | Ok true => Ok false
          | Ok false =>
              match (match end_dt with Some e => dt_gt dt e | None => Ok false end) with
              | Raise e => Raise e
              | Ok true => Ok false
              | Ok false => Ok true
              end
          end
      end
  end.

Definition evidence_of (results : QueryResult) (i : nat) (metadata : dict) (text : pyval)
  : res Evidence :=
  id ← (if truthy (get metadata "id") then Ok (get metadata "id")
        else index (ids results) i);
  Ok {| text := text;
        e_id := id;
        e_rating := get metadata "rating";
        e_date := get metadata "date";
        e_version := get metadata "version";
        e_device := py_str (py_or (get metadata "device") (VStr ""));
        e_country := py_str (py_or (get metadata "country") (VStr "")) |}.

(** the loop over [range(len(results["ids"]))], with its [continue] and [break] *)
Fixpoint collect (results : QueryResult) (start_dt end_dt : option datetime)
    (indices : list nat) (retrieved_documents : list Evidence) : res (list Evidence) :=
  match indices with
  | [] => Ok retrieved_documents
  | i :: rest =>
      metadata ← index (metadatas results) i;
      text ← index (documents results) i;
      match _is_date_in_range
              (py_str (py_or (get metadata "date") (VStr ""))) start_dt end_dt with
      | Raise e => Raise e
      | Ok false => collect results start_dt end_dt rest retrieved_documents
      | Ok true =>
          ev ← evidence_of results i metadata text;
          let retrieved_documents := retrieved_documents ++ [ev] in
          if (12 <=? length retrieved_documents)%nat then Ok retrieved_documents
          else collect results start_dt end_dt rest retrieved_documents
      end
  end.

(** the timestamps handed to [build_filter] *)
Definition query_timestamps (start_dt end_dt : option datetime)
  : res (option Z * option Z) :=
  start_ts ← match start_dt with
             | Some dt => Some <$> timestamp_int dt
             | None => Ok None
             end;
  end_ts ← match end_dt with
           | Some dt => Some <$> timestamp_int dt
           | None => Ok None
           end;
  Ok (start_ts, (fun t => t + 86399) <$> end_ts).

Definition normalized_device_of (device : option string) : string :=
  if supplied device then lower (default "" device) else "".

Definition stripped_lower_of (s : option string) : string :=
  if supplied s then lower (strip (default "" s)) else "".

Definition device_label (normalized_device : string) : string :=
  if String.eqb normalized_device "ios" then "iOS" else "Android".

Definition build_applied_filters (start_date end_date : option string)
    (normalized_device : string) (rating_values : list Z)
    (normalized_country normalized_version : string) : dict :=
  let set_if (c : bool) (k : string) (v : pyval) (d : dict) :=
    if c then dict_set d k v else d in
  let d := set_if (supplied start_date) "start_date" (VStr (default "" start_date)) [] in
  let d := set_if (supplied end_date) "end_date" (VStr (default "" end_date)) d in
  let d := set_if (negb (String.eqb normalized_device ""))
             "device" (VStr (device_label normalized_device)) d in
  let d := set_if (match rating_values with [] => false | _ => true end)
             "rating" (VList (map VInt rating_values)) d in
  let d := set_if (negb (String.eqb normalized_country ""))
             "country" (VStr normalized_country) d in
  set_if (negb (String.eqb normalized_version ""))
         "version" (VStr normalized_version) d.

Definition query (st : gmap Z point) (question : string)
    (start_date end_date device : option string) (rating : option (list Z))
    (country version mobile_model : option string) : res RetrievalResult :=
  let start_dt := _parse_date start_date in
  let end_dt := _parse_date end_date in
  '(start_ts, end_ts) ← query_timestamps start_dt end_dt;
  let normalized_device := normalized_device_of device in
  let normalized_country := stripped_lower_of country in
  let normalized_version := stripped_lower_of version in
  let rating_values := QdrantService.clean_ratings (default [] rating) in
  let notes :=
    if supplied mobile_model
    then [mobile_model_note (device_label normalized_device)]
    else [] in
  let applied_filters :=
    build_applied_filters start_date end_date normalized_device rating_values
                          normalized_country normalized_version in
  let qdrant_filter :=
    QdrantService.build_filter normalized_device (Some rating_values) normalized_country
                 normalized_version start_ts end_ts in
  let result_limit := 12%nat in
  let results := QdrantService.query st question result_limit qdrant_filter in
  retrieved_documents ←
    collect results start_dt end_dt (seq 0 (length (ids results))) [];
  Ok {| question := question;
        retrieved_documents := retrieved_documents;
        applied_filters := [("qdrant_filter", VDict applied_filters)];
        notes := notes;
        next_action := strip next_action_text |}.

End Service.
End SearchReviewService.

(* ===================================================================== *)
(** ** A reference host

    Executable versions of the library capabilities, used to evaluate the
    services on concrete inputs.  [iso_extended] reads the extended
    calendar forms [YYYY-MM-DD] and [YYYY-MM-DD?HH:MM[:SS][+HH:MM]] of
    [datetime.fromisoformat]; [strptime_ref] interprets the directives
    [%Y %m %d %B], literal characters and whitespace.  The host's
    [py_repr] is a placeholder: no evaluated input reaches the [repr] of a
    float or a container. *)
(* ===================================================================== *)

Module Host.

(** exactly [n] digits *)
Fixpoint digits_exact (n : nat) (acc : Z) (s : string) : option (Z * string) :=
  match n with
  | O => Some (acc, s)
  | S n' =>
      match s with
      | String c s' =>
          match digit_val c with
          | Some d => digits_exact n' (acc * 10 + d) s'
          | None => None
          end
      | EmptyString => None
      end
  end.

Definition expect (c : ascii) (s : string) : option string :=
  match s with
  | String c' s' => if Ascii.eqb c c' then Some s' else None
  | EmptyString => None
  end.

Definition checked (dt : datetime) : option datetime :=
  if valid_datetime dt then Some dt else None.

(** [+HH:MM] or [-HH:MM], in microseconds *)
Definition iso_offset (s : string) : option (option Z) :=
  match s with
  | EmptyString => Some None
  | String sg s1 =>
      if Ascii.eqb sg "+"%char || Ascii.eqb sg "-"%char then
        '(hh, s2) ← digits_exact 2 0 s1;
        s3 ← expect ":"%char s2;
        '(mm, s4) ← digits_exact 2 0 s3;
        match s4 with
        | EmptyString =>
            if (hh <=? 23) && (mm <=? 59) then
              let off := (hh * 3600 + mm * 60) * 1000000 in
              Some (Some (if Ascii.eqb sg "-"%char then - off else off))
            else None
        | _ => None
        end
      else None
  end.

Definition iso_extended (s : string) : option datetime :=
  '(y, s1) ← digits_exact 4 0 s;
  s2 ← expect "-"%char s1;
  '(m, s3) ← digits_exact 2 0 s2;
  s4 ← expect "-"%char s3;
  '(d, s5) ← digits_exact 2 0 s4;
  match s5 with
  | EmptyString => checked (mk_date y m d None)
  | String _ s6 =>
      '(hh, s7) ← digits_exact 2 0 s6;
      s8 ← expect ":"%char s7;
      '(mi, s9) ← digits_exact 2 0 s8;
      '(ss, s10) ← match expect ":"%char s9 with
                   | Some s' => digits_exact 2 0 s'
                   | None => Some (0, s9)
                   end;
      tz ← iso_offset s10;
      checked {| year := y; month := m; day := d; hour := hh; minute := mi;
                 second := ss; microsecond := 0; tzinfo := tz |}
  end.

Definition month_names : list string :=
  [ "january"; "february"; "march"; "april"; "may"; "june"; "july";
    "august"; "september"; "october"; "november"; "december" ].

(** [s] minus the prefix [p], compared case-insensitively *)
Fixpoint strip_prefix (p s : string) : option string :=
  match p, s with
  | EmptyString, _ => Some s
  | String a p', String b s' =>
      if Ascii.eqb a (lower_char b) then strip_prefix p' s' else None
  | _, _ => None
  end.

Fixpoint month_name (names : list string) (k : Z) (s : string) : option (Z * string) :=
  match names with
  | [] => None
  | n :: names' =>
      match strip_prefix n s with
      | Some rest => Some (k, rest)
      | None => month_name names' (k + 1) s
      end
  end.

(** one or two digits, as [%d] and [%m] read them: a value in [1..hi] *)
Definition digits_1_2 (hi : Z) (s : string) : option (Z * string) :=
  match s with
  | String a (String b rest) =>
      match digit_val a, digit_val b with
      | Some x, Some y =>
          let v := x * 10 + y in
          if (1 <=? v) && (v <=? hi) then Some (v, rest)
          else if 1 <=? x then Some (x, String b rest) else None
      | Some x, None => if 1 <=? x then Some (x, String b rest) else None
      | None, _ => None
      end
  | String a rest =>
      match digit_val a with
      | Some x => if 1 <=? x then Some (x, rest) else None
      | None => None
      end
  | EmptyString => None
  end.

Inductive directive :=
| DYear | DMonth | DDay | DMonthName | DSpace | DLit (c : ascii) | DUnknown.

Definition directive_of (c : ascii) : directive :=
  if Ascii.eqb c "Y"%char then DYear
  else if Ascii.eqb c "m"%char then DMonth
  else if Ascii.eqb c "d"%char then DDay
  else if Ascii.eqb c "B"%char then DMonthName
  else DUnknown.

Fixpoint directives (fmt : string) : list directive :=
  match fmt with
  | EmptyString => []
  | String c fmt' =>
      if Ascii.eqb c "%"%char then
        match fmt' with
        | String c' fmt'' => directive_of c' :: directives fmt''
        | EmptyString => [DUnknown]
        end
      else (if is_space c then DSpace else DLit c) :: directives fmt'
  end.

(** the input against the directives; [y m d] are the fields read so far *)
Fixpoint strptime_from (ds : list directive) (s : string) (y m d : Z) : option datetime :=
  match ds with
  | [] =>
      match s with
      | EmptyString => checked (mk_date y m d None)
      | _ => None
      end
  | DYear :: ds' => '(v, s') ← digits_exact 4 0 s; strptime_from ds' s' v m d
  | DMonth :: ds' => '(v, s') ← digits_1_2 12 s; strptime_from ds' s' y v d
  | DDay :: ds' => '(v, s') ← digits_1_2 31 s; strptime_from ds' s' y m v
  | DMonthName :: ds' => '(v, s') ← month_name month_names 1 s; strptime_from ds' s' y v d
  | DSpace :: ds' =>
      match s with
      | String c s' =>
          if is_space c then strptime_from ds' (lstrip_by is_space s') y m d else None
      | EmptyString => None
      end
  | DLit c :: ds' => s' ← expect c s; strptime_from ds' s' y m d
  | DUnknown :: _ => None
  end.

Definition strptime_ref (value fmt : string) : option datetime :=
  strptime_from (directives fmt) value 1900 1 1.

(** an index that answers with the stored points passing the filter, in
    key order, under a constant embedding *)
Definition scan (st : gmap Z point) (limit : nat) (f : option Filter) : list ScoredPoint :=
  take limit
    (map (fun kp : Z * point =>
            {| sp_id := kp.1; sp_payload := Some (p_payload kp.2); sp_score := FFin 0 0 |})
         (List.filter (fun kp : Z * point => filter_holds f (p_payload kp.2))
                      (map_to_list st))).

End Host.

Import QdrantService ReviewEmbeddingService.

(** The reference parsers only build datetimes that pass the constructor's
    checks, and the scan respects its limit: the laws of the two classes. *)
Section HostValidity.

Ltac opt_step :=
  match goal with
  | H : mbind _ ?x = Some _ |- _ =>
      let E := fresh "E" in
      destruct x as [[? ?]|] eqn:E; cbn [mbind option_bind] in H; [|discriminate H]
  | H : mbind _ ?x = Some _ |- _ =>
      let E := fresh "E" in
      destruct x eqn:E; cbn [mbind option_bind] in H; [|discriminate H]
  | H : match ?x with _ => _ end = Some _ |- _ =>
      let E := fresh "E" in
      destruct x eqn:E; try discriminate H
  end.

Lemma checked_valid dt dt' : Host.checked dt = Some dt' -> valid_datetime dt' = true.
Proof.
  unfold Host.checked. destruct (valid_datetime dt) eqn:E; intros [= <-]; exact E.
Qed.

Lemma iso_extended_valid s dt :
  Host.iso_extended s = Some dt -> valid_datetime dt = true.
Proof.
  unfold Host.iso_extended. intros Hs.
  repeat opt_step; eauto using checked_valid.
Qed.

Lemma strptime_from_valid ds : forall s y m d dt,
  Host.strptime_from ds s y m d = Some dt -> valid_datetime dt = true.
Proof.
  induction ds as [|dv ds IH]; intros s y m d dt; cbn [Host.strptime_from].
  - destruct s; [apply checked_valid | discriminate].
  - intros Hs. destruct dv; repeat opt_step; try discriminate Hs; eauto.
Qed.

End HostValidity.

(** a host whose local zone is [offset] seconds east of UTC *)
Definition host (offset : Z) : PyRuntime :=
  {| fromisoformat := Host.iso_extended;
     strptime := Host.strptime_ref;
     fromisoformat_valid := iso_extended_valid;
     strptime_valid := fun s fmt dt => strptime_from_valid (Host.directives fmt) s 1900 1 1 dt;
     py_repr := fun _ => EmptyString;
     local_to_seconds := fun wall => Ok (wall - offset) |}.

Definition host_utc : PyRuntime := host 0.

Lemma scan_limit st limit f : (length (Host.scan st limit f) <= limit)%nat.
Proof. unfold Host.scan. rewrite length_take. lia. Qed.

Lemma constant_embedding_length (docs : list string) :
  length (map (fun _ : string => ([] : vector)) docs) = length docs.
Proof. apply length_map. Qed.

(** the reference index: constant embedding, filtered scan *)
Definition scan_engine : VectorEngine :=
  {| embed_query := fun _ => [];
     embed_documents := map (fun _ => []);
     embed_documents_length := constant_embedding_length;
     query_points := fun st _ limit f => Host.scan st limit f;
     query_points_limit := fun st _ limit f => scan_limit st limit f;
     scroll := fun st limit => take limit (map_to_list st) |}.

(** the raw review of the specification's end-to-end example, dated by an
    ISO instant *)
Definition sample_review : dict :=
  [ ("title", VStr "A"); ("snippet", VStr "Great app"); ("rating", VStr "5");
    ("iso_date", VStr "2025-11-01T10:00:00Z") ].

(** a collection holding the end-to-end example, a review dated in long
    form, a review without any date and two reviews written during the
    first of January 2025 *)
Definition sample_store : gmap Z point :=
  match @ingest_reviews_from_payload host_utc scan_engine ∅
          (VList [ VDict sample_review;
                   VDict [("id", VStr "r-2"); ("text", VStr "Crashes on login");
                          ("rating", VInt 1); ("date", VStr "January 1, 2025");
                          ("device", VStr "iOS")];
                   VDict [("id", VStr "r-3"); ("text", VStr "Undated praise");
                          ("rating", VFloat (FFin 9 (-1)))];
                   VDict [("id", VStr "r-4"); ("snippet", VStr "Smooth after update");
                          ("rating", VInt 5);
                          ("iso_date", VStr "2025-01-01T15:30:00Z")];
                   VDict [("id", VStr "r-5"); ("snippet", VStr "Late night trade failed");
                          ("rating", VInt 2);
                          ("iso_date", VStr "2025-01-01T20:00:00Z")] ]) with
  | Ok (st, _) => st
  | Raise _ => ∅
  end.

(** a raw review whose text needs trimming and whose date is in long form *)
Definition padded_review : dict :=
  [ ("text", VStr "  Crashes on login  "); ("rating", VInt 1);
    ("date", VStr "January 1, 2025"); ("device", VStr "iOS") ].

(** a reference API that answers the n-th request with the n-th canned
    page and with an error after the last one *)
Definition canned_api (pages : list dict) : SerpApi :=
  {| get_dict := fun log _ =>
       Ok (nth (length log) pages [("error", VStr "no more pages")]) |}.

(** two pages of Google Play reviews, the second one empty and last, then
    one page of App Store reviews *)
Definition sample_pages : list dict :=
  [ [ ("reviews", VList [VDict [("id", VStr "g-1"); ("snippet", VStr "Nice charts");
                                ("rating", VInt 5); ("device", VStr "Pixel 8")]]);
      ("serpapi_pagination", VDict [("next_page_token", VStr "t2")]) ];
    [ ("reviews", VList []) ];
    [ ("reviews", VList [VDict [("id", VStr "a-1"); ("text", VStr "Login loop");
                                ("rating", VInt 2)]]) ] ].

(* ===================================================================== *)
(** ** Vocabulary of the properties *)
(* ===================================================================== *)

Definition version_tag (v : string) : Prop := v = "v1" \/ v = "v2" \/ v = "v3".

Definition falsy (v : pyval) : Prop := truthy v = false.

(** absent, falsy, or a value [float()] turns into a finite number *)
Definition finite_rating (v : pyval) : Prop :=
  falsy v \/ exists m e, py_float v = Ok (FFin m e).

Definition str_or_falsy (v : pyval) : Prop := falsy v \/ exists s, v = VStr s.

Definition dict_or_falsy (v : pyval) : Prop := falsy v \/ exists d, v = VDict d.

(** the value handed to the date parser *)
Definition date_source (item : dict) : pyval :=
  py_or (py_or (get item "iso_date") (get item "date")) (get item "review_date").

Definition aware (dt : datetime) : Prop := exists off, tzinfo dt = Some off.

(** the source names one of the three version tags *)
Definition explicit_version (repr : pyval -> string) (item : dict) : bool :=
  let raw := lower (strip (str_with repr (py_or (get item "version") (VStr "")))) in
  String.eqb raw "v1" || String.eqb raw "v2" || String.eqb raw "v3".

(** the bucket of an instant, in microseconds since the epoch *)
Definition bucket_of_instant (t : Z) : string :=
  if wall_us v3_start <=? t then "v3"
  else if wall_us v2_start <=? t then "v2"
  else "v1".

Definition list_or_dict (payload : pyval) : bool :=
  match payload with
  | VList _ | VDict _ => true
  | _ => false
  end.

(** what a payload must satisfy, clause by clause *)
Definition any_of (payload : dict) (key : string) (vs : list Z) : Prop :=
  vs = [] \/ exists n, dict_get payload key = Some (VInt n) /\ In n vs.

Definition equals_if_set (payload : dict) (key v : string) : Prop :=
  v = "" \/ dict_get payload key = Some (VStr v).

Definition within (payload : dict) (key : string) (lo hi : option Z) : Prop :=
  (lo = None /\ hi = None) \/
  exists t, dict_get payload key = Some (VInt t) /\
            (forall a, lo = Some a -> a <= t) /\ (forall b, hi = Some b -> t <= b).

(** no timestamp is set, or one of them is set and not zero *)
Definition timestamps_usable (start_ts end_ts : option Z) : Prop :=
  (start_ts = None /\ end_ts = None) \/ ts_truthy start_ts || ts_truthy end_ts = true.

Definition all_strings (ids : list pyval) : Prop :=
  forall v, In v ids -> exists s, v = VStr s.

(** the point a batch leaves under key [k], over what was there before *)
Definition last_binding (k : Z) (points : list (Z * point)) (init : option point)
  : option point :=
  fold_left (fun acc kp => if decide (kp.1 = k) then Some kp.2 else acc) points init.

(** the evidence item of one index result, computed directly *)
Definition evidence_of_point (repr : pyval -> string) (r : ScoredPoint) : Evidence :=
  let payload := payload_of r in
  let metadata := without_document payload in
  {| text := get_or payload "document" (VStr "");
     e_id := if truthy (get metadata "id") then get metadata "id"
             else py_or (get payload "id") (VStr (str_of_int (sp_id r)));
     e_rating := get metadata "rating";
     e_date := get metadata "date";
     e_version := get metadata "version";
     e_device := str_with repr (py_or (get metadata "device") (VStr ""));
     e_country := str_with repr (py_or (get metadata "country") (VStr "")) |}.

(** [result["applied_filters"]["qdrant_filter"].get(key)] *)
Definition applied_filter (r : RetrievalResult) (key : string) : option pyval :=
  match dict_get (applied_filters r) "qdrant_filter" with
  | Some (VDict d) => dict_get d key
  | _ => None
  end.

(** a lower-case hexadecimal digit, and a string of them *)
Definition is_hex_char (c : ascii) : bool :=
  let n := code c in
  ((48 <=? n) && (n <=? 57)) || ((97 <=? n) && (n <=? 102)).

Fixpoint is_hex (s : string) : bool :=
  match s with
  | EmptyString => true
  | String c s' => is_hex_char c && is_hex s'
  end.

(** every stored payload holds its document as a string *)
Definition text_store (st : gmap Z point) : Prop :=
  forall k p, st !! k = Some p ->
    exists doc, dict_get (p_payload p) "document" = Some (VStr doc).

(** a scan only returns stored points *)
Definition scroll_sound `{VectorEngine} (st : gmap Z point) (limit : nat) : Prop :=
  forall kp, In kp (scroll st limit) -> st !! kp.1 = Some kp.2.

(** a review tagged with its store *)
Definition tagged (device : string) (review : pyval) : Prop :=
  exists d, review = VDict d /\
            dict_get d "device" = Some (VStr device) /\
            dict_get d "country" = Some (VStr "India").

(** a string that does not start with a character of [sp] *)
Definition starts_clean (sp : ascii -> bool) (s : string) : Prop :=
  match s with
  | EmptyString => True
  | String c _ => sp c = false
  end.

(** the order of the version tags *)
Definition version_rank (v : string) : Z :=
  if String.eqb v "v3" then 3 else if String.eqb v "v2" then 2 else 1.

(* ===================================================================== *)
(** * Properties *)
(* ===================================================================== *)

(* --------------------------------------------------------------------- *)
(** ** Strings: lengths under stripping and slicing *)
(* --------------------------------------------------------------------- *)

Lemma lstrip_by_length sp s : (String.length (lstrip_by sp s) <= String.length s)%nat.
Proof. induction s as [|c s IH]; simpl; [lia|]. destruct (sp c); simpl; lia. Qed.

Lemma rstrip_by_length sp s : (String.length (rstrip_by sp s) <= String.length s)%nat.
Proof.
  induction s as [|c s IH]; simpl; [lia|].
  destruct (rstrip_by sp s) eqn:E; [destruct (sp c)|]; simpl in *; lia.
Qed.

Lemma strip_length s : (String.length (strip s) <= String.length s)%nat.
Proof.
  unfold strip. etransitivity; [apply rstrip_by_length | apply lstrip_by_length].
Qed.

Lemma take_str_length n s : (String.length (take_str n s) <= n)%nat.
Proof.
  revert s; induction n as [|n IH]; intros [|c s]; simpl; try lia.
  specialize (IH s). lia.
Qed.

(* --------------------------------------------------------------------- *)
(** ** Rounding stays finite on the range of timestamps *)
(* --------------------------------------------------------------------- *)

Lemma ilog2_ratio_le n d : 0 < n -> 0 < d -> ilog2_ratio n d <= Z.log2 n.
Proof.
  intros Hn Hd. unfold ilog2_ratio.
  pose proof (Z.log2_nonneg d).
  destruct (scale2 n d (Z.log2 n - Z.log2 d)) as [num den].
  destruct (num <? den); lia.
Qed.

Lemma round_b64_finite neg n d :
  0 <= n < 2 ^ 62 -> 0 < d -> exists m e, round_b64 neg n d = FFin m e.
Proof.
  intros [Hn0 Hn] Hd. unfold round_b64.
  destruct (n =? 0) eqn:En; [eauto|]. apply Z.eqb_neq in En.
  assert (Hpos : 0 < n) by lia.
  pose proof (ilog2_ratio_le n d Hpos Hd) as Hlog.
  assert (Hl : Z.log2 n < 62) by (apply Z.log2_lt_pow2; lia).
  set (q := Z.max (ilog2_ratio n d - 52) (-1074)) in *.
  assert (Hq : -1074 <= q <= 9) by lia.
  unfold scale2. destruct (0 <=? q) eqn:Eq.
  - apply Z.leb_le in Eq.
    set (m := n / (d * 2 ^ q)). set (r := n mod (d * 2 ^ q)).
    set (m' := if _ : bool then m + 1 else m).
    destruct (m' =? 0) eqn:Em; [eauto|]. apply Z.eqb_neq in Em.
    assert (Hden : 0 < d * 2 ^ q) by (apply Z.mul_pos_pos; [lia | apply Z.pow_pos_nonneg; lia]).
    assert (Hm : 0 <= m <= n).
    { split; [apply Z.div_pos; lia|].
      subst m. transitivity (n / 1); [|rewrite Z.div_1_r; lia].
      apply Z.div_le_compat_l; lia. }
    assert (Hm' : 0 < m' <= 2 ^ 62) by (subst m'; destruct (_ : bool); lia).
    assert (Z.log2 m' <= 62) by (rewrite <- (Z.log2_pow2 62) by lia; apply Z.log2_le_mono; lia).
    destruct (1024 <=? Z.log2 m' + q) eqn:Eo; [apply Z.leb_le in Eo; lia | eauto].
  - apply Z.leb_gt in Eq.
    set (m := n * 2 ^ (- q) / d). set (r := (n * 2 ^ (- q)) mod d).
    set (m' := if _ : bool then m + 1 else m).
    destruct (m' =? 0) eqn:Em; [eauto|]. apply Z.eqb_neq in Em.
    assert (Hp : 0 < 2 ^ (- q)) by (apply Z.pow_pos_nonneg; lia).
    assert (Hm : 0 <= m <= n * 2 ^ (- q)).
    { split; [apply Z.div_pos; nia|].
      subst m. transitivity (n * 2 ^ (- q) / 1); [|rewrite Z.div_1_r; lia].
      apply Z.div_le_compat_l; nia. }
    assert (Hb : n * 2 ^ (- q) < 2 ^ (62 - q)).
    { replace (62 - q) with (62 + - q) by lia. rewrite Z.pow_add_r by lia. nia. }
    assert (Hm' : 0 < m' <= 2 ^ (62 - q)) by (subst m'; destruct (_ : bool); lia).
    assert (Z.log2 m' <= 62 - q).
    { rewrite <- (Z.log2_pow2 (62 - q)) by lia. apply Z.log2_le_mono; lia. }
    destruct (1024 <=? Z.log2 m' + q) eqn:Eo; [apply Z.leb_le in Eo; lia | eauto].
Qed.

Lemma float_div_int_finite a b :
  Z.abs a < 2 ^ 62 -> 0 < b -> exists m e, float_div_int a b = FFin m e.
Proof. intros Ha Hb. apply round_b64_finite; lia. Qed.

(* --------------------------------------------------------------------- *)
(** ** datetime: the range of timestamps *)
(* --------------------------------------------------------------------- *)

Lemma days_before_month_bound y m :
  1 <= m <= 12 -> 0 <= _days_before_month y m <= 335.
Proof.
  intros Hm. unfold _days_before_month.
  assert (Hc : m = 1 \/ m = 2 \/ m = 3 \/ m = 4 \/ m = 5 \/ m = 6 \/ m = 7 \/
               m = 8 \/ m = 9 \/ m = 10 \/ m = 11 \/ m = 12) by lia.
  destruct (_is_leap y);
    repeat (destruct Hc as [-> | Hc]; [vm_compute; split; discriminate|]);
    subst; vm_compute; split; discriminate.
Qed.

Lemma days_before_year_bound y :
  1 <= y <= 9999 -> 0 <= _days_before_year y <= 3652059.
Proof. intros Hy. unfold _days_before_year. Z.div_mod_to_equations. lia. Qed.

Lemma valid_datetime_fields dt :
  valid_datetime dt = true ->
  1 <= year dt <= 9999 /\ 1 <= month dt <= 12 /\ 1 <= day dt <= 31 /\
  0 <= hour dt <= 23 /\ 0 <= minute dt <= 59 /\ 0 <= second dt <= 59 /\
  0 <= microsecond dt <= 999999 /\
  (forall off, tzinfo dt = Some off -> -86400000000 < off < 86400000000).
Proof.
  unfold valid_datetime. rewrite !andb_true_iff, !Z.leb_le. intros H.
  destruct H as [[[[[[[[[[[[[[? ?] ?] ?] ?] Hd] ?] ?] ?] ?] ?] ?] ?] ?] Htz].
  assert (Hdim : _days_in_month (year dt) (month dt) <= 31).
  { unfold _days_in_month.
    destruct ((month dt =? 2) && _is_leap (year dt)); [lia|].
    assert (Hc : month dt = 1 \/ month dt = 2 \/ month dt = 3 \/ month dt = 4 \/
                 month dt = 5 \/ month dt = 6 \/ month dt = 7 \/ month dt = 8 \/
                 month dt = 9 \/ month dt = 10 \/ month dt = 11 \/ month dt = 12) by lia.
    repeat (destruct Hc as [-> | Hc]; [vm_compute; discriminate|]).
    rewrite Hc. vm_compute; discriminate. }
  assert (Hoff : forall off, tzinfo dt = Some off -> -86400000000 < off < 86400000000).
  { intros off Ho. rewrite Ho in Htz. apply andb_true_iff in Htz. lia. }
  repeat (split; [lia|]). exact Hoff.
Qed.

Lemma valid_wall_us_bound dt :
  valid_datetime dt = true -> Z.abs (wall_us dt) < 2 ^ 61.
Proof.
  intros Hv. apply valid_datetime_fields in Hv as (Hy & Hm & Hd & ? & ? & ? & ? & _).
  pose proof (days_before_year_bound (year dt) Hy).
  pose proof (days_before_month_bound (year dt) (month dt) Hm).
  unfold wall_us, _ymd2ord. change (2 ^ 61) with 2305843009213693952. lia.
Qed.

Section AwareTimestamps.
Context `{PyRuntime}.

(** [int(dt.timestamp())] of an aware datetime never raises *)
Lemma timestamp_int_aware dt off :
  valid_datetime dt = true -> tzinfo dt = Some off ->
  exists t, timestamp_int dt = Ok t.
Proof.
  intros Hv Ho. unfold timestamp_int, timestamp. rewrite Ho.
  pose proof (valid_wall_us_bound dt Hv) as Hw.
  apply valid_datetime_fields in Hv as (_ & _ & _ & _ & _ & _ & _ & Htz).
  specialize (Htz off Ho).
  destruct (float_div_int_finite (wall_us dt - off) 1000000) as (m & e & ->);
    [change (2 ^ 61) with 2305843009213693952 in Hw;
     change (2 ^ 62) with 4611686018427387904; lia | lia |].
  simpl. eauto.
Qed.

End AwareTimestamps.

(* --------------------------------------------------------------------- *)
(** ** Normalization *)
(* --------------------------------------------------------------------- *)

(** one step through a computation in [res] that is known to return *)
Ltac res_step H :=
  match type of H with
  | mbind _ ?x = Ok _ =>
      let E := fresh "E" in
      destruct x eqn:E; cbn [mbind res_bind] in H; [|discriminate H]
  | fmap _ ?x = Ok _ =>
      let E := fresh "E" in
      destruct x eqn:E; cbn [fmap res_fmap] in H; [|discriminate H]
  end.

Lemma version_of_date_tag dt v : version_of_date dt = Ok v -> version_tag v.
Proof.
  unfold version_of_date, version_tag.
  destruct (dt_ge dt v3_start) as [[]|]; [intros [= <-]; auto | | discriminate].
  destruct (dt_ge dt v2_start) as [[]|]; [| | discriminate]; intros [= <-]; auto.
Qed.

Section Normalization.
Context `{PyRuntime}.

(** C4. Whenever normalization returns, the record has a rating in 1..5,
    a text of at most 600 characters and a version among v1, v2, v3. *)
Theorem normalize_invariants (item : pyval) (r : NormalizedReview) :
  _normalize_review_record item = Ok r ->
  1 <= r_rating r <= 5 /\
  (String.length (r_review_text r) <= 600)%nat /\
  version_tag (r_version r).
Proof.
  unfold _normalize_review_record. destruct item as [| | | | |l|d]; try discriminate.
  intros Hn.
  res_step Hn. res_step Hn. res_step Hn. res_step Hn. res_step Hn. res_step Hn.
  injection Hn as <-. cbn [r_rating r_review_text r_version].
  split; [lia|]. split.
  - change max_document_chars with 600%nat in *.
    destruct (600 <? String.length a1)%nat eqn:El.
    + etransitivity; [apply strip_length | apply take_str_length].
    + apply Nat.ltb_ge in El. exact El.
  - match goal with
    | E : (if ?c then _ else _) = Ok ?v |- version_tag ?v => destruct c eqn:Ec
    end.
    + rewrite !orb_true_iff, !String.eqb_eq in Ec.
      unfold version_tag. intuition congruence.
    + destruct (_parse_any_date _);
        [eapply version_of_date_tag; eassumption|].
      unfold version_tag. left. congruence.
Qed.

End Normalization.

(* --------------------------------------------------------------------- *)
(** ** Normalization: when it returns, and when it raises *)
(* --------------------------------------------------------------------- *)

Lemma valid_replace_utc dt :
  valid_datetime dt = true -> valid_datetime (replace_tzinfo dt UTC) = true.
Proof.
  unfold valid_datetime. cbn [replace_tzinfo year month day hour minute second
                              microsecond tzinfo UTC].
  intros Hv. apply andb_true_iff in Hv as [Hf _]. rewrite Hf. reflexivity.
Qed.

Lemma rating_step v :
  finite_rating v ->
  exists x n, py_float (py_or v (VInt 0)) = Ok x /\ int_of_float x = Ok n /\
              (falsy v -> n = 0).
Proof.
  unfold finite_rating, falsy, py_or. intros Hv.
  destruct (truthy v) eqn:Et.
  - destruct Hv as [Hf | (m & e & Hx)]; [discriminate|].
    exists (FFin m e). eexists. split; [exact Hx|]. split; [reflexivity | discriminate].
  - exists (FFin 0 0), 0. repeat split; reflexivity.
Qed.

Lemma text_step snippet text :
  str_or_falsy snippet -> str_or_falsy text ->
  exists s, py_or (py_or snippet text) (VStr "") = VStr s.
Proof.
  unfold str_or_falsy, falsy, py_or. intros Hs Ht.
  destruct (truthy snippet) eqn:E1.
  - destruct Hs as [Hs | [s ->]]; [congruence|]. rewrite E1. eauto.
  - destruct (truthy text) eqn:E2; [|eauto].
    destruct Ht as [Ht | [s ->]]; [congruence | eauto].
Qed.

Lemma title_step item :
  truthy (get item "title") = true \/ dict_or_falsy (get item "author") ->
  exists t,
    (if truthy (get item "title") then Ok (get item "title")
     else match py_or (get item "author") (VDict []) with
          | VDict author => Ok (py_or (get author "name") (VStr "Unknown"))
          | _ => Raise AttributeError
          end) = Ok t /\
    (falsy (get item "title") -> falsy (get item "author") -> t = VStr "Unknown").
Proof.
  unfold dict_or_falsy, falsy. intros Ht.
  destruct (truthy (get item "title")) eqn:E1.
  - eexists; split; [reflexivity | discriminate].
  - destruct Ht as [Ht | [Hf | [d Hd]]]; [discriminate | |].
    + unfold py_or. rewrite Hf. eexists; split; [reflexivity | reflexivity].
    + rewrite Hd. unfold py_or. destruct (truthy (VDict d)) eqn:E2.
      * eexists; split; [reflexivity|]. intros _ Hf. congruence.
      * eexists; split; [reflexivity | reflexivity].
Qed.

Section NormalizationTotality.
Context `{PyRuntime}.

Lemma parse_date_string_valid v dt :
  parse_date_string v = Some dt -> valid_datetime dt = true.
Proof.
  unfold parse_date_string.
  destruct (fromisoformat (replace_Z v)) eqn:E1;
    [intros [= <-]; eapply fromisoformat_valid; eassumption|].
  destruct (strptime v "%B %d, %Y") eqn:E2;
    [intros [= <-]; apply valid_replace_utc; eapply strptime_valid; eassumption|].
  destruct (strptime v "%d %B %Y") eqn:E3;
    [intros [= <-]; apply valid_replace_utc; eapply strptime_valid; eassumption|].
  destruct (strptime v "%Y-%m-%d") eqn:E4;
    [intros [= <-]; apply valid_replace_utc; eapply strptime_valid; eassumption | discriminate].
Qed.

Lemma _parse_any_date_valid value dt :
  _parse_any_date value = Some dt -> valid_datetime dt = true.
Proof.
  unfold _parse_any_date. destruct (negb (truthy value)); [discriminate|].
  destruct value; try discriminate. apply parse_date_string_valid.
Qed.

(** an aware datetime always falls in a version bucket *)
Lemma version_of_date_aware dt :
  aware dt -> exists v, version_of_date dt = Ok v.
Proof.
  intros [off Ho]. unfold version_of_date, dt_ge, dt_compare. rewrite Ho.
  cbn [tzinfo v3_start v2_start mk_date UTC mbind res_bind].
  destruct (_ ?= _); eauto; destruct (_ ?= _); eauto.
Qed.

(** a naive datetime cannot be compared with the cutover instants *)
Lemma version_of_date_naive dt :
  tzinfo dt = None -> version_of_date dt = Raise TypeError.
Proof.
  intros Ho. unfold version_of_date, dt_ge, dt_compare. rewrite Ho. reflexivity.
Qed.

End NormalizationTotality.

Section NormalizationClaims.
Context `{PyRuntime}.

(** C1, as amended.  Normalization returns a record, with the documented
    defaults, whenever the rating is absent, falsy or converts to a finite
    number, snippet and text are absent, falsy or strings, the title is
    present or the author is absent, falsy or a mapping, and the date, when
    it parses, carries a UTC offset. *)
Theorem normalize_returns_on_typed_input (item : dict) :
  finite_rating (get item "rating") ->
  str_or_falsy (get item "snippet") ->
  str_or_falsy (get item "text") ->
  truthy (get item "title") = true \/ dict_or_falsy (get item "author") ->
  (forall dt, _parse_any_date (date_source item) = Some dt -> aware dt) ->
  exists r,
    _normalize_review_record (VDict item) = Ok r /\
    r_device r = py_or (get item "device") (VStr "Android") /\
    r_country r = py_or (get item "country") (VStr "India") /\
    (falsy (get item "title") -> falsy (get item "author") ->
     r_title r = VStr "Unknown") /\
    (falsy (get item "rating") -> r_rating r = 1) /\
    (_parse_any_date (date_source item) = None ->
     r_date r = "" /\ r_date_ts r = None /\
     (explicit_version py_repr item = false -> r_version r = "v1")).
Proof.
  intros Hr Hs Ht Ha Hd.
  destruct (rating_step _ Hr) as (x & n & Ex & En & Hn0).
  destruct (text_step _ _ Hs Ht) as [s Es].
  destruct (title_step item Ha) as (t & Et & Ht0).
  unfold _normalize_review_record. fold (date_source item).
  rewrite Ex. cbn [mbind res_bind]. rewrite En. cbn [mbind res_bind].
  rewrite Es. cbn [mbind res_bind]. rewrite Et.
  change (String.eqb ?a "v1" || String.eqb ?a "v2" || String.eqb ?a "v3")
    with (explicit_version py_repr item).
  destruct (_parse_any_date (date_source item)) as [dt|] eqn:Edt.
  - destruct (Hd dt eq_refl) as [off Ho].
    pose proof (_parse_any_date_valid _ _ Edt) as Hv.
    destruct (timestamp_int_aware dt off Hv Ho) as [ts Ets].
    destruct (version_of_date_aware dt (ex_intro _ off Ho)) as [v Ev].
    rewrite Ev, Ets.
    destruct (explicit_version py_repr item); cbn [mbind res_bind fmap res_fmap];
      eexists; (split; [reflexivity|]);
      cbn [r_device r_country r_title r_rating r_date r_date_ts r_version];
      repeat split; auto; try discriminate;
      intros Hf; rewrite (Hn0 Hf); reflexivity.
  - destruct (explicit_version py_repr item); cbn [mbind res_bind fmap res_fmap];
      eexists; (split; [reflexivity|]);
      cbn [r_device r_country r_title r_rating r_date r_date_ts r_version];
      repeat split; auto; try discriminate;
      intros Hf; rewrite (Hn0 Hf); reflexivity.
Qed.

End NormalizationClaims.

Lemma normalize_invariants_witness :
  exists r, @_normalize_review_record host_utc (VDict sample_review) = Ok r /\
            1 <= r_rating r <= 5 /\
            (String.length (r_review_text r) <= 600)%nat /\
            version_tag (r_version r).
Proof.
  eexists. split.
  - vm_compute. reflexivity.
  - apply (@normalize_invariants host_utc (VDict sample_review)).
    vm_compute. reflexivity.
Defined.

Lemma normalize_returns_witness :
  exists r, @_normalize_review_record host_utc (VDict sample_review) = Ok r /\
            r_device r = VStr "Android" /\ r_country r = VStr "India".
Proof.
  destruct (@normalize_returns_on_typed_input host_utc sample_review)
    as (r & Hr & Hdev & Hco & _).
  - right. do 2 eexists. vm_compute. reflexivity.
  - right. eexists. reflexivity.
  - left. reflexivity.
  - left. reflexivity.
  - intros dt Hdt. vm_compute in Hdt. injection Hdt as <-. exists 0. reflexivity.
  - exists r. auto.
Defined.

(** C1, as stated, fails: a rating that is not a number makes
    normalization raise ValueError. *)
Lemma normalize_raises_on_worded_rating :
  @_normalize_review_record host_utc (VDict [("rating", VStr "five")])
  = Raise ValueError.
Proof. vm_compute. reflexivity. Qed.

(** ratings that satisfy [finite_rating]: absent, a finite float, an int
    below 2^62 in absolute value *)
Lemma finite_rating_absent : finite_rating VNone.
Proof. left. reflexivity. Qed.

Lemma finite_rating_float m e : finite_rating (VFloat (FFin m e)).
Proof. right. exists m, e. reflexivity. Qed.

Lemma finite_rating_int n : Z.abs n < 2 ^ 62 -> finite_rating (VInt n).
Proof.
  intros Hn. right. cbn [py_float]. unfold float_of_int.
  destruct (round_b64_finite (n <? 0) (Z.abs n) 1) as (m & e & ->); [lia | lia |].
  eauto.
Qed.

(** fractional, zero, negative and large ratings are clamped into 1..5 *)
Example rating_clamp_examples :
  map (fun v => r_rating <$> @_normalize_review_record host_utc (VDict [("rating", v)]))
      [ VFloat (FFin 9 (-1)); VStr "4.99"; VInt 0; VInt (-3); VFloat (FFin (-7) (-2));
        VInt 9; VStr "1e3"; VBool true; VNone ]
  = [Ok 4; Ok 4; Ok 1; Ok 1; Ok 1; Ok 5; Ok 5; Ok 1; Ok 1].
Proof. vm_compute. reflexivity. Qed.

(** a rating that converts to infinity or NaN raises as well *)
Example normalize_raises_on_infinite_rating :
  map (fun v => r_rating <$> @_normalize_review_record host_utc (VDict [("rating", v)]))
      [ VStr "inf"; VStr "nan"; VStr "1e999"; VList [VInt 5] ]
  = [Raise OverflowError; Raise ValueError; Raise OverflowError; Raise TypeError].
Proof. vm_compute. reflexivity. Qed.

(** a text field that is not a string, or an author that is not a mapping,
    raises AttributeError *)
Example normalize_raises_on_numeric_snippet :
  @_normalize_review_record host_utc (VDict [("snippet", VInt 5)])
  = Raise AttributeError.
Proof. vm_compute. reflexivity. Qed.

Example normalize_raises_on_author_name :
  @_normalize_review_record host_utc (VDict [("author", VStr "Asha")])
  = Raise AttributeError.
Proof. vm_compute. reflexivity. Qed.

(** the defaults of an empty raw review *)
Example normalize_empty_review :
  @_normalize_review_record host_utc (VDict [])
  = Ok {| r_id := VStr "review-7d010443693e"; r_title := VStr "Unknown";
          r_rating := 1; r_date := ""; r_date_ts := None; r_version := "v1";
          r_device := VStr "Android"; r_country := VStr "India";
          r_review_text := "" |}.
Proof. vm_compute. reflexivity. Qed.

(* --------------------------------------------------------------------- *)
(** ** Version classification *)
(* --------------------------------------------------------------------- *)

Lemma version_of_date_bucket dt off :
  tzinfo dt = Some off ->
  version_of_date dt = Ok (bucket_of_instant (wall_us dt - off)).
Proof.
  intros Ho. unfold version_of_date, dt_ge, dt_compare, bucket_of_instant.
  rewrite Ho. cbn [tzinfo v3_start v2_start mk_date UTC mbind res_bind].
  rewrite !Z.sub_0_r.
  set (t := wall_us dt - off).
  set (t3 := wall_us _). set (t2 := wall_us _).
  destruct (Z.compare_spec t t3); destruct (Z.leb_spec t3 t); try lia; try reflexivity;
    destruct (Z.compare_spec t t2); destruct (Z.leb_spec t2 t); try lia; reflexivity.
Qed.

Section VersionClassification.
Context `{PyRuntime}.

(** a recognised source version always wins *)
Lemma normalize_explicit_version item r :
  _normalize_review_record (VDict item) = Ok r ->
  explicit_version py_repr item = true ->
  r_version r = lower (strip (py_str (py_or (get item "version") (VStr "")))).
Proof.
  unfold _normalize_review_record. intros Hn He.
  res_step Hn. res_step Hn. res_step Hn.
  change (String.eqb ?a "v1" || String.eqb ?a "v2" || String.eqb ?a "v3")
    with (explicit_version py_repr item) in Hn.
  rewrite He in Hn. cbn [mbind res_bind] in Hn.
  res_step Hn. res_step Hn. injection Hn as <-. reflexivity.
Qed.

(** without one, a date that carries an offset is bucketed by its instant *)
Lemma normalize_derived_version item r dt off :
  _normalize_review_record (VDict item) = Ok r ->
  explicit_version py_repr item = false ->
  _parse_any_date (date_source item) = Some dt ->
  tzinfo dt = Some off ->
  r_version r = bucket_of_instant (wall_us dt - off).
Proof.
  unfold _normalize_review_record. fold (date_source item). intros Hn He Hd Ho.
  res_step Hn. res_step Hn. res_step Hn.
  change (String.eqb ?a "v1" || String.eqb ?a "v2" || String.eqb ?a "v3")
    with (explicit_version py_repr item) in Hn.
  rewrite He, Hd, (version_of_date_bucket dt off Ho) in Hn.
  cbn [mbind res_bind] in Hn.
  res_step Hn. res_step Hn. injection Hn as <-. reflexivity.
Qed.

(** a date without an offset makes normalization raise TypeError, unless
    the source names a version *)
Lemma normalize_naive_date_raises item dt :
  finite_rating (get item "rating") ->
  str_or_falsy (get item "snippet") ->
  str_or_falsy (get item "text") ->
  explicit_version py_repr item = false ->
  _parse_any_date (date_source item) = Some dt ->
  tzinfo dt = None ->
  _normalize_review_record (VDict item) = Raise TypeError.
Proof.
  intros Hr Hs Ht He Hd Ho.
  destruct (rating_step _ Hr) as (x & n & Ex & En & _).
  destruct (text_step _ _ Hs Ht) as [s Es].
  unfold _normalize_review_record. fold (date_source item).
  rewrite Ex. cbn [mbind res_bind]. rewrite En. cbn [mbind res_bind].
  rewrite Es. cbn [mbind res_bind].
  change (String.eqb ?a "v1" || String.eqb ?a "v2" || String.eqb ?a "v3")
    with (explicit_version py_repr item).
  rewrite He, Hd, (version_of_date_naive dt Ho). reflexivity.
Qed.

End VersionClassification.

(** C5 fails on the code: a review dated [2025-10-04], the day of the v3
    cutover, is not classified at all.  [fromisoformat] reads the date-only
    string first and yields a datetime without offset, whose comparison
    with the cutover instant raises TypeError. *)
Theorem normalize_date_only_raises :
  @_normalize_review_record host_utc
     (VDict [("title", VStr "A"); ("snippet", VStr "Great app");
             ("rating", VStr "5"); ("date", VStr "2025-10-04")])
  = Raise TypeError.
Proof. vm_compute. reflexivity. Qed.

(** with an ISO instant the boundary behaves as specified *)
Example version_at_v3_start :
  r_version <$> @_normalize_review_record host_utc
     (VDict [("iso_date", VStr "2025-10-04T00:00:00Z")]) = Ok "v3".
Proof. vm_compute. reflexivity. Qed.

Example version_one_second_before_v3_start :
  r_version <$> @_normalize_review_record host_utc
     (VDict [("iso_date", VStr "2025-10-03T23:59:59Z")]) = Ok "v2".
Proof. vm_compute. reflexivity. Qed.

Example version_long_form_date :
  r_version <$> @_normalize_review_record host_utc
     (VDict [("date", VStr "October 4, 2025")]) = Ok "v3".
Proof. vm_compute. reflexivity. Qed.

Example version_explicit_over_date :
  r_version <$> @_normalize_review_record host_utc
     (VDict [("iso_date", VStr "2025-11-01T10:00:00Z"); ("version", VStr " V1 ")])
  = Ok "v1".
Proof. vm_compute. reflexivity. Qed.

(* --------------------------------------------------------------------- *)
(** ** Payload extraction *)
(* --------------------------------------------------------------------- *)

Lemma py_add_not_value_error a b : py_add a b <> Raise ValueError.
Proof.
  destruct a, b; cbn [py_add py_float mbind res_bind]; try discriminate;
    unfold float_of_int; destruct (round_b64 _ _ _); discriminate.
Qed.

(** C6, as stated, fails: an object with none of the three keys is
    accepted and yields the empty list. *)
Lemma extract_accepts_object_without_keys :
  _extract_raw_reviews (VDict [("status", VStr "ok")]) = Ok (VList []).
Proof. reflexivity. Qed.

(** C6, as amended.  The validation error is raised exactly for a payload
    that is neither a list nor an object; a bare list is returned as it
    is, an object whose [reviews] is a list yields that list, and any
    other object yields its [google_play] entry followed by its [apple]
    entry, a missing entry counting as the empty list. *)
Theorem extract_raw_reviews_shapes (payload : pyval) :
  (_extract_raw_reviews payload = Raise ValueError <-> list_or_dict payload = false) /\
  (forall l, _extract_raw_reviews (VList l) = Ok (VList l)) /\
  (forall d l, get d "reviews" = VList l ->
               _extract_raw_reviews (VDict d) = Ok (VList l)) /\
  (forall d g a, (forall l, get d "reviews" <> VList l) ->
                 get_or d "google_play" (VList []) = VList g ->
                 get_or d "apple" (VList []) = VList a ->
                 _extract_raw_reviews (VDict d) = Ok (VList (g ++ a))).
Proof.
  split; [|split; [|split]].
  - destruct payload; cbn [_extract_raw_reviews list_or_dict];
      try (split; [reflexivity | reflexivity]);
      try (split; discriminate).
    split; [|discriminate].
    destruct (get d "reviews"); try discriminate;
      intros Hx; exfalso; exact (py_add_not_value_error _ _ Hx).
  - reflexivity.
  - intros d l Hl. cbn [_extract_raw_reviews]. rewrite Hl. reflexivity.
  - intros d g a Hr Hg Ha. cbn [_extract_raw_reviews].
    rewrite Hg, Ha. destruct (get d "reviews") eqn:E; try reflexivity.
    exfalso. exact (Hr _ eq_refl).
Qed.

Example extract_concatenates_store_lists :
  _extract_raw_reviews
    (VDict [("google_play", VList [VInt 1]); ("apple", VList [VInt 2; VInt 3])])
  = Ok (VList [VInt 1; VInt 2; VInt 3]).
Proof. reflexivity. Qed.

Example extract_scalar_payload_raises :
  _extract_raw_reviews (VStr "reviews") = Raise ValueError.
Proof. reflexivity. Qed.

(** an entry that is not a list is not validated: the addition decides *)
Example extract_null_store_entry :
  _extract_raw_reviews (VDict [("google_play", VNone)]) = Raise TypeError.
Proof. reflexivity. Qed.

(* --------------------------------------------------------------------- *)
(** ** Filter construction *)
(* --------------------------------------------------------------------- *)

Lemma rating_clause_nil rv : rating_clause rv = [] <-> clean_ratings (default [] rv) = [].
Proof.
  unfold rating_clause. destruct rv as [[|r rs]|];
    try (split; intros; reflexivity).
  change (default [] (Some (r :: rs))) with (r :: rs).
  destruct (clean_ratings (r :: rs)); [split; intros; reflexivity | split; discriminate].
Qed.

Lemma rating_clause_holds payload rv :
  forallb (condition_holds payload) (rating_clause rv) = true <->
  any_of payload "rating" (clean_ratings (default [] rv)).
Proof.
  unfold rating_clause, any_of.
  destruct rv as [[|r rs]|]; try (split; [left|]; reflexivity).
  change (default [] (Some (r :: rs))) with (r :: rs).
  destruct (clean_ratings (r :: rs)) as [|c cs] eqn:Ec; [split; auto|].
  cbn [forallb condition_holds]. rewrite andb_true_r.
  split.
  - destruct (dict_get payload "rating") as [[]|]; try discriminate.
    intros He. apply existsb_exists in He as (x & Hin & Hx).
    apply Z.eqb_eq in Hx. subst x. right. eauto.
  - intros [Hn | (n & Hg & Hin)]; [discriminate|]. rewrite Hg.
    apply existsb_exists. exists n. split; [exact Hin | apply Z.eqb_refl].
Qed.

Lemma value_clause_nil key v : value_clause key v = [] <-> v = "".
Proof.
  unfold value_clause. destruct (String.eqb_spec v ""); [tauto | split; [discriminate | tauto]].
Qed.

Lemma value_clause_holds payload key v :
  forallb (condition_holds payload) (value_clause key v) = true <->
  equals_if_set payload key v.
Proof.
  unfold value_clause, equals_if_set.
  destruct (String.eqb_spec v ""); [split; auto|].
  cbn [forallb condition_holds]. rewrite andb_true_r. split.
  - destruct (dict_get payload key) as [[]|]; try discriminate.
    intros He. apply String.eqb_eq in He. subst. auto.
  - intros [Hv | Hg]; [tauto|]. rewrite Hg. apply String.eqb_refl.
Qed.

Lemma range_clause_nil s e :
  timestamps_usable s e -> range_clause s e = [] <-> s = None /\ e = None.
Proof.
  unfold timestamps_usable, range_clause. intros [[-> ->] | Ht].
  - cbn. tauto.
  - rewrite Ht. split; [discriminate|]. intros [-> ->]. discriminate.
Qed.

Lemma in_range_spec r t :
  in_range r t = true <->
  (forall a, gte r = Some a -> a <= t) /\ (forall b, lte r = Some b -> t <= b).
Proof.
  unfold in_range. rewrite andb_true_iff.
  destruct (gte r) as [lo|], (lte r) as [hi|]; rewrite ?Z.leb_le;
    (split; [intros [Hlo Hhi]; split; intros ? [= <-]; auto
            | intros [Hlo Hhi]; split; auto]).
Qed.

Lemma range_clause_holds payload s e :
  timestamps_usable s e ->
  forallb (condition_holds payload) (range_clause s e) = true <->
  within payload "date_ts" s e.
Proof.
  unfold timestamps_usable, range_clause, within. intros [[-> ->] | Ht].
  - cbn. split; auto.
  - rewrite Ht. cbn [forallb condition_holds]. rewrite andb_true_r. split.
    + destruct (dict_get payload "date_ts") as [[]|]; try discriminate.
      intros Hr. apply in_range_spec in Hr. right. eauto.
    + intros [[-> ->] | (t & Hg & Hlo & Hhi)]; [discriminate|].
      rewrite Hg. apply in_range_spec. auto.
Qed.

Lemma filter_holds_build_filter device rv country version s e payload :
  filter_holds (build_filter device rv country version s e) payload
  = forallb (condition_holds payload)
            (must_conditions device rv country version s e).
Proof.
  unfold build_filter.
  destruct (must_conditions device rv country version s e); reflexivity.
Qed.

(** C7, as stated, fails: inputs that are neither empty nor absent, a
    blank device and ratings outside 1..5, build no filter. *)
Lemma build_filter_none_on_blank_inputs :
  build_filter "  " (Some [0; 7]) "" "" None None = None.
Proof. reflexivity. Qed.

(** the range guard tests truthiness: a start timestamp of 0, the epoch,
    adds no range clause, while [query] tests [end_ts is not None] *)
Example build_filter_drops_epoch_start :
  build_filter "" None "" "" (Some 0) None = None.
Proof. reflexivity. Qed.

Example build_filter_keeps_epoch_start_with_end :
  build_filter "" None "" "" (Some 0) (Some 86399)
  = Some {| must := [FieldRange "date_ts" {| gte := Some 0; lte := Some 86399 |}] |}.
Proof. reflexivity. Qed.

(** C7, as amended.  For timestamps that are both absent or one of them
    non-zero: no filter is built exactly when no rating lies in 1..5, the
    three strings are blank and both timestamps are absent; and a payload
    passes the filter exactly when it passes every clause: its rating is
    one of the kept ratings, each non-blank string equals the stored
    field, and its timestamp lies in the closed range, an absent bound
    being open. *)
Theorem build_filter_clauses device rv country version s e :
  timestamps_usable s e ->
  (build_filter device rv country version s e = None <->
     clean_ratings (default [] rv) = [] /\
     lower (strip device) = "" /\ lower (strip country) = "" /\
     lower (strip version) = "" /\ s = None /\ e = None) /\
  (forall payload,
     filter_holds (build_filter device rv country version s e) payload = true <->
     any_of payload "rating" (clean_ratings (default [] rv)) /\
     equals_if_set payload "device" (lower (strip device)) /\
     equals_if_set payload "country" (lower (strip country)) /\
     equals_if_set payload "version" (lower (strip version)) /\
     within payload "date_ts" s e).
Proof.
  intros Hts. split.
  - unfold build_filter.
    destruct (must_conditions device rv country version s e) as [|c cs] eqn:Em.
    + unfold must_conditions in Em.
      repeat (apply app_eq_nil in Em as [? Em]).
      split; [intros _ | reflexivity].
      rewrite <- rating_clause_nil, <- !(value_clause_nil), <- (range_clause_nil s e Hts).
      eauto 10.
    + split; [discriminate|].
      intros (Hr & Hd & Hc & Hv & Hse). exfalso.
      apply rating_clause_nil in Hr. apply (range_clause_nil s e Hts) in Hse.
      unfold must_conditions in Em.
      rewrite Hr, Hd, Hc, Hv, Hse in Em. discriminate.
  - intros payload. rewrite filter_holds_build_filter. unfold must_conditions.
    rewrite !forallb_app, !andb_true_iff.
    rewrite rating_clause_holds, !value_clause_holds, (range_clause_holds payload s e Hts).
    tauto.
Qed.

Lemma build_filter_clauses_witness :
  build_filter " iOS" (Some [5; 9]) "" "" None (Some 1735775999) <> None /\
  filter_holds (build_filter " iOS" (Some [5; 9]) "" "" None (Some 1735775999))
    [("rating", VInt 5); ("device", VStr "ios"); ("date_ts", VInt 1735725600)] = true.
Proof.
  assert (Hts : timestamps_usable None (Some 1735775999)) by (right; reflexivity).
  destruct (build_filter_clauses " iOS" (Some [5; 9]) "" "" None (Some 1735775999) Hts)
    as [Hnone Hholds].
  split.
  - intros Hn. apply Hnone in Hn as (Hr & _). discriminate Hr.
  - apply Hholds. repeat split.
    + right. exists 5. split; [reflexivity | left; reflexivity].
    + right. reflexivity.
    + left. reflexivity.
    + left. reflexivity.
    + right. exists 1735725600. split; [reflexivity|].
      split; [discriminate | intros b [= <-]; lia].
Defined.

(* --------------------------------------------------------------------- *)
(** ** Upsert: batch lengths *)
(* --------------------------------------------------------------------- *)

Lemma traverse_ok {A B} (f : A -> res B) xs :
  (forall x, In x xs -> exists y, f x = Ok y) ->
  exists ys, traverse f xs = Ok ys /\ length ys = length xs.
Proof.
  induction xs as [|x xs IH]; intros Hf; cbn [traverse].
  - exists []. split; reflexivity.
  - destruct (Hf x (or_introl eq_refl)) as [y Ey].
    destruct IH as (ys & Eys & Hl); [intros x' Hx'; apply Hf; right; exact Hx'|].
    rewrite Ey. cbn [mbind res_bind]. rewrite Eys. cbn [mbind res_bind].
    exists (y :: ys). split; [reflexivity | cbn [length]; congruence].
Qed.

Lemma traverse_first_error {A B} (f : A -> res B) pre x post e :
  (forall x', In x' pre -> exists y, f x' = Ok y) ->
  f x = Raise e ->
  traverse f (pre ++ x :: post) = Raise e.
Proof.
  induction pre as [|p pre IH]; intros Hpre Hx; cbn [app traverse].
  - rewrite Hx. reflexivity.
  - destruct (Hpre p (or_introl eq_refl)) as [y Ey]. rewrite Ey.
    cbn [mbind res_bind].
    rewrite IH; [reflexivity | intros x' Hx'; apply Hpre; right; exact Hx' | exact Hx].
Qed.

Lemma index_lt {A} (xs : list A) i :
  (i < length xs)%nat -> exists x, index xs i = Ok x /\ xs !! i = Some x.
Proof.
  intros Hi. unfold index. destruct (lookup_lt_is_Some_2 xs i Hi) as [x Ex].
  rewrite Ex. eauto.
Qed.

Lemma index_ge {A} (xs : list A) i :
  (length xs <= i)%nat -> index xs i = Raise IndexError.
Proof.
  intros Hi. unfold index. rewrite (lookup_ge_None_2 xs i Hi). reflexivity.
Qed.

Lemma build_points_ok ids documents metadatas embeddings :
  all_strings ids ->
  (length ids <= length documents)%nat ->
  (length ids <= length metadatas)%nat ->
  (length ids <= length embeddings)%nat ->
  exists points, build_points ids documents metadatas embeddings = Ok points /\
                 length points = length ids.
Proof.
  intros Hstr Hd Hm He. unfold build_points.
  destruct (traverse_ok
    (fun i => md ← index metadatas i; doc ← index documents i;
              let payload := dict_set md "document" (VStr doc) in
              rid ← index ids i; pid ← _point_id rid; vec ← index embeddings i;
              Ok (pid, {| p_vector := vec; p_payload := payload |}))
    (seq 0 (length ids))) as (points & Ep & Hl).
  - intros i Hi. apply in_seq in Hi.
    destruct (index_lt metadatas i) as (md & -> & _); [lia|].
    destruct (index_lt documents i) as (doc & -> & _); [lia|].
    destruct (index_lt ids i) as (rid & -> & Hrid); [lia|].
    destruct (index_lt embeddings i) as (vec & Evec & _); [lia|].
    destruct (Hstr rid) as [s ->].
    { apply list_elem_of_In. eapply list_elem_of_lookup_2. exact Hrid. }
    cbn [mbind res_bind _point_id]. rewrite Evec. cbn [mbind res_bind]. eauto.
  - exists points. rewrite length_seq in Hl. split; [exact Ep | exact Hl].
Qed.

Lemma build_points_index_error ids documents metadatas embeddings :
  all_strings ids ->
  length embeddings = length documents ->
  (length documents < length ids)%nat \/ (length metadatas < length ids)%nat ->
  build_points ids documents metadatas embeddings = Raise IndexError.
Proof.
  intros Hstr He Hshort. unfold build_points.
  set (k := Nat.min (length documents) (length metadatas)).
  assert (Hk : (k < length ids)%nat) by lia.
  replace (seq 0 (length ids))
    with (seq 0 k ++ k :: seq (S k) (length ids - S k)).
  2:{ change (k :: seq (S k) (length ids - S k)) with (seq k (S (length ids - S k))).
      rewrite <- seq_app. f_equal. lia. }
  apply traverse_first_error.
  - intros i Hi. apply in_seq in Hi.
    destruct (index_lt metadatas i) as (md & -> & _); [lia|].
    destruct (index_lt documents i) as (doc & -> & _); [lia|].
    destruct (index_lt ids i) as (rid & -> & Hrid); [lia|].
    destruct (index_lt embeddings i) as (vec & Evec & _); [lia|].
    destruct (Hstr rid) as [s ->].
    { apply list_elem_of_In. eapply list_elem_of_lookup_2. exact Hrid. }
    cbn [mbind res_bind _point_id]. rewrite Evec. cbn [mbind res_bind]. eauto.
  - destruct (Nat.le_gt_cases (length metadatas) k) as [Hm | Hm].
    + rewrite (index_ge metadatas k Hm). reflexivity.
    + destruct (index_lt metadatas k Hm) as (md & -> & _).
      rewrite (index_ge documents k); [reflexivity | lia].
Qed.

Section UpsertLengths.
Context `{VectorEngine}.

(** C8, as amended.  With string ids, [add_embeddings] raises IndexError
    exactly when [ids] is longer than [documents] or [metadatas]; when it
    is not, the call succeeds and writes one point per id, so entries of
    [documents] and [metadatas] beyond [len(ids)] are ignored. *)
Theorem add_embeddings_lengths st ids documents metadatas :
  all_strings ids ->
  ((length ids <= length documents)%nat /\ (length ids <= length metadatas)%nat ->
   exists points, add_embeddings st ids documents metadatas = Ok (upsert st points) /\
                  length points = length ids) /\
  ((length documents < length ids)%nat \/ (length metadatas < length ids)%nat ->
   add_embeddings st ids documents metadatas = Raise IndexError).
Proof.
  intros Hstr. split.
  - intros [Hd Hm]. unfold add_embeddings.
    destruct ids as [|v ids'] eqn:Eids; [exists []; split; reflexivity|].
    rewrite <- Eids in *.
    destruct (build_points_ok ids documents metadatas (embed_documents documents))
      as (points & -> & Hl); auto.
    { rewrite embed_documents_length. exact Hd. }
    exists points. split; [reflexivity | exact Hl].
  - intros Hshort. unfold add_embeddings.
    destruct ids as [|v ids'] eqn:Eids; [cbn [length] in Hshort; lia|].
    rewrite <- Eids in *.
    rewrite build_points_index_error; auto using embed_documents_length.
Qed.

End UpsertLengths.

(** C8, as stated, fails: with one id and two documents and metadata rows
    the call succeeds and stores a single point. *)
Lemma add_embeddings_accepts_short_ids :
  points_count <$> @add_embeddings scan_engine ∅ [VStr "a"] ["x"; "y"] [[]; []]
  = Ok 1.
Proof. vm_compute. reflexivity. Qed.

Lemma add_embeddings_lengths_witness :
  @add_embeddings scan_engine ∅ [VStr "a"; VStr "b"] ["x"] [[]; []]
  = Raise IndexError.
Proof.
  apply (@add_embeddings_lengths scan_engine ∅ [VStr "a"; VStr "b"] ["x"] [[]; []]).
  - intros v [<- | [<- | []]]; eauto.
  - left. cbn [length]. lia.
Defined.

(* --------------------------------------------------------------------- *)
(** ** Ingestion is idempotent *)
(* --------------------------------------------------------------------- *)

Lemma lookup_upsert points : forall (st : gmap Z point) k,
  upsert st points !! k = last_binding k points (st !! k).
Proof.
  unfold upsert, last_binding.
  induction points as [|[k' p] points IH]; intros st k; cbn [fold_left fst snd].
  - reflexivity.
  - rewrite IH. f_equal. rewrite lookup_insert. reflexivity.
Qed.

Lemma last_binding_absorb k points : forall x,
  last_binding k points x
  = match last_binding k points None with Some p => Some p | None => x end.
Proof.
  unfold last_binding.
  induction points as [|[k' p] points IH]; intros x; cbn [fold_left fst snd].
  - reflexivity.
  - destruct (decide (k' = k)).
    + rewrite (IH (Some p)). destruct (fold_left _ points None); reflexivity.
    + apply IH.
Qed.

Lemma upsert_idempotent (st : gmap Z point) points :
  upsert (upsert st points) points = upsert st points.
Proof.
  apply map_eq. intros k. rewrite !lookup_upsert.
  rewrite (last_binding_absorb k points (last_binding k points (st !! k))).
  rewrite (last_binding_absorb k points (st !! k)).
  destruct (last_binding k points None); reflexivity.
Qed.

Lemma traverse_length {A B} (f : A -> res B) xs ys :
  traverse f xs = Ok ys -> length ys = length xs.
Proof.
  revert ys. induction xs as [|x xs IH]; intros ys; cbn [traverse].
  - intros [= <-]. reflexivity.
  - destruct (f x); [|discriminate]. cbn [mbind res_bind].
    destruct (traverse f xs); [|discriminate]. cbn [mbind res_bind].
    intros [= <-]. cbn [length]. f_equal. apply IH. reflexivity.
Qed.

Section Idempotence.
Context `{PyRuntime} `{VectorEngine}.

(** the string id is the source id when there is one, else the content
    hash of title, text and date source *)
Lemma normalize_id item r :
  _normalize_review_record (VDict item) = Ok r ->
  r_id r = py_or (get item "id") (VStr (_stable_review_id item)).
Proof.
  unfold _normalize_review_record. intros Hn.
  do 6 res_step Hn. injection Hn as <-. reflexivity.
Qed.

Lemma add_embeddings_twice st ids documents metadatas st1 :
  add_embeddings st ids documents metadatas = Ok st1 ->
  add_embeddings st1 ids documents metadatas = Ok st1.
Proof.
  unfold add_embeddings. destruct ids as [|v ids'].
  - intros [= <-]. reflexivity.
  - destruct (build_points _ _ _ _) as [points|]; [|discriminate].
    cbn [mbind res_bind]. intros [= <-].
    rewrite upsert_idempotent. reflexivity.
Qed.

Lemma get_points_total st limit listing :
  get_points st limit = Ok listing -> l_total_docs listing = Z.of_nat (size st).
Proof.
  unfold get_points. intros Hg. res_step Hg. injection Hg as <-. reflexivity.
Qed.

Lemma index_reviews_twice st ids documents metadatas st1 s1 :
  index_reviews st ids documents metadatas = Ok (st1, s1) ->
  index_reviews st1 ids documents metadatas = Ok (st1, s1).
Proof.
  unfold index_reviews. intros Hi.
  res_step Hi. res_step Hi. injection Hi as <- <-.
  rewrite (add_embeddings_twice _ _ _ _ _ E). cbn [mbind res_bind].
  rewrite E0. reflexivity.
Qed.

(** C3. Ingesting a payload into the store left by a first ingestion of
    the same payload derives the same ids, leaves that store as it is and
    reports the same [total_docs]. *)
Theorem ingest_twice_same_store st payload st1 s1 :
  ingest_reviews_from_payload st payload = Ok (st1, s1) ->
  exists s2, ingest_reviews_from_payload st1 payload = Ok (st1, s2) /\
             total_docs s2 = total_docs s1 /\
             total_docs s1 = Z.of_nat (size st1).
Proof.
  unfold ingest_reviews_from_payload. intros Hi.
  res_step Hi. cbn [mbind res_bind]. res_step Hi. cbn [mbind res_bind].
  destruct (create_documents_and_metadata a0) as [[ids documents] metadatas].
  exists s1. split; [eapply index_reviews_twice; exact Hi|]. split; [reflexivity|].
  unfold index_reviews in Hi. res_step Hi. res_step Hi. injection Hi as <- <-.
  cbn [total_docs]. eapply get_points_total. eassumption.
Qed.

(** one raw review ingested into an empty collection leaves one point *)
Lemma ingest_one_review item st1 s1 :
  ingest_reviews_from_payload ∅ (VList [VDict item]) = Ok (st1, s1) ->
  total_docs s1 = 1.
Proof.
  unfold ingest_reviews_from_payload.
  cbn [_extract_raw_reviews process_raw_reviews py_iter traverse mbind res_bind].
  destruct (_normalize_review_record (VDict item)) as [r|]; [|discriminate].
  cbn [mbind res_bind create_documents_and_metadata map].
  unfold index_reviews, add_embeddings.
  destruct (build_points _ _ _ _) as [points|] eqn:Ep; [|discriminate].
  cbn [mbind res_bind]. intros Hi. res_step Hi. injection Hi as <- <-.
  cbn [total_docs]. rewrite (get_points_total _ _ _ E).
  apply traverse_length in Ep. cbn [length seq] in Ep.
  destruct points as [|[k p] [|? ?]]; try discriminate.
  unfold upsert. cbn [fold_left fst snd].
  rewrite map_size_insert_None by apply lookup_empty.
  rewrite map_size_empty. reflexivity.
Qed.

End Idempotence.

Lemma ingest_twice_witness :
  exists st1 s1,
    @ingest_reviews_from_payload host_utc scan_engine ∅ (VList [VDict sample_review])
      = Ok (st1, s1) /\
    exists s2,
      @ingest_reviews_from_payload host_utc scan_engine st1 (VList [VDict sample_review])
        = Ok (st1, s2) /\
      total_docs s2 = total_docs s1 /\ total_docs s1 = Z.of_nat (size st1).
Proof.
  destruct (@ingest_reviews_from_payload host_utc scan_engine ∅
              (VList [VDict sample_review])) as [[st1 s1]|] eqn:E.
  - exists st1, s1. split; [reflexivity|].
    exact (@ingest_twice_same_store host_utc scan_engine ∅ _ st1 s1 E).
  - vm_compute in E. discriminate E.
Defined.

(** the ids of the end-to-end example *)
Example sample_review_ids :
  (let r := @_normalize_review_record host_utc (VDict sample_review) in
   (r_id <$> r, (fun r => _point_id (r_id r)) <$> r))
  = (Ok (VStr "review-8049163680d4"), Ok (Ok 225170417260010051)).
Proof. vm_compute. reflexivity. Qed.

(* --------------------------------------------------------------------- *)
(** ** The query engine: the second-pass date filter *)
(* --------------------------------------------------------------------- *)

Lemma index_map {A B} (f : A -> B) xs i x :
  xs !! i = Some x -> index (map f xs) i = Ok (f x).
Proof.
  intros Hx. unfold index.
  change (map f xs) with (f <$> xs). rewrite list_lookup_fmap, Hx. reflexivity.
Qed.

Section SecondPass.
Context `{PyRuntime} `{VectorEngine}.

Lemma _parse_date_not_supplied value :
  supplied value = false -> SearchReviewService._parse_date value = None.
Proof.
  unfold supplied, SearchReviewService._parse_date. destruct value as [v|]; [|reflexivity].
  destruct (String.eqb v ""); [reflexivity | discriminate].
Qed.

Lemma _parse_date_supplied value dt :
  SearchReviewService._parse_date value = Some dt -> supplied value = true.
Proof.
  unfold supplied, SearchReviewService._parse_date. destruct value as [v|]; [|discriminate].
  destruct (String.eqb v ""); [discriminate | reflexivity].
Qed.

Lemma query_metadata_at st q n f k r :
  query_points st (embed_query q) n f !! k = Some r ->
  index (metadatas (QdrantService.query st q n f)) k
  = Ok (without_document (payload_of r)).
Proof.
  intros Hr. unfold QdrantService.query. cbn [metadatas].
  exact (index_map (fun r => without_document (payload_of r)) _ _ _ Hr).
Qed.

Lemma query_document_at st q n f k r :
  query_points st (embed_query q) n f !! k = Some r ->
  index (documents (QdrantService.query st q n f)) k
  = Ok (get_or (payload_of r) "document" (VStr "")).
Proof.
  intros Hr. unfold QdrantService.query. cbn [documents].
  exact (index_map (fun r => get_or (payload_of r) "document" (VStr "")) _ _ _ Hr).
Qed.

Lemma query_id_at st q n f k r :
  query_points st (embed_query q) n f !! k = Some r ->
  index (ids (QdrantService.query st q n f)) k
  = Ok (py_or (get (payload_of r) "id") (VStr (str_of_int (sp_id r)))).
Proof.
  intros Hr. unfold QdrantService.query. cbn [ids].
  exact (index_map (fun r => py_or (get (payload_of r) "id") (VStr (str_of_int (sp_id r))))
                   _ _ _ Hr).
Qed.

Lemma evidence_of_result st q n f k r :
  query_points st (embed_query q) n f !! k = Some r ->
  SearchReviewService.evidence_of (QdrantService.query st q n f) k
    (without_document (payload_of r)) (get_or (payload_of r) "document" (VStr ""))
  = Ok (evidence_of_point py_repr r).
Proof.
  intros Hr. unfold SearchReviewService.evidence_of, evidence_of_point.
  rewrite (query_id_at _ _ _ _ _ _ Hr).
  destruct (truthy (get (without_document (payload_of r)) "id")); reflexivity.
Qed.

(** without bounds every index result becomes evidence, in order *)
Lemma collect_without_bounds st q f n : forall k acc,
  let points := query_points st (embed_query q) 12 f in
  (k + n = length points)%nat ->
  (length acc + n <= 12)%nat ->
  SearchReviewService.collect (QdrantService.query st q 12 f) None None (seq k n) acc
  = Ok (acc ++ map (evidence_of_point py_repr) (take n (drop k points))).
Proof.
  cbn zeta. set (points := query_points st (embed_query q) 12 f).
  induction n as [|n IH]; intros k acc Hk Hacc.
  - cbn [seq SearchReviewService.collect take map]. rewrite app_nil_r. reflexivity.
  - destruct (lookup_lt_is_Some_2 points k) as [r Hr]; [lia|].
    cbn [seq SearchReviewService.collect].
    rewrite (query_metadata_at _ _ _ _ _ _ Hr), (query_document_at _ _ _ _ _ _ Hr).
    cbn [mbind res_bind SearchReviewService._is_date_in_range].
    rewrite (evidence_of_result _ _ _ _ _ _ Hr). cbn [mbind res_bind].
    rewrite (drop_S _ _ _ Hr). cbn [take map].
    destruct (12 <=? length (acc ++ [evidence_of_point py_repr r]))%nat eqn:Eb.
    + apply Nat.leb_le in Eb. rewrite length_app in Eb. cbn [length] in Eb.
      assert (n = 0%nat) by lia. subst n. cbn [take map]. reflexivity.
    + rewrite IH; [| lia | rewrite length_app; cbn [length]; lia].
      rewrite <- app_assoc. reflexivity.
Qed.

(** C10. When neither date is supplied, the query returns and its evidence
    is exactly the list of index results, whatever their stored dates; and
    the second pass discards a result only under a requested bound, which
    it does for every unparseable stored date once a bound has parsed. *)
Theorem query_without_dates_keeps_all st question start_date end_date device
    rating country version mobile_model :
  supplied start_date = false ->
  supplied end_date = false ->
  (exists r,
     SearchReviewService.query st question start_date end_date device rating
       country version mobile_model = Ok r /\
     retrieved_documents r
     = map (evidence_of_point py_repr)
           (query_points st (embed_query question) 12
              (build_filter (SearchReviewService.normalized_device_of device)
                 (Some (clean_ratings (default [] rating)))
                 (SearchReviewService.stripped_lower_of country)
                 (SearchReviewService.stripped_lower_of version) None None))) /\
  (forall value sd ed,
     SearchReviewService._is_date_in_range value
       (SearchReviewService._parse_date sd) (SearchReviewService._parse_date ed)
     = Ok false ->
     supplied sd = true \/ supplied ed = true) /\
  (forall value start_dt end_dt,
     SearchReviewService._parse_date (Some value) = None ->
     start_dt <> None \/ end_dt <> None ->
     SearchReviewService._is_date_in_range value start_dt end_dt = Ok false).
Proof.
  intros Hs He. split; [|split].
  - unfold SearchReviewService.query.
    rewrite (_parse_date_not_supplied _ Hs), (_parse_date_not_supplied _ He).
    cbn [SearchReviewService.query_timestamps mbind res_bind fmap res_fmap
         option_fmap option_map].
    set (f := build_filter _ _ _ _ None None).
    pose proof (query_points_limit st (embed_query question) 12 f) as Hlim.
    assert (Hlen : length (ids (QdrantService.query st question 12 f))
                   = length (query_points st (embed_query question) 12 f)).
    { unfold QdrantService.query. cbn [ids]. apply length_map. }
    rewrite Hlen, collect_without_bounds; [| lia | cbn [length]; lia].
    cbn [mbind res_bind app]. rewrite drop_0, firstn_all.
    eexists. split; reflexivity.
  - intros value sd ed Hr.
    destruct (SearchReviewService._parse_date sd) as [dt|] eqn:Esd;
      [left; eapply _parse_date_supplied; exact Esd|].
    destruct (SearchReviewService._parse_date ed) as [dt|] eqn:Eed;
      [right; eapply _parse_date_supplied; exact Eed|].
    discriminate Hr.
  - intros value start_dt end_dt Hv Hb.
    unfold SearchReviewService._is_date_in_range. rewrite Hv.
    destruct start_dt, end_dt; try reflexivity. destruct Hb; congruence.
Qed.

End SecondPass.

Lemma query_without_dates_witness :
  exists r,
    @SearchReviewService.query host_utc scan_engine sample_store "good app"
      None (Some "") None None None None None = Ok r /\
    retrieved_documents r
    = map (evidence_of_point (@py_repr host_utc))
          (@query_points scan_engine sample_store (@embed_query scan_engine "good app")
             12 None).
Proof.
  destruct (@query_without_dates_keeps_all host_utc scan_engine sample_store "good app"
              None (Some "") None None None None None eq_refl eq_refl)
    as [(r & Hr & Hdocs) _].
  exists r. split; [exact Hr | exact Hdocs].
Defined.

(** the undated review is kept without bounds and dropped under a bound *)
Example undated_review_kept_without_bounds :
  (fun r => map e_id (retrieved_documents r)) <$>
    @SearchReviewService.query host_utc scan_engine sample_store "praise"
      None None None (Some [4]) None None None
  = Ok [VStr "r-3"].
Proof. vm_compute. reflexivity. Qed.

Example undated_review_dropped_under_bound :
  (fun r => map e_id (retrieved_documents r)) <$>
    @SearchReviewService.query host_utc scan_engine sample_store "praise"
      (Some "2020-01-01") None None (Some [4]) None None None
  = Ok [].
Proof. vm_compute. reflexivity. Qed.

(* --------------------------------------------------------------------- *)
(** ** The query engine: applied filters and notes *)
(* --------------------------------------------------------------------- *)

Lemma applied_device sd ed nd rv nc nv :
  dict_get (SearchReviewService.build_applied_filters sd ed nd rv nc nv) "device"
  = if String.eqb nd "" then None
    else Some (VStr (SearchReviewService.device_label nd)).
Proof.
  unfold SearchReviewService.build_applied_filters.
  destruct (supplied sd), (supplied ed), (String.eqb nd ""), rv,
           (String.eqb nc ""), (String.eqb nv ""); reflexivity.
Qed.

Section AppliedFilters.
Context `{PyRuntime} `{VectorEngine}.

Lemma query_bookkeeping st question start_date end_date device rating country
    version mobile_model r :
  SearchReviewService.query st question start_date end_date device rating
    country version mobile_model = Ok r ->
  notes r
  = (if supplied mobile_model
     then [mobile_model_note
             (SearchReviewService.device_label
                (SearchReviewService.normalized_device_of device))]
     else []) /\
  applied_filter r "device"
  = (if String.eqb (SearchReviewService.normalized_device_of device) "" then None
     else Some (VStr (SearchReviewService.device_label
                        (SearchReviewService.normalized_device_of device)))).
Proof.
  unfold SearchReviewService.query. intros Hq.
  res_step Hq. destruct a as [start_ts end_ts]. res_step Hq.
  injection Hq as <-. unfold applied_filter.
  cbn [notes applied_filters dict_get String.eqb Ascii.eqb Bool.eqb].
  split; [reflexivity | apply applied_device].
Qed.

(** the content of the model hint is never inspected *)
Lemma query_ignores_model_content st question start_date end_date device rating
    country version model model' :
  supplied model = supplied model' ->
  SearchReviewService.query st question start_date end_date device rating
    country version model
  = SearchReviewService.query st question start_date end_date device rating
      country version model'.
Proof. unfold SearchReviewService.query. intros ->. reflexivity. Qed.

(** C2, as amended.  A query that returns with a non-empty [mobile_model]
    carries exactly one note, which says the model filter was ignored and
    names the device used: "iOS" when the lower-cased device hint is "ios"
    and "Android" otherwise, so "Android" whenever no device is given.
    The model string is never inspected, and [applied_filters] shows
    device "iOS" exactly when the device hint lower-cases to "ios". *)
Theorem query_mobile_model_note st question start_date end_date device rating
    country version mobile_model r :
  SearchReviewService.query st question start_date end_date device rating
    country version mobile_model = Ok r ->
  supplied mobile_model = true ->
  notes r = [mobile_model_note
               (SearchReviewService.device_label
                  (SearchReviewService.normalized_device_of device))] /\
  (supplied device = false -> notes r = [mobile_model_note "Android"]) /\
  (applied_filter r "device" = Some (VStr "iOS") <->
   SearchReviewService.normalized_device_of device = "ios").
Proof.
  intros Hq Hm. destruct (query_bookkeeping _ _ _ _ _ _ _ _ _ _ Hq) as [Hn Ha].
  rewrite Hm in Hn. split; [exact Hn|]. split.
  - intros Hd. rewrite Hn. unfold SearchReviewService.normalized_device_of.
    rewrite Hd. reflexivity.
  - rewrite Ha. unfold SearchReviewService.device_label.
    set (nd := SearchReviewService.normalized_device_of device).
    destruct (String.eqb_spec nd ""), (String.eqb_spec nd "ios");
      split; try congruence; try discriminate.
Qed.

End AppliedFilters.

(** C2, as stated, fails: with [mobile_model="iPhone 14"] and no device,
    no device filter is applied and the note names Android. *)
Lemma query_iphone_model_applies_no_device :
  (fun r => (applied_filter r "device", notes r)) <$>
    @SearchReviewService.query host_utc scan_engine sample_store "battery drain"
      None None None None None None (Some "iPhone 14")
  = Ok (None, [mobile_model_note "Android"]).
Proof. vm_compute. reflexivity. Qed.

Lemma query_mobile_model_note_witness :
  exists r,
    @SearchReviewService.query host_utc scan_engine sample_store "battery drain"
      None None (Some "IOS") None None None (Some "iPhone 14") = Ok r /\
    notes r = [mobile_model_note "iOS"] /\
    applied_filter r "device" = Some (VStr "iOS").
Proof.
  destruct (@SearchReviewService.query host_utc scan_engine sample_store "battery drain"
              None None (Some "IOS") None None None (Some "iPhone 14"))
    as [r|] eqn:E; [|vm_compute in E; discriminate E].
  destruct (@query_mobile_model_note host_utc scan_engine sample_store "battery drain"
              None None (Some "IOS") None None None (Some "iPhone 14") r E eq_refl)
    as (Hn & _ & Hdev).
  exists r. split; [reflexivity|]. split; [exact Hn | apply Hdev; reflexivity].
Defined.

(* --------------------------------------------------------------------- *)
(** ** The query engine: the end of the date range *)
(* --------------------------------------------------------------------- *)

Section EndOfRange.
Context `{PyRuntime}.

(** the end timestamp handed to [build_filter] is the parsed end date's
    timestamp plus one day minus one second *)
Lemma query_end_timestamp start_dt dt start_ts end_ts :
  SearchReviewService.query_timestamps start_dt (Some dt) = Ok (start_ts, end_ts) ->
  exists t, timestamp_int dt = Ok t /\ end_ts = Some (t + 86399).
Proof.
  unfold SearchReviewService.query_timestamps. intros Hq.
  res_step Hq. destruct (timestamp_int dt) as [t|]; [|discriminate Hq].
  cbn [mbind res_bind fmap res_fmap option_fmap option_map] in Hq.
  injection Hq as _ <-. exists t. split; reflexivity.
Qed.

(** the second pass cannot compare a stored date, parsed without offset,
    with an end date that carries one *)
Lemma _is_date_in_range_mixed value dt end_dt :
  SearchReviewService._parse_date (Some value) = Some dt ->
  tzinfo dt = None -> aware end_dt ->
  SearchReviewService._is_date_in_range value None (Some end_dt) = Raise TypeError.
Proof.
  intros Hv Hn [off Ho]. unfold SearchReviewService._is_date_in_range.
  rewrite Hv. unfold dt_gt, dt_compare. rewrite Hn, Ho. reflexivity.
Qed.

End EndOfRange.

(** C9 fails on the code: with the end date in long form, one of the
    accepted formats, the query raises TypeError as soon as a retrieved
    review has a date, instead of returning the reviews of that day. *)
Theorem query_long_form_end_date_raises :
  @SearchReviewService.query host_utc scan_engine sample_store "update"
    None (Some "January 1, 2025") None None None None None
  = Raise TypeError.
Proof. vm_compute. reflexivity. Qed.

(** with the end date in ISO form on a host in the UTC zone, the reviews
    written at 00:00, 15:30 and 20:00 of that day are all returned *)
Example query_iso_end_date_whole_day :
  (fun r => map e_id (retrieved_documents r)) <$>
    @SearchReviewService.query host_utc scan_engine sample_store "update"
      (Some "2025-01-01") (Some "2025-01-01") None None None None None
  = Ok [VStr "r-5"; VStr "r-4"; VStr "r-2"].
Proof. vm_compute. reflexivity. Qed.

(** on a host five and a half hours east of UTC the same query loses the
    review written at 20:00 UTC: the end timestamp is taken in local time *)
Example query_iso_end_date_east_of_utc :
  (fun r => map e_id (retrieved_documents r)) <$>
    @SearchReviewService.query (host 19800) scan_engine sample_store "update"
      (Some "2025-01-01") (Some "2025-01-01") None None None None None
  = Ok [VStr "r-4"; VStr "r-2"].
Proof. vm_compute. reflexivity. Qed.

(* ===================================================================== *)
(** * Further properties of the services *)
(* ===================================================================== *)

(* --------------------------------------------------------------------- *)
(** ** Identifiers *)
(* --------------------------------------------------------------------- *)

Lemma le_bytes_length n x : length (MD5.le_bytes n x) = n.
Proof. unfold MD5.le_bytes. rewrite length_map. apply length_seq. Qed.

Lemma le_bytes_range n x : Forall (fun b => 0 <= b < 256) (MD5.le_bytes n x).
Proof.
  unfold MD5.le_bytes. apply List.Forall_forall. intros b Hb.
  apply in_map_iff in Hb as (i & <- & _). apply Z.mod_pos_bound. lia.
Qed.

Lemma digest_bytes msg :
  length (MD5.digest msg) = 16%nat /\ Forall (fun b => 0 <= b < 256) (MD5.digest msg).
Proof.
  unfold MD5.digest. destruct (MD5.blocks _ _ _) as [[[a b] c] d].
  split.
  - rewrite !length_app, !le_bytes_length. reflexivity.
  - repeat (apply Forall_app; split); apply le_bytes_range.
Qed.

Lemma hex_digit_spec n :
  0 <= n < 16 -> is_hex_char (MD5.hex_digit n) = true /\ hex_val (MD5.hex_digit n) = n.
Proof.
  intros Hn.
  assert (Hall : forallb (fun k => is_hex_char (MD5.hex_digit k)
                                   && (hex_val (MD5.hex_digit k) =? k))
                         (map Z.of_nat (seq 0 16)) = true) by reflexivity.
  rewrite forallb_forall in Hall.
  assert (Hin : In n (map Z.of_nat (seq 0 16))).
  { apply in_map_iff. exists (Z.to_nat n). split; [lia | apply in_seq; lia]. }
  apply Hall in Hin. apply andb_true_iff in Hin as [H1 H2].
  apply Z.eqb_eq in H2. split; assumption.
Qed.

Lemma hex_of_bytes_spec bs :
  Forall (fun b => 0 <= b < 256) bs ->
  String.length (MD5.hex_of_bytes bs) = (2 * length bs)%nat /\
  is_hex (MD5.hex_of_bytes bs) = true.
Proof.
  induction 1 as [|b bs Hb _ [IHl IHh]]; [split; reflexivity|].
  cbn [MD5.hex_of_bytes String.length length is_hex].
  destruct (hex_digit_spec (b / 16)) as [-> _]; [Z.div_mod_to_equations; lia|].
  destruct (hex_digit_spec (b mod 16)) as [-> _]; [Z.div_mod_to_equations; lia|].
  split; [lia | exact IHh].
Qed.

Lemma hexdigest_spec s :
  String.length (MD5.hexdigest s) = 32%nat /\ is_hex (MD5.hexdigest s) = true.
Proof.
  unfold MD5.hexdigest. destruct (digest_bytes (MD5.bytes_of_string s)) as [Hl Hr].
  destruct (hex_of_bytes_spec _ Hr) as [Hl' Hh]. rewrite Hl in Hl'. auto.
Qed.

Lemma take_str_hex n s :
  is_hex s = true -> (n <= String.length s)%nat ->
  String.length (take_str n s) = n /\ is_hex (take_str n s) = true.
Proof.
  revert s. induction n as [|n IH]; intros s Hs Hl; [split; reflexivity|].
  destruct s as [|c s]; [cbn [String.length] in Hl; lia|].
  cbn [is_hex] in Hs. apply andb_true_iff in Hs as [Hc Hs].
  cbn [String.length] in Hl.
  destruct (IH s Hs) as [IHl IHh]; [lia|].
  unfold take_str; fold take_str. cbn [String.length is_hex]. rewrite Hc, IHl, IHh.
  split; reflexivity.
Qed.

Lemma is_hex_char_val c : is_hex_char c = true -> 0 <= hex_val c < 16.
Proof.
  unfold is_hex_char, hex_val. intros Hc.
  apply orb_true_iff in Hc as [Hc | Hc]; apply andb_true_iff in Hc as [H1 H2];
    apply Z.leb_le in H1, H2; destruct (code c <? 58) eqn:E;
    try apply Z.ltb_lt in E; try apply Z.ltb_ge in E; lia.
Qed.

Lemma int_of_hex_from_range s : forall acc,
  is_hex s = true -> 0 <= acc ->
  acc * 16 ^ Z.of_nat (String.length s) <= int_of_hex_from acc s
  < (acc + 1) * 16 ^ Z.of_nat (String.length s).
Proof.
  induction s as [|c s IH]; intros acc Hs Hacc.
  - cbn [int_of_hex_from String.length]. change (16 ^ Z.of_nat 0) with 1. lia.
  - cbn [is_hex] in Hs. apply andb_true_iff in Hs as [Hc Hs].
    apply is_hex_char_val in Hc.
    cbn [int_of_hex_from String.length].
    specialize (IH (acc * 16 + hex_val c) Hs ltac:(lia)).
    rewrite Nat2Z.inj_succ, Z.pow_succ_r by lia.
    assert (0 < 16 ^ Z.of_nat (String.length s)) by (apply Z.pow_pos_nonneg; lia).
    nia.
Qed.

(** X1.  Every string id maps to a point id below 2^60, the value of fifteen
    hexadecimal digits; it fits the unsigned 64-bit ids of the index. *)
Theorem point_id_range (s : string) :
  exists n, _point_id (VStr s) = Ok n /\ 0 <= n < 2 ^ 60.
Proof.
  destruct (hexdigest_spec s) as [Hl Hh].
  destruct (take_str_hex 15 (MD5.hexdigest s) Hh) as [Hl15 Hh15]; [lia|].
  pose proof (int_of_hex_from_range _ 0 Hh15 ltac:(lia)) as Hr.
  rewrite Hl15 in Hr. change (16 ^ Z.of_nat 15) with (2 ^ 60) in Hr.
  eexists. split; [reflexivity|]. unfold int_of_hex. lia.
Qed.

Section StableId.
Context `{PyRuntime}.

(** X2.  The fallback id is the tag "review-" followed by exactly twelve
    lower-case hexadecimal digits, whatever the review holds. *)
Theorem stable_review_id_shape (item : dict) :
  exists h, _stable_review_id item = "review-" +:+ h /\
            String.length h = 12%nat /\ is_hex h = true.
Proof.
  unfold _stable_review_id. eexists. split; [reflexivity|].
  destruct (hexdigest_spec
    (py_str (get_or item "title" (VStr "")) +:+ "|"
     +:+ py_str (py_or (py_or (get item "snippet") (get item "text")) (VStr "")) +:+ "|"
     +:+ py_str (py_or (py_or (get item "date") (get item "review_date")) (VStr ""))))
    as [Hl Hh].
  apply take_str_hex; [exact Hh | lia].
Qed.

End StableId.

(* --------------------------------------------------------------------- *)
(** ** The normalized record *)
(* --------------------------------------------------------------------- *)

Lemma lstrip_by_starts_clean sp s : starts_clean sp (lstrip_by sp s).
Proof.
  induction s as [|c s IH]; cbn [lstrip_by]; [exact I|].
  destruct (sp c) eqn:E; [exact IH | exact E].
Qed.

Lemma lstrip_by_clean sp s : starts_clean sp s -> lstrip_by sp s = s.
Proof. destruct s as [|c s]; cbn; [reflexivity | intros ->; reflexivity]. Qed.

Lemma rstrip_by_starts_clean sp s : starts_clean sp s -> starts_clean sp (rstrip_by sp s).
Proof.
  destruct s as [|c s]; cbn [rstrip_by starts_clean]; [auto|]. intros Hc.
  destruct (rstrip_by sp s); [rewrite Hc|]; exact Hc.
Qed.

Lemma rstrip_by_cons sp c s :
  rstrip_by sp (String c s)
  = match rstrip_by sp s with
    | EmptyString => if sp c then EmptyString else String c EmptyString
    | r => String c r
    end.
Proof. reflexivity. Qed.

Lemma rstrip_by_idempotent sp s : rstrip_by sp (rstrip_by sp s) = rstrip_by sp s.
Proof.
  induction s as [|c s IH]; [reflexivity|]. rewrite rstrip_by_cons.
  destruct (rstrip_by sp s) as [|c' r] eqn:Er.
  - destruct (sp c) eqn:E; [reflexivity|]. cbn [rstrip_by]. rewrite E. reflexivity.
  - rewrite rstrip_by_cons, IH. reflexivity.
Qed.

Lemma strip_idempotent s : strip (strip s) = strip s.
Proof.
  unfold strip.
  rewrite (lstrip_by_clean is_space (rstrip_by is_space (lstrip_by is_space s)))
    by apply rstrip_by_starts_clean, lstrip_by_starts_clean.
  apply rstrip_by_idempotent.
Qed.

Lemma append_nonempty a c b : a +:+ String c b <> "".
Proof. destruct a; discriminate. Qed.

Lemma strftime_ymd_nonempty dt : strftime_ymd dt <> "".
Proof. unfold strftime_ymd. apply append_nonempty. Qed.

Lemma py_or_truthy a b : truthy b = true -> truthy (py_or a b) = true.
Proof. intros Hb. unfold py_or. destruct (truthy a) eqn:E; [exact E | exact Hb]. Qed.

Section NormalizedRecord.
Context `{PyRuntime}.

(** X3.  The stored text is always trimmed: stripping it again changes
    nothing, also after the cut at 600 characters. *)
Theorem normalize_text_trimmed item r :
  _normalize_review_record item = Ok r ->
  strip (r_review_text r) = r_review_text r.
Proof.
  unfold _normalize_review_record. destruct item as [| | | | |l|d]; try discriminate.
  intros Hn. do 6 res_step Hn. injection Hn as <-. cbn [r_review_text].
  assert (Ha1 : strip a1 = a1).
  { destruct (py_or (py_or (get d "snippet") (get d "text")) (VStr ""));
      try discriminate. injection E1 as <-. apply strip_idempotent. }
  destruct (max_document_chars <? String.length a1)%nat;
    [apply strip_idempotent | exact Ha1].
Qed.

(** X4.  No identifying field of a normalized record is empty: id, title,
    device and country are all truthy, by source value or by default. *)
Theorem normalize_fields_present item r :
  _normalize_review_record item = Ok r ->
  truthy (r_id r) = true /\ truthy (r_title r) = true /\
  truthy (r_device r) = true /\ truthy (r_country r) = true.
Proof.
  unfold _normalize_review_record. destruct item as [| | | | |l|d]; try discriminate.
  intros Hn. do 6 res_step Hn. injection Hn as <-.
  cbn [r_id r_title r_device r_country].
  repeat split; try (apply py_or_truthy; reflexivity).
  destruct (truthy (get d "title")) eqn:Et; [congruence|].
  destruct (py_or (get d "author") (VDict [])); try discriminate.
  injection E3 as <-. apply py_or_truthy. reflexivity.
Qed.

(** X5.  The date string and the timestamp go together: both come from the
    parsed date, and both are absent exactly when no date parses. *)
Theorem normalize_date_fields item r :
  _normalize_review_record (VDict item) = Ok r ->
  match _parse_any_date (date_source item) with
  | Some dt => r_date r = strftime_ymd dt /\
               exists t, timestamp_int dt = Ok t /\ r_date_ts r = Some t
  | None => r_date r = "" /\ r_date_ts r = None
  end /\
  (r_date r = "" <-> r_date_ts r = None).
Proof.
  unfold _normalize_review_record. fold (date_source item). intros Hn.
  do 5 res_step Hn.
  destruct (_parse_any_date (date_source item)) as [dt|].
  - destruct (timestamp_int dt) as [t|]; [|discriminate Hn].
    cbn [fmap res_fmap mbind res_bind] in Hn. injection Hn as <-.
    cbn [r_date r_date_ts]. pose proof (strftime_ymd_nonempty dt).
    split; [split; [reflexivity | eauto]|].
    split; [congruence | discriminate].
  - cbn [mbind res_bind] in Hn. injection Hn as <-. cbn [r_date r_date_ts].
    split; [split; reflexivity | split; reflexivity].
Qed.

End NormalizedRecord.

Lemma normalize_text_trimmed_witness :
  exists r, @_normalize_review_record host_utc (VDict padded_review) = Ok r /\
            strip (r_review_text r) = r_review_text r.
Proof.
  destruct (@_normalize_review_record host_utc (VDict padded_review)) as [r|] eqn:E;
    [|vm_compute in E; discriminate E].
  exists r. split; [reflexivity|].
  exact (@normalize_text_trimmed host_utc (VDict padded_review) r E).
Defined.

Lemma normalize_fields_present_witness :
  exists r, @_normalize_review_record host_utc (VDict padded_review) = Ok r /\
            truthy (r_id r) = true /\ truthy (r_title r) = true.
Proof.
  destruct (@_normalize_review_record host_utc (VDict padded_review)) as [r|] eqn:E;
    [|vm_compute in E; discriminate E].
  destruct (@normalize_fields_present host_utc (VDict padded_review) r E) as (Hi & Ht & _).
  exists r. split; [reflexivity|]. split; [exact Hi | exact Ht].
Defined.

Lemma normalize_date_fields_witness :
  exists r, @_normalize_review_record host_utc (VDict padded_review) = Ok r /\
            (r_date r = "" <-> r_date_ts r = None).
Proof.
  destruct (@_normalize_review_record host_utc (VDict padded_review)) as [r|] eqn:E;
    [|vm_compute in E; discriminate E].
  destruct (@normalize_date_fields host_utc padded_review r E) as [_ Hd].
  exists r. split; [reflexivity | exact Hd].
Defined.

(* --------------------------------------------------------------------- *)
(** ** Dates and version buckets *)
(* --------------------------------------------------------------------- *)

Section DateParsing.
Context `{PyRuntime}.

(** X6.  Only a non-empty string parses.  What [fromisoformat] reads is
    returned as it is, with or without an offset; a date read by one of
    the three [strptime] formats is always in UTC. *)
Theorem parse_any_date_sources value dt :
  _parse_any_date value = Some dt ->
  exists v, value = VStr v /\ v <> "" /\
            (fromisoformat (replace_Z v) = Some dt \/
             fromisoformat (replace_Z v) = None /\ tzinfo dt = UTC).
Proof.
  unfold _parse_any_date. destruct (truthy value) eqn:Et; [|discriminate].
  destruct value as [| | | |v| |]; try discriminate. cbn [negb].
  intros Hp. exists v. split; [reflexivity|]. split.
  - intros ->. discriminate Et.
  - unfold parse_date_string in Hp.
    destruct (fromisoformat (replace_Z v)); [left; exact Hp|].
    right. split; [reflexivity|].
    destruct (strptime v "%B %d, %Y"); [injection Hp as <-; reflexivity|].
    destruct (strptime v "%d %B %Y"); [injection Hp as <-; reflexivity|].
    destruct (strptime v "%Y-%m-%d"); [injection Hp as <-; reflexivity | discriminate].
Qed.

End DateParsing.

Lemma parse_any_date_sources_witness :
  exists dt v, @_parse_any_date host_utc (VStr "January 1, 2025") = Some dt /\
               VStr "January 1, 2025" = VStr v /\ v <> "".
Proof.
  destruct (@_parse_any_date host_utc (VStr "January 1, 2025")) as [dt|] eqn:E;
    [|vm_compute in E; discriminate E].
  destruct (@parse_any_date_sources host_utc (VStr "January 1, 2025") dt E)
    as (v & Hv & Hne & _).
  exists dt, v. split; [reflexivity|]. split; [exact Hv | exact Hne].
Defined.

Lemma bucket_of_instant_rank t :
  version_rank (bucket_of_instant t)
  = if wall_us v3_start <=? t then 3 else if wall_us v2_start <=? t then 2 else 1.
Proof.
  unfold bucket_of_instant.
  destruct (wall_us v3_start <=? t); [reflexivity|].
  destruct (wall_us v2_start <=? t); reflexivity.
Qed.

(** X7.  Version buckets are monotone in time: of two dates with offsets, the
    later instant never falls in an earlier bucket. *)
Theorem version_of_date_monotone dt1 dt2 off1 off2 v1 v2 :
  tzinfo dt1 = Some off1 -> tzinfo dt2 = Some off2 ->
  wall_us dt1 - off1 <= wall_us dt2 - off2 ->
  version_of_date dt1 = Ok v1 -> version_of_date dt2 = Ok v2 ->
  version_rank v1 <= version_rank v2.
Proof.
  intros H1 H2 Hle E1 E2.
  rewrite (version_of_date_bucket dt1 off1 H1) in E1.
  rewrite (version_of_date_bucket dt2 off2 H2) in E2.
  injection E1 as <-. injection E2 as <-. rewrite !bucket_of_instant_rank.
  assert (H23 : wall_us v2_start <= wall_us v3_start) by (vm_compute; discriminate).
  repeat match goal with
         | |- context [?a <=? ?b] => destruct (Z.leb_spec a b)
         end; lia.
Qed.

Lemma version_of_date_monotone_witness :
  version_of_date (mk_date 2025 5 24 UTC) = Ok "v1" /\
  version_of_date (mk_date 2025 10 4 UTC) = Ok "v3" /\
  version_rank "v1" <= version_rank "v3".
Proof.
  split; [reflexivity|]. split; [reflexivity|].
  apply (version_of_date_monotone (mk_date 2025 5 24 UTC) (mk_date 2025 10 4 UTC) 0 0
           "v1" "v3"); try reflexivity.
  vm_compute. discriminate.
Defined.

Section InclusiveRange.
Context `{PyRuntime}.

(** X8.  With bounds and a stored date that all parse without offset, the
    second pass keeps a review exactly when its date lies between the
    bounds, both ends included; an absent bound is open. *)
Theorem is_date_in_range_inclusive value dt start_dt end_dt :
  SearchReviewService._parse_date (Some value) = Some dt ->
  tzinfo dt = None ->
  (forall s, start_dt = Some s -> tzinfo s = None) ->
  (forall e, end_dt = Some e -> tzinfo e = None) ->
  SearchReviewService._is_date_in_range value start_dt end_dt
  = Ok (match start_dt with Some s => wall_us s <=? wall_us dt | None => true end
        && match end_dt with Some e => wall_us dt <=? wall_us e | None => true end).
Proof.
  intros Hv Hn Hs He. unfold SearchReviewService._is_date_in_range.
  destruct start_dt as [s|], end_dt as [e|]; try reflexivity; rewrite Hv;
    unfold dt_lt, dt_gt, dt_compare; rewrite Hn;
    try rewrite (Hs s eq_refl); try rewrite (He e eq_refl);
    cbn [mbind res_bind];
    repeat match goal with
           | |- context [?a ?= ?b] => destruct (Z.compare_spec a b)
           | |- context [?a <=? ?b] => destruct (Z.leb_spec a b)
           end; try reflexivity; lia.
Qed.

End InclusiveRange.

Lemma is_date_in_range_inclusive_witness :
  @SearchReviewService._is_date_in_range host_utc "2025-01-01"
    (Some (mk_date 2025 1 1 None)) (Some (mk_date 2025 1 1 None)) = Ok true.
Proof.
  apply (@is_date_in_range_inclusive host_utc "2025-01-01" (mk_date 2025 1 1 None)
           (Some (mk_date 2025 1 1 None)) (Some (mk_date 2025 1 1 None)));
    [reflexivity | reflexivity | intros s [= <-]; reflexivity
    | intros e [= <-]; reflexivity].
Defined.

(* --------------------------------------------------------------------- *)
(** ** Payloads: what is stored is what comes back *)
(* --------------------------------------------------------------------- *)

Lemma dict_get_set_same d k v : dict_get (dict_set d k v) k = Some v.
Proof.
  induction d as [|[k' v'] d IH]; cbn [dict_set dict_get].
  - rewrite String.eqb_refl. reflexivity.
  - destruct (String.eqb k' k) eqn:E; cbn [dict_get]; rewrite ?String.eqb_refl, ?E; auto.
Qed.

Lemma dict_get_set_other d k k' v : k <> k' -> dict_get (dict_set d k v) k' = dict_get d k'.
Proof.
  intros Hk. induction d as [|[k0 v0] d IH]; cbn [dict_set dict_get].
  - destruct (String.eqb_spec k k'); [contradiction | reflexivity].
  - destruct (String.eqb_spec k0 k) as [-> | Hk0]; cbn [dict_get].
    + destruct (String.eqb_spec k k'); [contradiction | reflexivity].
    + destruct (String.eqb k0 k'); [reflexivity | exact IH].
Qed.

Lemma without_document_absent d :
  dict_get d "document" = None -> without_document d = d.
Proof.
  unfold without_document. induction d as [|[k v] d IH]; [reflexivity|].
  cbn [dict_get List.filter fst]. destruct (String.eqb k "document"); [discriminate|].
  cbn [negb]. intros Hd. rewrite (IH Hd). reflexivity.
Qed.

Lemma without_document_set d v :
  dict_get d "document" = None ->
  without_document (dict_set d "document" v) = d.
Proof.
  unfold without_document. induction d as [|[k w] d IH]; [reflexivity|].
  cbn [dict_get dict_set]. destruct (String.eqb k "document") eqn:E; [discriminate|].
  cbn [List.filter fst]. rewrite E. cbn [negb]. intros Hd. rewrite (IH Hd). reflexivity.
Qed.

(** X9.  The payload written by [add_embeddings] is split back by [query]
    into the metadata and the document it was made of, provided the
    metadata has no key "document" of its own. *)
Theorem payload_round_trip (md : dict) (doc : string) (id : Z) (score : pyfloat) :
  dict_get md "document" = None ->
  let stored := {| sp_id := id; sp_payload := Some (dict_set md "document" (VStr doc));
                   sp_score := score |} in
  without_document (payload_of stored) = md /\
  get_or (payload_of stored) "document" (VStr "") = VStr doc.
Proof.
  intros Hd stored. unfold payload_of, stored. cbn [sp_payload].
  destruct (dict_set md "document" (VStr doc)) as [|p ps] eqn:E.
  - destruct md as [|[k v] md]; [discriminate|].
    cbn [dict_set] in E. destruct (String.eqb k "document"); discriminate.
  - rewrite <- E. split; [apply without_document_set, Hd|].
    unfold get_or. rewrite dict_get_set_same. reflexivity.
Qed.

Lemma payload_round_trip_witness :
  without_document
    (payload_of {| sp_id := 7;
                   sp_payload := Some (dict_set [("id", VStr "a")] "document" (VStr "x"));
                   sp_score := FFin 0 0 |})
  = [("id", VStr "a")].
Proof.
  exact (proj1 (payload_round_trip [("id", VStr "a")] "x" 7 (FFin 0 0) eq_refl)).
Defined.

Section StoredReview.
Context `{PyRuntime}.

(** X10.  A normalized review that went through the index comes back as
    evidence with its own text, id, rating, date and version, and with
    device and country in lower case. *)
Theorem evidence_of_stored_review (r : NormalizedReview) (pid : Z) (score : pyfloat) :
  truthy (r_id r) = true ->
  evidence_of_point py_repr
    {| sp_id := pid;
       sp_payload := Some (dict_set (metadata_of r) "document" (VStr (r_review_text r)));
       sp_score := score |}
  = {| text := VStr (r_review_text r);
       e_id := r_id r;
       e_rating := VInt (r_rating r);
       e_date := VStr (r_date r);
       e_version := VStr (r_version r);
       e_device := lower (py_str (r_device r));
       e_country := lower (py_str (r_country r)) |}.
Proof.
  intros Hid.
  destruct (payload_round_trip (metadata_of r) (r_review_text r) pid score eq_refl)
    as [Hmd Hdoc].
  unfold evidence_of_point. rewrite Hmd. cbn zeta in Hdoc. rewrite Hdoc.
  unfold metadata_of, get. cbn [dict_get String.eqb Ascii.eqb Bool.eqb default from_option id].
  rewrite Hid. f_equal.
  - unfold py_or. cbn [truthy].
    destruct (String.eqb_spec (lower (py_str (r_device r))) "") as [-> | _]; reflexivity.
  - unfold py_or. cbn [truthy].
    destruct (String.eqb_spec (lower (py_str (r_country r))) "") as [-> | _]; reflexivity.
Qed.

End StoredReview.

Lemma evidence_of_stored_review_witness :
  exists r,
    @_normalize_review_record host_utc (VDict sample_review) = Ok r /\
    e_device (evidence_of_point (@py_repr host_utc)
                {| sp_id := 7;
                   sp_payload := Some (dict_set (@metadata_of host_utc r) "document"
                                                (VStr (r_review_text r)));
                   sp_score := FFin 0 0 |})
    = "android".
Proof.
  destruct (@_normalize_review_record host_utc (VDict sample_review)) as [r|] eqn:E;
    [|vm_compute in E; discriminate E].
  exists r. split; [reflexivity|].
  rewrite (@evidence_of_stored_review host_utc r 7 (FFin 0 0));
    vm_compute in E; injection E as <-; reflexivity.
Defined.

(* --------------------------------------------------------------------- *)
(** ** Indexing: how it fails and what it leaves *)
(* --------------------------------------------------------------------- *)

Lemma traverse_ok_or {A B} (f : A -> res B) (e : exn) xs :
  (forall x, In x xs -> (exists y, f x = Ok y) \/ f x = Raise e) ->
  (exists ys, traverse f xs = Ok ys) \/ traverse f xs = Raise e.
Proof.
  induction xs as [|x xs IH]; intros Hf; cbn [traverse]; [left; eauto|].
  destruct (Hf x (or_introl eq_refl)) as [[y ->] | ->]; [|right; reflexivity].
  cbn [mbind res_bind].
  destruct IH as [[ys ->] | ->]; [intros x' Hx'; apply Hf; right; exact Hx' | |].
  - left. cbn [mbind res_bind]. eauto.
  - right. reflexivity.
Qed.

Lemma traverse_ok_inv {A B} (f : A -> res B) xs ys :
  traverse f xs = Ok ys -> forall x, In x xs -> exists y, f x = Ok y.
Proof.
  revert ys. induction xs as [|x xs IH]; intros ys Ht x' Hx'; [destruct Hx'|].
  cbn [traverse] in Ht. destruct (f x) as [y|] eqn:Ey; [|discriminate].
  cbn [mbind res_bind] in Ht. destruct (traverse f xs) as [ys'|]; [|discriminate].
  destruct Hx' as [<- | Hx']; [eauto | eapply IH; eauto].
Qed.

Section IndexStep.
Context `{PyRuntime} `{VectorEngine}.

(** X11.  The lists built from normalized reviews always agree in length, so
    the index step never raises IndexError: it succeeds exactly when
    every review id is a string, and otherwise raises AttributeError. *)
Theorem index_step_errors st (processed : list NormalizedReview) :
  let ids := map r_id processed in
  let documents := map r_review_text processed in
  let metadatas := map metadata_of processed in
  create_documents_and_metadata processed = (ids, documents, metadatas) /\
  ((exists st', add_embeddings st ids documents metadatas = Ok st') <-> all_strings ids) /\
  (add_embeddings st ids documents metadatas = Raise AttributeError <-> ~ all_strings ids).
Proof.
  cbn zeta. split; [reflexivity|].
  set (ids := map r_id processed). set (documents := map r_review_text processed).
  set (metadatas := map metadata_of processed).
  assert (Hl : length documents = length ids /\ length metadatas = length ids)
    by (unfold ids, documents, metadatas; rewrite !length_map; auto).
  destruct Hl as [Hld Hlm].
  assert (Hdich : (exists st', add_embeddings st ids documents metadatas = Ok st') \/
                  add_embeddings st ids documents metadatas = Raise AttributeError).
  { unfold add_embeddings. destruct ids as [|v ids'] eqn:Eids; [left; eauto|].
    rewrite <- Eids in *. unfold build_points.
    match goal with
    | |- context [traverse ?f ?xs] =>
        destruct (traverse_ok_or f AttributeError xs) as [[pts ->] | ->]
    end; [| left; cbn [mbind res_bind]; eauto | right; reflexivity].
    intros i Hi. apply in_seq in Hi.
    destruct (index_lt metadatas i) as (md & -> & _); [lia|].
    destruct (index_lt documents i) as (doc & -> & _); [lia|].
    destruct (index_lt ids i) as (rid & -> & _); [lia|].
    destruct (index_lt (embed_documents documents) i) as (vec & Evec & _);
      [rewrite embed_documents_length; lia|].
    cbn [mbind res_bind]. destruct rid; cbn [_point_id mbind res_bind]; auto.
    rewrite Evec. left. cbn [mbind res_bind]. eauto. }
  assert (Hok : (exists st', add_embeddings st ids documents metadatas = Ok st') ->
                all_strings ids).
  { intros [st' Hst'] v Hv. unfold add_embeddings in Hst'.
    destruct ids as [|v0 ids'] eqn:Eids; [destruct Hv|]. rewrite <- Eids in *.
    res_step Hst'. unfold build_points in E.
    apply list_elem_of_In, list_elem_of_lookup_1 in Hv as [i Hi].
    pose proof (lookup_lt_Some _ _ _ Hi) as Hlt.
    destruct (traverse_ok_inv _ _ _ E i) as [y Hy]; [apply in_seq; lia|].
    destruct (index_lt metadatas i) as (md & Em & _); [lia|].
    destruct (index_lt documents i) as (doc & Ed & _); [lia|].
    rewrite Em in Hy. cbn [mbind res_bind] in Hy.
    rewrite Ed in Hy. cbn [mbind res_bind] in Hy.
    assert (Ev : index ids i = Ok v) by (unfold index; rewrite Hi; reflexivity).
    rewrite Ev in Hy.
    cbn [mbind res_bind] in Hy. destruct v; try discriminate. eauto. }
  assert (Hgood : all_strings ids ->
                  exists st', add_embeddings st ids documents metadatas = Ok st').
  { intros Hs. unfold add_embeddings. destruct ids as [|v ids'] eqn:Eids; [eauto|].
    rewrite <- Eids in *.
    destruct (build_points_ok ids documents metadatas (embed_documents documents))
      as (points & -> & _); auto; try lia.
    - rewrite embed_documents_length. lia.
    - cbn [mbind res_bind]. eauto. }
  split; [split; [exact Hok | exact Hgood]|].
  split.
  - intros Hr Hs. destruct (Hgood Hs) as [st' Hst']. congruence.
  - intros Hn. destruct Hdich as [Hex | Hr]; [|exact Hr]. exfalso. apply Hn, Hok, Hex.
Qed.

End IndexStep.

Lemma upsert_size points : forall st : gmap Z point,
  (size st <= size (upsert st points) <= size st + length points)%nat.
Proof.
  unfold upsert. induction points as [|[k p] points IH]; intros st; cbn [fold_left length].
  - lia.
  - specialize (IH (<[k:=p]> st)). cbn [fst snd] in *.
    pose proof (map_size_insert k p st) as Hs.
    destruct (st !! k); unfold id in Hs; lia.
Qed.

Lemma upsert_keeps points : forall (st : gmap Z point) k,
  is_Some (st !! k) -> is_Some (upsert st points !! k).
Proof.
  unfold upsert. induction points as [|[k' p] points IH]; intros st k Hk;
    cbn [fold_left]; [exact Hk|].
  apply IH. cbn [fst snd]. apply lookup_insert_is_Some.
  destruct (decide (k' = k)); [left; assumption | right; split; assumption].
Qed.

Lemma build_points_length ids documents metadatas embeddings points :
  build_points ids documents metadatas embeddings = Ok points ->
  length points = length ids.
Proof.
  unfold build_points. intros Hb. apply traverse_length in Hb.
  rewrite Hb. apply length_seq.
Qed.

Section IndexSummary.
Context `{PyRuntime} `{VectorEngine}.

Lemma index_reviews_counts st ids documents metadatas st' s :
  index_reviews st ids documents metadatas = Ok (st', s) ->
  status s = "ok" /\ inserted s = Z.of_nat (length ids) /\ updated s = 0 /\
  total_docs s = Z.of_nat (size st') /\
  (size st <= size st' <= size st + length ids)%nat /\
  (forall k, is_Some (st !! k) -> is_Some (st' !! k)).
Proof.
  unfold index_reviews. intros Hi. res_step Hi. res_step Hi.
  injection Hi as <- <-. cbn [status inserted updated total_docs].
  rewrite (get_points_total _ _ _ E0).
  repeat split; try reflexivity.
  all: unfold add_embeddings in E; destruct ids as [|v ids'] eqn:Eids;
    [injection E as <-; cbn [length]; auto; lia|]; rewrite <- Eids in *;
    res_step E; injection E as <-.
  - apply upsert_size.
  - pose proof (upsert_size a1 st). rewrite (build_points_length _ _ _ _ _ E1) in *. lia.
  - intros k. apply upsert_keeps.
Qed.

(** X12.  What the summary of an index step says: [inserted] is the size of the
    batch, whether or not its points were new; [total_docs] is the size of
    the collection afterwards, which never shrinks and grows by at most the
    batch; every point stored before is still stored. *)
Theorem index_reviews_summary st ids documents metadatas st' s :
  index_reviews st ids documents metadatas = Ok (st', s) ->
  status s = "ok" /\ inserted s = Z.of_nat (length ids) /\ updated s = 0 /\
  total_docs s = Z.of_nat (size st') /\
  Z.of_nat (size st) <= total_docs s <= Z.of_nat (size st) + inserted s /\
  (forall k, is_Some (st !! k) -> is_Some (st' !! k)).
Proof.
  intros Hi. destruct (index_reviews_counts _ _ _ _ _ _ Hi) as (Hs & Hn & Hu & Ht & Hb & Hk).
  rewrite Ht, Hn. repeat split; auto; lia.
Qed.

(** X13.  The summary of a payload ingestion counts raw reviews: [inserted] is
    the number of reviews the payload holds, duplicates included, and the
    collection grows by at most that number. *)
Theorem ingest_summary_counts st payload items st' s :
  _extract_raw_reviews payload = Ok (VList items) ->
  ingest_reviews_from_payload st payload = Ok (st', s) ->
  inserted s = Z.of_nat (length items) /\
  Z.of_nat (size st) <= total_docs s <= Z.of_nat (size st) + Z.of_nat (length items).
Proof.
  intros He Hi. unfold ingest_reviews_from_payload in Hi. rewrite He in Hi.
  cbn [mbind res_bind] in Hi. res_step Hi.
  unfold process_raw_reviews in E. cbn [py_iter mbind res_bind] in E.
  apply traverse_length in E.
  unfold create_documents_and_metadata in Hi.
  destruct (index_reviews_counts _ _ _ _ _ _ Hi) as (_ & Hn & _ & Ht & Hb & _).
  rewrite length_map in Hn, Hb. rewrite E in Hn, Hb. rewrite Ht, Hn. lia.
Qed.

End IndexSummary.

Lemma index_reviews_summary_witness :
  exists st' s,
    @index_reviews scan_engine ∅ [VStr "a"; VStr "a"] ["x"; "y"] [[]; []] = Ok (st', s) /\
    inserted s = 2 /\ 0 <= total_docs s <= 2.
Proof.
  destruct (@index_reviews scan_engine ∅ [VStr "a"; VStr "a"] ["x"; "y"] [[]; []])
    as [[st' s]|] eqn:E; [|vm_compute in E; discriminate E].
  destruct (@index_reviews_summary scan_engine ∅ _ _ _ st' s E)
    as (_ & Hn & _ & _ & Hb & _).
  exists st', s. split; [reflexivity|]. split; [exact Hn|].
  rewrite Hn in Hb. exact Hb.
Defined.

Lemma ingest_summary_counts_witness :
  exists st' s,
    @ingest_reviews_from_payload host_utc scan_engine ∅
      (VDict [("reviews", VList [VDict sample_review; VDict sample_review])])
    = Ok (st', s) /\
    inserted s = 2 /\ 0 <= total_docs s <= 2.
Proof.
  destruct (@ingest_reviews_from_payload host_utc scan_engine ∅
              (VDict [("reviews", VList [VDict sample_review; VDict sample_review])]))
    as [[st' s]|] eqn:E; [|vm_compute in E; discriminate E].
  destruct (@ingest_summary_counts host_utc scan_engine ∅
              (VDict [("reviews", VList [VDict sample_review; VDict sample_review])])
              [VDict sample_review; VDict sample_review] st' s eq_refl E) as [Hn Hb].
  exists st', s. split; [reflexivity|]. split; [exact Hn | exact Hb].
Defined.

(* --------------------------------------------------------------------- *)
(** ** Listing and query results *)
(* --------------------------------------------------------------------- *)

Lemma str_of_int_nonempty n : str_of_int n <> "".
Proof.
  unfold str_of_int. destruct (Z.to_int n) as [d|d]; destruct d; discriminate.
Qed.

Lemma without_document_get payload : dict_get (without_document payload) "document" = None.
Proof.
  unfold without_document. induction payload as [|[k v] d IH]; [reflexivity|].
  cbn [List.filter fst]. destruct (String.eqb k "document") eqn:E; cbn [negb]; [exact IH|].
  cbn [dict_get]. rewrite E. exact IH.
Qed.

Section QueryResultShape.
Context `{VectorEngine}.

(** X14.  The four lists of a query result are aligned and at most [n_results]
    long; no metadata row carries the document text; and every id is
    truthy, the stored one or else the point id in decimal. *)
Theorem query_result_aligned st q n f :
  let r := QdrantService.query st q n f in
  length (documents r) = length (ids r) /\
  length (metadatas r) = length (ids r) /\
  length (distances r) = length (ids r) /\
  (length (ids r) <= n)%nat /\
  Forall (fun md => dict_get md "document" = None) (metadatas r) /\
  Forall (fun rid => truthy rid = true) (ids r).
Proof.
  cbn zeta. unfold QdrantService.query. cbn [ids documents metadatas distances].
  rewrite !length_map. repeat split; try reflexivity.
  - apply query_points_limit.
  - apply List.Forall_forall. intros md Hmd. apply in_map_iff in Hmd as (r & <- & _).
    apply without_document_get.
  - apply List.Forall_forall. intros rid Hr. apply in_map_iff in Hr as (r & <- & _).
    unfold py_or. destruct (truthy (get (payload_of r) "id")) eqn:E; [exact E|].
    cbn [truthy]. destruct (String.eqb_spec (str_of_int (sp_id r)) "") as [E'|_];
      [destruct (str_of_int_nonempty _ E') | reflexivity].
Qed.

End QueryResultShape.

Lemma snippet_of_text payload doc :
  dict_get payload "document" = Some (VStr doc) ->
  snippet_of payload = Ok (VStr (take_str 220 doc)).
Proof.
  intros Hd. unfold snippet_of, get, py_or. rewrite Hd.
  cbn [default from_option id truthy].
  destruct (String.eqb_spec doc "") as [-> | _]; reflexivity.
Qed.

Lemma upsert_text_store points : forall st : gmap Z point,
  text_store st ->
  Forall (fun kp : Z * point =>
            exists doc, dict_get (p_payload kp.2) "document" = Some (VStr doc)) points ->
  text_store (upsert st points).
Proof.
  unfold upsert. induction points as [|[k p] points IH]; intros st Hst Hp;
    cbn [fold_left]; [exact Hst|].
  apply Forall_cons in Hp as [Hkp Hp]. apply IH; [|exact Hp].
  intros k' p' Hl. cbn [fst snd] in *.
  destruct (decide (k = k')) as [-> | Hne].
  - rewrite lookup_insert_eq in Hl. injection Hl as <-. exact Hkp.
  - rewrite lookup_insert_ne in Hl by exact Hne. eapply Hst, Hl.
Qed.

Lemma traverse_Forall {A B} (f : A -> res B) (P : B -> Prop) xs ys :
  traverse f xs = Ok ys ->
  (forall x y, In x xs -> f x = Ok y -> P y) ->
  Forall P ys.
Proof.
  revert ys. induction xs as [|x xs IH]; intros ys Ht Hf.
  - injection Ht as <-. constructor.
  - cbn [traverse] in Ht. destruct (f x) as [y|] eqn:Ey; [|discriminate].
    cbn [mbind res_bind] in Ht. destruct (traverse f xs) as [ys'|]; [|discriminate].
    injection Ht as <-. constructor.
    + eapply Hf; [left; reflexivity | exact Ey].
    + apply IH; [reflexivity|]. intros x' y' Hx'. apply Hf. right. exact Hx'.
Qed.

Section TextStore.
Context `{VectorEngine}.

Lemma add_embeddings_text_store st ids documents metadatas st' :
  text_store st -> add_embeddings st ids documents metadatas = Ok st' -> text_store st'.
Proof.
  intros Hst Ha. unfold add_embeddings in Ha.
  destruct ids as [|v ids'] eqn:Eids; [injection Ha as <-; exact Hst|].
  rewrite <- Eids in *. res_step Ha. injection Ha as <-.
  apply upsert_text_store; [exact Hst|].
  unfold build_points in E.
  eapply traverse_Forall; [exact E|].
  intros i kp _ Hi. cbn beta in Hi.
  do 5 res_step Hi. injection Hi as <-. cbn [snd p_payload].
  eexists. apply dict_get_set_same.
Qed.

Lemma get_points_text_store st limit :
  text_store st -> scroll_sound st limit ->
  exists listing,
    get_points st limit = Ok listing /\
    l_total_docs listing = Z.of_nat (size st) /\
    length (l_items listing) = length (scroll st limit) /\
    Forall (fun item => exists s, dict_get item "snippet" = Some (VStr s) /\
                                  (String.length s <= 220)%nat) (l_items listing).
Proof.
  intros Hst Hsc. unfold get_points.
  match goal with
  | |- context [traverse ?f ?xs] =>
      destruct (traverse_ok f xs) as (items & Ht & Hlen)
  end.
  { intros kp Hkp. destruct (Hst _ _ (Hsc kp Hkp)) as [doc Hdoc].
    rewrite (snippet_of_text _ _ Hdoc). cbn [mbind res_bind]. eauto. }
  rewrite Ht. cbn [mbind res_bind]. eexists. split; [reflexivity|].
  cbn [l_total_docs l_items]. split; [reflexivity|]. split; [exact Hlen|].
  eapply traverse_Forall; [exact Ht|].
  intros kp item Hkp Hitem. cbn beta in Hitem.
  destruct (Hst _ _ (Hsc kp Hkp)) as [doc Hdoc].
  rewrite (snippet_of_text _ _ Hdoc) in Hitem. cbn [mbind res_bind] in Hitem.
  injection Hitem as <-. exists (take_str 220 doc).
  split; [reflexivity | apply take_str_length].
Qed.

(** X15.  Listing a collection that [add_embeddings] filled never raises: each
    stored document is a string, so every row gets a snippet of at most
    220 characters, and [total_docs] is the size of the collection. *)
Theorem get_points_after_indexing st ids documents metadatas st' limit :
  text_store st ->
  add_embeddings st ids documents metadatas = Ok st' ->
  scroll_sound st' limit ->
  text_store st' /\
  exists listing,
    get_points st' limit = Ok listing /\
    l_total_docs listing = Z.of_nat (size st') /\
    length (l_items listing) = length (scroll st' limit) /\
    Forall (fun item => exists s, dict_get item "snippet" = Some (VStr s) /\
                                  (String.length s <= 220)%nat) (l_items listing).
Proof.
  intros Hst Ha Hsc.
  pose proof (add_embeddings_text_store _ _ _ _ _ Hst Ha) as Hst'.
  split; [exact Hst' | apply get_points_text_store; assumption].
Qed.

End TextStore.

Lemma text_store_empty : text_store ∅.
Proof. intros k p Hk. rewrite lookup_empty in Hk. discriminate Hk. Qed.

Lemma scan_engine_scroll_sound st limit : @scroll_sound scan_engine st limit.
Proof.
  intros [k p] Hkp. cbn [scroll scan_engine] in Hkp.
  apply list_elem_of_In, elem_of_take in Hkp as (i & Hi & _).
  apply list_elem_of_lookup_2, elem_of_map_to_list in Hi. exact Hi.
Qed.

Lemma get_points_after_indexing_witness :
  exists st' listing,
    @add_embeddings scan_engine ∅ [VStr "a"] ["x"] [[]] = Ok st' /\
    @get_points scan_engine st' 20 = Ok listing /\
    l_total_docs listing = Z.of_nat (size st').
Proof.
  destruct (@add_embeddings scan_engine ∅ [VStr "a"] ["x"] [[]]) as [st'|] eqn:E;
    [|vm_compute in E; discriminate E].
  destruct (@get_points_after_indexing scan_engine ∅ [VStr "a"] ["x"] [[]] st' 20
              text_store_empty E (scan_engine_scroll_sound st' 20))
    as (_ & listing & Hg & Ht & _).
  exists st', listing. split; [reflexivity|]. split; [exact Hg | exact Ht].
Defined.

(* --------------------------------------------------------------------- *)
(** ** The query engine: evidence and reported filters *)
(* --------------------------------------------------------------------- *)

Section EvidenceOrder.
Context `{PyRuntime} `{VectorEngine}.

(** whatever the bounds, the loop only appends evidence of index results,
    in their order *)
Lemma collect_sublist st q f start_dt end_dt n : forall k acc out,
  let points := query_points st (embed_query q) 12 f in
  (k + n <= length points)%nat ->
  SearchReviewService.collect (QdrantService.query st q 12 f) start_dt end_dt (seq k n) acc
  = Ok out ->
  exists kept, out = acc ++ kept /\
    sublist kept (map (evidence_of_point py_repr) (take n (drop k points))).
Proof.
  cbn zeta. set (points := query_points st (embed_query q) 12 f).
  induction n as [|n IH]; intros k acc out Hk Hc.
  - cbn [seq SearchReviewService.collect] in Hc. injection Hc as <-.
    exists []. rewrite app_nil_r. split; [reflexivity | constructor].
  - destruct (lookup_lt_is_Some_2 points k) as [r Hr]; [lia|].
    cbn [seq SearchReviewService.collect] in Hc.
    rewrite (query_metadata_at _ _ _ _ _ _ Hr), (query_document_at _ _ _ _ _ _ Hr) in Hc.
    cbn [mbind res_bind] in Hc.
    rewrite (drop_S _ _ _ Hr). cbn [take map].
    destruct (SearchReviewService._is_date_in_range _ start_dt end_dt) as [[|]|];
      [| |discriminate Hc].
    + rewrite (evidence_of_result _ _ _ _ _ _ Hr) in Hc. cbn [mbind res_bind] in Hc.
      destruct (12 <=? length (acc ++ [evidence_of_point py_repr r]))%nat.
      * injection Hc as <-. exists [evidence_of_point py_repr r].
        split; [reflexivity|]. apply sublist_skip, sublist_nil_l.
      * destruct (IH (S k) _ _ ltac:(lia) Hc) as (kept & -> & Hsub).
        exists (evidence_of_point py_repr r :: kept).
        split; [rewrite <- app_assoc; reflexivity | apply sublist_skip, Hsub].
    + destruct (IH (S k) _ _ ltac:(lia) Hc) as (kept & -> & Hsub).
      exists kept. split; [reflexivity | apply sublist_cons, Hsub].
Qed.

(** X16.  Every evidence item of a query is an index result, rendered as
    evidence; the items keep the order of the index, none is repeated or
    invented, and there are at most twelve.  The index is asked with the
    filter built from the normalized hints and the parsed timestamps. *)
Theorem query_evidence_from_index st q start_date end_date device rating
    country version mobile_model r :
  SearchReviewService.query st q start_date end_date device rating
    country version mobile_model = Ok r ->
  exists start_ts end_ts,
    SearchReviewService.query_timestamps
      (SearchReviewService._parse_date start_date)
      (SearchReviewService._parse_date end_date) = Ok (start_ts, end_ts) /\
    sublist (retrieved_documents r)
      (map (evidence_of_point py_repr)
         (query_points st (embed_query q) 12
            (build_filter (SearchReviewService.normalized_device_of device)
               (Some (clean_ratings (default [] rating)))
               (SearchReviewService.stripped_lower_of country)
               (SearchReviewService.stripped_lower_of version) start_ts end_ts))) /\
    (length (retrieved_documents r) <= 12)%nat /\
    question r = q.
Proof.
  unfold SearchReviewService.query. intros Hq.
  res_step Hq. destruct a as [start_ts end_ts]. res_step Hq.
  injection Hq as <-. cbn [retrieved_documents question].
  exists start_ts, end_ts. split; [reflexivity|].
  set (f := build_filter _ _ _ _ start_ts end_ts) in *.
  pose proof (query_points_limit st (embed_query q) 12 f) as Hlim.
  assert (Hlen : length (ids (QdrantService.query st q 12 f))
                 = length (query_points st (embed_query q) 12 f)).
  { unfold QdrantService.query. cbn [ids]. apply length_map. }
  rewrite Hlen in E0.
  destruct (collect_sublist st q f _ _
              (length (query_points st (embed_query q) 12 f)) 0%nat [] _
              ltac:(cbn zeta; lia) E0)
    as (kept & -> & Hsub).
  rewrite drop_0, firstn_all in Hsub. cbn [app].
  split; [exact Hsub|]. split; [|reflexivity].
  apply sublist_length in Hsub. rewrite length_map in Hsub. lia.
Qed.

End EvidenceOrder.

Lemma query_evidence_from_index_witness :
  exists r,
    @SearchReviewService.query host_utc scan_engine sample_store "update"
      (Some "2025-01-01") (Some "2025-01-01") None None None None None = Ok r /\
    (length (retrieved_documents r) <= 12)%nat.
Proof.
  destruct (@SearchReviewService.query host_utc scan_engine sample_store "update"
              (Some "2025-01-01") (Some "2025-01-01") None None None None None)
    as [r|] eqn:E; [|vm_compute in E; discriminate E].
  destruct (@query_evidence_from_index host_utc scan_engine sample_store "update"
              (Some "2025-01-01") (Some "2025-01-01") None None None None None r E)
    as (s & e & _ & _ & Hlen & _).
  exists r. split; [reflexivity | exact Hlen].
Defined.


Lemma applied_dates sd ed nd rv nc nv :
  dict_get (SearchReviewService.build_applied_filters sd ed nd rv nc nv) "start_date"
  = (if supplied sd then Some (VStr (default "" sd)) else None) /\
  dict_get (SearchReviewService.build_applied_filters sd ed nd rv nc nv) "end_date"
  = (if supplied ed then Some (VStr (default "" ed)) else None).
Proof.
  unfold SearchReviewService.build_applied_filters.
  destruct (supplied sd), (supplied ed), (String.eqb nd ""), rv,
           (String.eqb nc ""), (String.eqb nv ""); split; reflexivity.
Qed.

Lemma applied_values sd ed nd rv nc nv :
  dict_get (SearchReviewService.build_applied_filters sd ed nd rv nc nv) "rating"
  = (match rv with [] => None | _ => Some (VList (map VInt rv)) end) /\
  dict_get (SearchReviewService.build_applied_filters sd ed nd rv nc nv) "country"
  = (if String.eqb nc "" then None else Some (VStr nc)) /\
  dict_get (SearchReviewService.build_applied_filters sd ed nd rv nc nv) "version"
  = (if String.eqb nv "" then None else Some (VStr nv)).
Proof.
  unfold SearchReviewService.build_applied_filters.
  destruct (supplied sd), (supplied ed), (String.eqb nd ""), rv,
           (String.eqb nc ""), (String.eqb nv ""); repeat split; reflexivity.
Qed.

Section ReportedFilters.
Context `{PyRuntime} `{VectorEngine}.

(** X17.  What a returning query reports as applied: each date hint as it was
    typed, the ratings that lie in 1..5 (the entry is absent when none
    does), and country and version stripped and in lower case. *)
Theorem query_reported_filters st q start_date end_date device rating country
    version mobile_model r :
  SearchReviewService.query st q start_date end_date device rating
    country version mobile_model = Ok r ->
  applied_filter r "start_date"
  = (if supplied start_date then Some (VStr (default "" start_date)) else None) /\
  applied_filter r "end_date"
  = (if supplied end_date then Some (VStr (default "" end_date)) else None) /\
  applied_filter r "rating"
  = (match clean_ratings (default [] rating) with
     | [] => None
     | clean => Some (VList (map VInt clean))
     end) /\
  applied_filter r "country"
  = (if supplied country then
       if String.eqb (lower (strip (default "" country))) "" then None
       else Some (VStr (lower (strip (default "" country))))
     else None) /\
  applied_filter r "version"
  = (if supplied version then
       if String.eqb (lower (strip (default "" version))) "" then None
       else Some (VStr (lower (strip (default "" version))))
     else None).
Proof.
  unfold SearchReviewService.query. intros Hq.
  res_step Hq. destruct a as [start_ts end_ts]. res_step Hq.
  injection Hq as <-. unfold applied_filter.
  cbn [applied_filters dict_get String.eqb Ascii.eqb Bool.eqb].
  match goal with
  | |- context [SearchReviewService.build_applied_filters ?sd ?ed ?nd ?rv ?nc ?nv] =>
      destruct (applied_dates sd ed nd rv nc nv) as [-> ->];
      destruct (applied_values sd ed nd rv nc nv) as (-> & -> & ->)
  end.
  unfold SearchReviewService.stripped_lower_of.
  repeat split; try reflexivity.
  - destruct (clean_ratings (default [] rating)); reflexivity.
  - destruct (supplied country); reflexivity.
  - destruct (supplied version); reflexivity.
Qed.

(** X18.  A date hint that no parser reads is still reported as applied,
    although no date filter reaches the index and the second pass keeps
    every result: the query behaves as if no date had been given. *)
Theorem query_unparsed_dates_ignored st q start_date end_date device rating
    country version mobile_model :
  SearchReviewService._parse_date start_date = None ->
  SearchReviewService._parse_date end_date = None ->
  exists r,
    SearchReviewService.query st q start_date end_date device rating
      country version mobile_model = Ok r /\
    retrieved_documents r
    = map (evidence_of_point py_repr)
          (query_points st (embed_query q) 12
             (build_filter (SearchReviewService.normalized_device_of device)
                (Some (clean_ratings (default [] rating)))
                (SearchReviewService.stripped_lower_of country)
                (SearchReviewService.stripped_lower_of version) None None)) /\
    applied_filter r "start_date"
    = (if supplied start_date then Some (VStr (default "" start_date)) else None) /\
    applied_filter r "end_date"
    = (if supplied end_date then Some (VStr (default "" end_date)) else None).
Proof.
  intros Hs He. unfold SearchReviewService.query. rewrite Hs, He.
  cbn [SearchReviewService.query_timestamps mbind res_bind fmap res_fmap
       option_fmap option_map].
  set (f := build_filter _ _ _ _ None None).
  pose proof (query_points_limit st (embed_query q) 12 f) as Hlim.
  assert (Hlen : length (ids (QdrantService.query st q 12 f))
                 = length (query_points st (embed_query q) 12 f)).
  { unfold QdrantService.query. cbn [ids]. apply length_map. }
  rewrite Hlen, collect_without_bounds; [| lia | cbn [length]; lia].
  cbn [mbind res_bind app]. rewrite drop_0, firstn_all.
  eexists. split; [reflexivity|]. split; [reflexivity|].
  unfold applied_filter. cbn [applied_filters dict_get String.eqb Ascii.eqb Bool.eqb].
  apply applied_dates.
Qed.

End ReportedFilters.

Lemma query_reported_filters_witness :
  exists r,
    @SearchReviewService.query host_utc scan_engine sample_store "praise"
      None None None (Some [0; 4; 9]) (Some " IN ") None None = Ok r /\
    applied_filter r "rating" = Some (VList [VInt 4]) /\
    applied_filter r "country" = Some (VStr "in").
Proof.
  destruct (@SearchReviewService.query host_utc scan_engine sample_store "praise"
              None None None (Some [0; 4; 9]) (Some " IN ") None None)
    as [r|] eqn:E; [|vm_compute in E; discriminate E].
  destruct (@query_reported_filters host_utc scan_engine sample_store "praise"
              None None None (Some [0; 4; 9]) (Some " IN ") None None r E)
    as (_ & _ & Hr & Hc & _).
  exists r. split; [reflexivity|]. split; [exact Hr | exact Hc].
Defined.

Lemma query_unparsed_dates_ignored_witness :
  exists r,
    @SearchReviewService.query host_utc scan_engine sample_store "praise"
      (Some "last week") None None None None None None = Ok r /\
    length (retrieved_documents r) = 5%nat /\
    applied_filter r "start_date" = Some (VStr "last week").
Proof.
  destruct (@query_unparsed_dates_ignored host_utc scan_engine sample_store "praise"
              (Some "last week") None None None None None None eq_refl eq_refl)
    as (r & Hq & Hdocs & Hsd & _).
  exists r. split; [exact Hq|]. split; [|exact Hsd].
  rewrite Hdocs. vm_compute. reflexivity.
Defined.

(* --------------------------------------------------------------------- *)
(** ** The query engine: the index filter *)
(* --------------------------------------------------------------------- *)

Lemma lower_char_idempotent c : lower_char (lower_char c) = lower_char c.
Proof. destruct c as [[] [] [] [] [] [] [] []]; reflexivity. Qed.

Lemma is_space_lower_char c : is_space (lower_char c) = is_space c.
Proof. destruct c as [[] [] [] [] [] [] [] []]; reflexivity. Qed.

Lemma lower_idempotent s : lower (lower s) = lower s.
Proof.
  induction s as [|c s IH]; [reflexivity|].
  cbn [lower]. rewrite lower_char_idempotent, IH. reflexivity.
Qed.

Lemma lstrip_lower s : lstrip_by is_space (lower s) = lower (lstrip_by is_space s).
Proof.
  induction s as [|c s IH]; [reflexivity|].
  cbn [lower lstrip_by]. rewrite is_space_lower_char.
  destruct (is_space c); [exact IH | reflexivity].
Qed.

Lemma rstrip_lower s : rstrip_by is_space (lower s) = lower (rstrip_by is_space s).
Proof.
  induction s as [|c s IH]; [reflexivity|].
  cbn [lower]. rewrite !rstrip_by_cons, IH, is_space_lower_char.
  destruct (rstrip_by is_space s); cbn [lower]; [destruct (is_space c)|]; reflexivity.
Qed.

Lemma strip_lower s : strip (lower s) = lower (strip s).
Proof. unfold strip. rewrite lstrip_lower, rstrip_lower. reflexivity. Qed.

(** normalizing a hint twice is normalizing it once *)
Lemma normalize_hint_twice s : lower (strip (lower (strip s))) = lower (strip s).
Proof. rewrite strip_lower, strip_idempotent. apply lower_idempotent. Qed.

Lemma normalize_lowered_hint s : lower (strip (lower s)) = lower (strip s).
Proof. rewrite strip_lower. apply lower_idempotent. Qed.

Lemma clean_ratings_idempotent rs : clean_ratings (clean_ratings rs) = clean_ratings rs.
Proof.
  unfold clean_ratings. induction rs as [|r rs IH]; [reflexivity|].
  cbn [List.filter]. destruct (existsb (Z.eqb r) [1; 2; 3; 4; 5]) eqn:E; [|exact IH].
  cbn [List.filter]. rewrite E, IH. reflexivity.
Qed.

Lemma rating_clause_clean rating :
  rating_clause (Some (clean_ratings (default [] rating))) = rating_clause rating.
Proof.
  unfold rating_clause. destruct rating as [[|r rs]|]; try reflexivity.
  change (default [] (Some (r :: rs))) with (r :: rs).
  destruct (clean_ratings (r :: rs)) as [|c cs] eqn:E; [reflexivity|].
  pose proof (clean_ratings_idempotent (r :: rs)) as Hi. rewrite E in Hi.
  rewrite Hi. reflexivity.
Qed.

Lemma normalized_device_absorbed device :
  lower (strip (SearchReviewService.normalized_device_of device))
  = lower (strip (default "" device)).
Proof.
  unfold SearchReviewService.normalized_device_of, supplied.
  destruct device as [d|]; [|reflexivity].
  change (default "" (Some d)) with d.
  destruct (String.eqb_spec d "") as [-> | _]; [reflexivity | apply normalize_lowered_hint].
Qed.

Lemma stripped_lower_absorbed s :
  lower (strip (SearchReviewService.stripped_lower_of s)) = lower (strip (default "" s)).
Proof.
  unfold SearchReviewService.stripped_lower_of, supplied.
  destruct s as [d|]; [|reflexivity].
  change (default "" (Some d)) with d.
  destruct (String.eqb_spec d "") as [-> | _]; [reflexivity | apply normalize_hint_twice].
Qed.

(** X19.  The search service normalizes its hints before it builds the index
    filter, and [build_filter] normalizes them again; the second pass
    changes nothing, so the filter of a query is the one [build_filter]
    makes of the hints as the caller gave them. *)
Theorem query_filter_of_raw_hints device rating country version start_ts end_ts :
  build_filter (SearchReviewService.normalized_device_of device)
    (Some (clean_ratings (default [] rating)))
    (SearchReviewService.stripped_lower_of country)
    (SearchReviewService.stripped_lower_of version) start_ts end_ts
  = build_filter (default "" device) rating (default "" country) (default "" version)
      start_ts end_ts.
Proof.
  unfold build_filter, must_conditions.
  rewrite rating_clause_clean, normalized_device_absorbed, !stripped_lower_absorbed.
  reflexivity.
Qed.

Lemma value_clause_set key v : v <> "" -> value_clause key v = [FieldMatch key (MatchValue v)].
Proof. unfold value_clause. destruct (String.eqb_spec v ""); [contradiction | reflexivity]. Qed.

(** X20.  A device hint is matched against the index as typed, stripped and in
    lower case, but reported as one of two labels: "iOS" when the hint in
    lower case is exactly "ios", and "Android" for everything else, also
    for a device that is neither and for "ios" with a space around it. *)
Theorem device_filter_and_label (d : string) rating country version start_ts end_ts
    start_date end_date rv nc nv :
  lower (strip d) <> "" ->
  let nd := SearchReviewService.normalized_device_of (Some d) in
  (exists f, build_filter nd rating country version start_ts end_ts = Some f /\
             In (FieldMatch "device" (MatchValue (lower (strip d)))) (must f)) /\
  (forall payload,
     filter_holds (build_filter nd rating country version start_ts end_ts) payload = true ->
     dict_get payload "device" = Some (VStr (lower (strip d)))) /\
  dict_get (SearchReviewService.build_applied_filters start_date end_date nd rv nc nv)
           "device"
  = Some (VStr (if String.eqb (lower d) "ios" then "iOS" else "Android")).
Proof.
  intros Hd nd.
  assert (Hne : d <> "") by (intros ->; apply Hd; reflexivity).
  assert (End : nd = lower d).
  { unfold nd, SearchReviewService.normalized_device_of, supplied.
    destruct (String.eqb_spec d ""); [contradiction | reflexivity]. }
  assert (Hin : In (FieldMatch "device" (MatchValue (lower (strip d))))
                   (must_conditions nd rating country version start_ts end_ts)).
  { unfold must_conditions. rewrite End, normalize_lowered_hint.
    rewrite (value_clause_set "device" _ Hd).
    apply in_or_app. right. left. reflexivity. }
  split; [|split].
  - unfold build_filter.
    destruct (must_conditions nd rating country version start_ts end_ts) as [|c cs] eqn:E;
      [destruct Hin|].
    eexists. split; [reflexivity | exact Hin].
  - intros payload Hf. rewrite filter_holds_build_filter in Hf.
    rewrite forallb_forall in Hf. fold (must_conditions nd rating country version start_ts end_ts) in Hf.
    specialize (Hf _ Hin). cbn [condition_holds] in Hf.
    destruct (dict_get payload "device") as [[]|]; try discriminate.
    apply String.eqb_eq in Hf. congruence.
  - rewrite applied_device. rewrite End.
    destruct (String.eqb_spec (lower d) "") as [E|_].
    + exfalso. apply Hd. rewrite <- normalize_lowered_hint, E. reflexivity.
    + reflexivity.
Qed.

Lemma device_filter_and_label_witness :
  (exists f, build_filter (SearchReviewService.normalized_device_of (Some " iOS")) None "" ""
               None None = Some f /\
             In (FieldMatch "device" (MatchValue "ios")) (must f)) /\
  dict_get (SearchReviewService.build_applied_filters None None
              (SearchReviewService.normalized_device_of (Some " iOS")) [] "" "") "device"
  = Some (VStr "Android").
Proof.
  destruct (device_filter_and_label " iOS" None "" "" None None None None [] "" "")
    as (Hf & _ & Hl); [vm_compute; discriminate|].
  split; [exact Hf | exact Hl].
Defined.

(* --------------------------------------------------------------------- *)
(** ** Live collection and preview *)
(* --------------------------------------------------------------------- *)

Lemma tag_reviews_tagged device reviews out :
  tag_reviews device reviews = Ok out -> Forall (tagged device) out.
Proof.
  unfold tag_reviews. intros Ht. res_step Ht.
  eapply traverse_Forall; [exact Ht|].
  intros review y _ Hy. destruct review; try discriminate. injection Hy as <-.
  eexists. split; [reflexivity|]. split.
  - rewrite dict_get_set_other by discriminate. apply dict_get_set_same.
  - apply dict_get_set_same.
Qed.

Section Collection.
Context `{SerpApi}.

Lemma google_play_pages_spec n : forall params log combined log' combined',
  google_play_pages n params log combined = Ok (log', combined') ->
  exists requests new,
    log' = log ++ requests /\ combined' = combined ++ new /\
    (length requests <= n)%nat /\
    Forall (fun p => forall k, k <> "next_page_token" -> dict_get p k = dict_get params k)
           requests /\
    Forall (tagged "Android") new.
Proof.
  induction n as [|n IH]; intros params log combined log' combined' Hg.
  - injection Hg as <- <-. exists [], []. rewrite !app_nil_r.
    repeat split; auto; constructor.
  - cbn [google_play_pages] in Hg. res_step Hg.
    assert (Hone : Forall (fun p => forall k, k <> "next_page_token" ->
                                    dict_get p k = dict_get params k) [params])
      by (constructor; [reflexivity | constructor]).
    destruct (has_key a "error").
    { injection Hg as <- <-. exists [params], []. rewrite app_nil_r.
      repeat split; auto; cbn [length]; lia. }
    res_step Hg. apply tag_reviews_tagged in E0.
    destruct (py_or (get a "serpapi_pagination") (VDict [])) as [| | | | | |pagination];
      try discriminate Hg.
    destruct (truthy (get pagination "next_page_token")).
    + apply IH in Hg as (requests & new & -> & -> & Hlen & Hreq & Hnew).
      exists (params :: requests), (a0 ++ new).
      rewrite <- !app_assoc. cbn [app length].
      repeat split; auto; try lia; [|apply Forall_app; auto].
      constructor; [reflexivity|].
      eapply Forall_impl; [exact Hreq|]. cbn beta. intros p Hp k Hk.
      rewrite (Hp k Hk). apply dict_get_set_other. congruence.
    + injection Hg as <- <-. exists [params], a0.
      repeat split; auto. cbn [length]. lia.
Qed.

Lemma apple_pages_spec product country api_key n : forall page log combined log' combined',
  apple_pages n page product country api_key log combined = Ok (log', combined') ->
  exists count new,
    log' = log ++ map (fun i => apple_params_of product country api_key (page + Z.of_nat i))
                      (seq 0 count) /\
    combined' = combined ++ new /\
    (count <= n)%nat /\
    Forall (tagged "iOS") new.
Proof.
  induction n as [|n IH]; intros page log combined log' combined' Ha.
  - injection Ha as <- <-. exists 0%nat, []. cbn [seq map]. rewrite !app_nil_r.
    repeat split; auto.
  - cbn [apple_pages] in Ha. cbn zeta in Ha. res_step Ha.
    assert (Hone : [apple_params_of product country api_key page]
                   = map (fun i => apple_params_of product country api_key (page + Z.of_nat i))
                         (seq 0 1)).
    { cbn [seq map]. rewrite Z.add_0_r. reflexivity. }
    destruct (has_key a "error").
    { injection Ha as <- <-. exists 1%nat, []. rewrite app_nil_r, Hone.
      repeat split; auto. lia. }
    destruct (negb (truthy (get_or a "reviews" (VList [])))).
    { injection Ha as <- <-. exists 1%nat, []. rewrite app_nil_r, Hone.
      repeat split; auto. lia. }
    res_step Ha. apply tag_reviews_tagged in E0.
    apply IH in Ha as (count & new & -> & -> & Hlen & Hnew).
    exists (S count), (a0 ++ new). rewrite <- !app_assoc.
    repeat split; auto; try lia; [|apply Forall_app; auto].
    f_equal. cbn [seq map app]. rewrite Z.add_0_r. f_equal.
    rewrite <- seq_shift, map_map. apply map_ext. intros i. f_equal. lia.
Qed.

Lemma collect_spec key log gp ap ac max_pages log' reviews :
  collect_reviews_from_store_apis key log gp ap ac max_pages = Ok (log', reviews) ->
  exists api_key play apple_count android ios,
    key = Some api_key /\ api_key <> "" /\
    log' = log ++ play
               ++ map (fun i => apple_params_of ap ac api_key (1 + Z.of_nat i))
                      (seq 0 apple_count) /\
    (length play <= Z.to_nat max_pages)%nat /\
    (apple_count <= Z.to_nat max_pages)%nat /\
    Forall (fun p => forall k, k <> "next_page_token" ->
                     dict_get p k = dict_get (play_params_of gp api_key) k) play /\
    reviews = android ++ ios /\
    Forall (tagged "Android") android /\ Forall (tagged "iOS") ios.
Proof.
  unfold collect_reviews_from_store_apis. intros Hc.
  destruct key as [api_key|]; [|discriminate Hc].
  destruct (String.eqb_spec api_key "") as [-> | Hne]; [discriminate Hc|].
  res_step Hc. destruct a as [log1 combined].
  apply google_play_pages_spec in E as (play & android & -> & -> & Hlp & Hplay & Hand).
  apply apple_pages_spec in Hc as (count & ios & -> & -> & Hla & Hios).
  exists api_key, play, count, android, ios.
  rewrite <- app_assoc. cbn [app]. repeat split; auto.
Qed.

(** X21.  Fetching is bounded and keyed.  A returning collection had a non-empty
    API key; it sent at most [max_pages] requests to Google Play, all with
    the initial parameters and differing only in the page token, and after
    them at most [max_pages] requests to the App Store, for the pages 1, 2,
    ... in order. *)
Theorem collect_request_budget key log gp ap ac max_pages log' reviews :
  collect_reviews_from_store_apis key log gp ap ac max_pages = Ok (log', reviews) ->
  exists api_key play apple_count,
    key = Some api_key /\ api_key <> "" /\
    log' = log ++ play
               ++ map (fun i => apple_params_of ap ac api_key (1 + Z.of_nat i))
                      (seq 0 apple_count) /\
    (length play <= Z.to_nat max_pages)%nat /\
    (apple_count <= Z.to_nat max_pages)%nat /\
    Forall (fun p => forall k, k <> "next_page_token" ->
                     dict_get p k = dict_get (play_params_of gp api_key) k) play.
Proof.
  intros Hc. apply collect_spec in Hc
    as (api_key & play & count & android & ios & ? & ? & ? & ? & ? & ? & _).
  exists api_key, play, count. auto 10.
Qed.

(** X22.  Every collected review is a dict tagged with its store: the Google
    Play reviews come first, with device "Android", then the App Store
    reviews, with device "iOS"; and all carry country "India", whatever
    [apple_country] was asked for. *)
Theorem collect_tags_reviews key log gp ap ac max_pages log' reviews :
  collect_reviews_from_store_apis key log gp ap ac max_pages = Ok (log', reviews) ->
  exists android ios,
    reviews = android ++ ios /\
    Forall (tagged "Android") android /\ Forall (tagged "iOS") ios.
Proof.
  intros Hc. apply collect_spec in Hc
    as (api_key & play & count & android & ios & _ & _ & _ & _ & _ & _ & ? & ? & ?).
  exists android, ios. auto.
Qed.

End Collection.

Section LiveIngestion.
Context `{PyRuntime} `{VectorEngine} `{SerpApi}.

Lemma normalize_device_country item r :
  _normalize_review_record (VDict item) = Ok r ->
  r_device r = py_or (get item "device") (VStr "Android") /\
  r_country r = py_or (get item "country") (VStr "India").
Proof.
  unfold _normalize_review_record. intros Hn. do 6 res_step Hn.
  injection Hn as <-. split; reflexivity.
Qed.

Lemma tagged_metadata device review r :
  device <> "" ->
  tagged device review ->
  _normalize_review_record review = Ok r ->
  dict_get (metadata_of r) "device" = Some (VStr (lower device)) /\
  dict_get (metadata_of r) "country" = Some (VStr "india").
Proof.
  intros Hne (d & -> & Hdev & Hc) Hn.
  destruct (normalize_device_country _ _ Hn) as [Ed Ec].
  unfold metadata_of. cbn [dict_get String.eqb Ascii.eqb Bool.eqb].
  rewrite Ed, Ec. unfold get. rewrite Hdev, Hc.
  cbn [default from_option id]. unfold py_or, py_str. cbn [truthy str_with].
  destruct (String.eqb_spec device ""); [contradiction | split; reflexivity].
Qed.

(** X23.  Live reviews are always indexed under device "android" or "ios" and
    country "india": the tags of the collection step win over anything the
    stores sent, and over the [apple_country] that was asked for. *)
Theorem live_reviews_metadata key log gp ap ac max_pages log' raw processed :
  collect_reviews_from_store_apis key log gp ap ac max_pages = Ok (log', raw) ->
  process_raw_reviews (VList raw) = Ok processed ->
  Forall (fun md =>
            (dict_get md "device" = Some (VStr "android") \/
             dict_get md "device" = Some (VStr "ios")) /\
            dict_get md "country" = Some (VStr "india"))
         (map metadata_of processed).
Proof.
  intros Hc Hp. apply collect_spec in Hc
    as (api_key & play & count & android & ios & _ & _ & _ & _ & _ & _ & -> & Ha & Hi).
  unfold process_raw_reviews in Hp. cbn [py_iter mbind res_bind] in Hp.
  apply Forall_map. eapply traverse_Forall; [exact Hp|].
  intros review r Hin Hn. cbn beta. apply in_app_or in Hin as [Hin | Hin].
  - rewrite List.Forall_forall in Ha.
    destruct (tagged_metadata "Android" review r ltac:(discriminate) (Ha _ Hin) Hn) as [-> ->]. auto.
  - rewrite List.Forall_forall in Hi.
    destruct (tagged_metadata "iOS" review r ltac:(discriminate) (Hi _ Hin) Hn) as [-> ->]. auto.
Qed.

(** X24.  Without an API key, or with [max_pages] below one, live ingestion
    raises ValueError: in the first case before any request, in the second
    because no page is asked for and nothing is collected. *)
Theorem ingest_live_nothing_to_fetch key log st gp ap ac max_pages :
  supplied key = false \/ max_pages <= 0 ->
  ingest_live_reviews key log st gp ap ac max_pages = Raise ValueError.
Proof.
  intros Hk. unfold ingest_live_reviews, collect_reviews_from_store_apis.
  destruct key as [api_key|]; [|reflexivity].
  unfold supplied in Hk. destruct (String.eqb api_key ""); [reflexivity|].
  destruct Hk as [Hk | Hk]; [discriminate Hk|].
  replace (Z.to_nat max_pages) with 0%nat by lia. reflexivity.
Qed.

(** X25.  Once something was collected, live ingestion is payload ingestion of
    the collected list: same store afterwards, same summary. *)
Theorem ingest_live_as_payload key log st gp ap ac max_pages log' raw :
  collect_reviews_from_store_apis key log gp ap ac max_pages = Ok (log', raw) ->
  raw <> [] ->
  ingest_live_reviews key log st gp ap ac max_pages
  = (fun indexed => (log', indexed)) <$> ingest_reviews_from_payload st (VList raw).
Proof.
  intros Hc Hr. unfold ingest_live_reviews, ingest_reviews_from_payload.
  rewrite Hc. cbn [mbind res_bind _extract_raw_reviews].
  destruct raw as [|x raw]; [contradiction|].
  destruct (process_raw_reviews (VList (x :: raw))) as [processed|]; [|reflexivity].
  cbn [mbind res_bind]. unfold create_documents_and_metadata.
  destruct (index_reviews st _ _ _); reflexivity.
Qed.

(** X26.  A payload that can be ingested can be previewed, for any [limit]: the
    preview counts what ingestion reports as inserted, and its documents
    and metadata rows are aligned. *)
Theorem preview_matches_ingestion st payload st' s limit :
  ingest_reviews_from_payload st payload = Ok (st', s) ->
  exists p, preview_payload payload limit = Ok p /\
            count p = inserted s /\
            Z.of_nat (length (p_documents p)) = count p /\
            Z.of_nat (length (p_metadatas p)) = count p.
Proof.
  unfold ingest_reviews_from_payload, preview_payload. intros Hi.
  do 2 res_step Hi. rewrite ?E, ?E0. cbn [mbind res_bind]. rewrite ?E0.
  cbn [mbind res_bind]. unfold create_documents_and_metadata in *.
  destruct (index_reviews_counts _ _ _ _ _ _ Hi) as (_ & Hn & _).
  eexists. split; [reflexivity|]. cbn [count p_documents p_metadatas].
  rewrite Hn, !length_map. auto.
Qed.

End LiveIngestion.

Lemma collect_request_budget_witness :
  exists log' reviews,
    @collect_reviews_from_store_apis (canned_api sample_pages) (Some "k") []
      "life.liquide.app" "1624726081" "in" 2 = Ok (log', reviews) /\
    (length log' <= 4)%nat.
Proof.
  destruct (@collect_reviews_from_store_apis (canned_api sample_pages) (Some "k") []
              "life.liquide.app" "1624726081" "in" 2) as [[log' reviews]|] eqn:E;
    [|vm_compute in E; discriminate E].
  destruct (@collect_request_budget (canned_api sample_pages) _ _ _ _ _ _ _ _ E)
    as (api_key & play & n & _ & _ & -> & Hp & Ha & _).
  exists (play ++ map (fun i => apple_params_of "1624726081" "in" api_key (1 + Z.of_nat i))
                      (seq 0 n)), reviews.
  split; [reflexivity|].
  rewrite length_app, length_map, length_seq.
  change (Z.to_nat 2) with 2%nat in Hp, Ha. lia.
Defined.

Lemma collect_tags_reviews_witness :
  exists log' android ios,
    @collect_reviews_from_store_apis (canned_api sample_pages) (Some "k") []
      "life.liquide.app" "1624726081" "us" 2 = Ok (log', android ++ ios) /\
    Forall (tagged "Android") android /\ Forall (tagged "iOS") ios.
Proof.
  destruct (@collect_reviews_from_store_apis (canned_api sample_pages) (Some "k") []
              "life.liquide.app" "1624726081" "us" 2) as [[log' reviews]|] eqn:E;
    [|vm_compute in E; discriminate E].
  destruct (@collect_tags_reviews (canned_api sample_pages) _ _ _ _ _ _ _ _ E)
    as (android & ios & -> & Ha & Hi).
  exists log', android, ios. split; [reflexivity|]. split; assumption.
Defined.

Lemma live_reviews_metadata_witness :
  exists log' raw processed,
    @collect_reviews_from_store_apis (canned_api sample_pages) (Some "k") []
      "life.liquide.app" "1624726081" "us" 2 = Ok (log', raw) /\
    @process_raw_reviews host_utc (VList raw) = Ok processed /\
    Forall (fun md =>
              (dict_get md "device" = Some (VStr "android") \/
               dict_get md "device" = Some (VStr "ios")) /\
              dict_get md "country" = Some (VStr "india"))
           (map (@metadata_of host_utc) processed).
Proof.
  destruct (@collect_reviews_from_store_apis (canned_api sample_pages) (Some "k") []
              "life.liquide.app" "1624726081" "us" 2) as [[log' raw]|] eqn:E;
    [|vm_compute in E; discriminate E].
  destruct (@process_raw_reviews host_utc (VList raw)) as [processed|] eqn:Ep;
    [|vm_compute in E; injection E as _ <-; vm_compute in Ep; discriminate Ep].
  exists log', raw, processed. split; [reflexivity|]. split; [exact Ep|].
  exact (@live_reviews_metadata host_utc (canned_api sample_pages) _ _ _ _ _ _ _ _ _ E Ep).
Defined.

Lemma ingest_live_nothing_to_fetch_witness :
  @ingest_live_reviews host_utc scan_engine (canned_api sample_pages) (Some "k") []
    sample_store "life.liquide.app" "1624726081" "in" 0 = Raise ValueError.
Proof. apply ingest_live_nothing_to_fetch. right. lia. Defined.

Lemma ingest_live_as_payload_witness :
  exists log' raw,
    @collect_reviews_from_store_apis (canned_api sample_pages) (Some "k") []
      "life.liquide.app" "1624726081" "in" 2 = Ok (log', raw) /\
    @ingest_live_reviews host_utc scan_engine (canned_api sample_pages) (Some "k") []
      ∅ "life.liquide.app" "1624726081" "in" 2
    = (fun indexed => (log', indexed)) <$>
        @ingest_reviews_from_payload host_utc scan_engine ∅ (VList raw).
Proof.
  destruct (@collect_reviews_from_store_apis (canned_api sample_pages) (Some "k") []
              "life.liquide.app" "1624726081" "in" 2) as [[log' raw]|] eqn:E;
    [|vm_compute in E; discriminate E].
  exists log', raw. split; [reflexivity|].
  apply ingest_live_as_payload; [exact E|].
  vm_compute in E. injection E as _ <-. discriminate.
Defined.

Lemma preview_matches_ingestion_witness :
  exists p,
    @preview_payload host_utc (VList [VDict sample_review]) 20 = Ok p /\ count p = 1.
Proof.
  destruct (@ingest_reviews_from_payload host_utc scan_engine ∅ (VList [VDict sample_review]))
    as [[st' s]|] eqn:E; [|vm_compute in E; discriminate E].
  destruct (@preview_matches_ingestion host_utc scan_engine ∅ _ st' s 20 E)
    as (p & Hp & Hc & _).
  exists p. split; [exact Hp|]. rewrite Hc.
  vm_compute in E. injection E as _ <-. reflexivity.
Defined.
